(** * dnscrawler: the DNS resolution engine of [pkg/dns/resolver.go]

    A shallow embedding of the resolver: existence check, delegation
    tracer, Team Cymru ASN attribution and record aggregation.

    Go strings are byte sequences, so they are [string] (a list of 8-bit
    [ascii]); [len] is [String.length].  The network and the few library
    functions the resolver only calls (and whose text is not part of the
    repository) are gathered in a [Platform] record; every operation of
    the resolver is a computation in a small state monad that threads the
    platform's world and keeps a log of the queries it issued. *)

From Stdlib Require Import String Ascii List NArith ZArith Lia Bool.
From Stdlib Require Import Strings.Byte.
From Stdlib Require Import DecimalString DecimalN.
Import ListNotations.
Open Scope list_scope.
Open Scope string_scope.

(** ** The functions of Go's [strings] package used by the resolver *)

Module GoStrings.

(** [s[:n]] *)
Fixpoint take (n : nat) (s : string) : string :=
  match n, s with
  | S n', String c s' => String c (take n' s')
  | _, _ => EmptyString
  end.

(** [s[n:]] *)
Fixpoint drop (n : nat) (s : string) : string :=
  match n, s with
  | S n', String _ s' => drop n' s'
  | _, _ => s
  end.

Definition HasPrefix (s pre : string) : bool := String.prefix pre s.

Definition HasSuffix (s suffix : string) : bool :=
  (String.length suffix <=? String.length s)%nat
  && String.eqb (drop (String.length s - String.length suffix) s) suffix.

(** [strings.TrimSuffix]: [s] without the trailing [suffix], or [s]
    itself when it does not end with it. *)
Definition TrimSuffix (s suffix : string) : string :=
  if HasSuffix s suffix
  then take (String.length s - String.length suffix) s
  else s.

(** [strings.Index]: the position of the first instance of [sub];
    [None] is Go's [-1]. *)
Fixpoint Index (s sub : string) : option nat :=
  if String.prefix sub s then Some 0%nat
  else match s with
       | EmptyString => None
       | String _ s' => option_map S (Index s' sub)
       end.

Definition Contains (s sub : string) : bool :=
  match Index s sub with Some _ => true | None => false end.

(** [strings.Count] for a non-empty [sub]: the number of
    non-overlapping instances, counted from the left.  The recursion is
    on the remaining string, which gets shorter at each instance. *)
Fixpoint Count_from (fuel : nat) (s sub : string) : nat :=
  match fuel with
  | O => 0
  | S fuel' =>
      match Index s sub with
      | None => 0
      | Some m => S (Count_from fuel' (drop (m + String.length sub) s) sub)
      end
  end.

Definition Count (s sub : string) : nat :=
  Count_from (String.length s) s sub.

(** The loop of [genSplit]: at most [k] cuts, the rest of the string is
    the last piece. *)
Fixpoint split_loop (k : nat) (s sep : string) : list string :=
  match k with
  | O => [s]
  | S k' =>
      match Index s sep with
      | None => [s]
      | Some m =>
          take m s :: split_loop k' (drop (m + String.length sep) s) sep
      end
  end.

(** [strings.genSplit s sep 0 n].  Both call sites of the resolver pass
    a non-empty constant separator, so the [explode] branch taken by Go
    for [sep = ""] is not part of the embedding. *)
Definition genSplit (s sep : string) (n : Z) : list string :=
  if (n =? 0)%Z then []
  else
    let n := if (n <? 0)%Z then (Z.of_nat (Count s sep) + 1)%Z else n in
    let n := if (n >? Z.of_nat (String.length s) + 1)%Z
             then (Z.of_nat (String.length s) + 1)%Z else n in
    split_loop (Z.to_nat (n - 1)) s sep.

Definition Split (s sep : string) : list string := genSplit s sep (-1).
Definition SplitN (s sep : string) (n : Z) : list string := genSplit s sep n.

(** [strings.Join] *)
Fixpoint Join (elems : list string) (sep : string) : string :=
  match elems with
  | [] => ""
  | [e] => e
  | e :: rest => e ++ sep ++ Join rest sep
  end.

End GoStrings.
Import GoStrings.

(** ** Formatting verbs *)

Definition hex_digit (n : N) : ascii :=
  match n with
  | 0%N => "0" | 1%N => "1" | 2%N => "2" | 3%N => "3"
  | 4%N => "4" | 5%N => "5" | 6%N => "6" | 7%N => "7"
  | 8%N => "8" | 9%N => "9" | 10%N => "a" | 11%N => "b"
  | 12%N => "c" | 13%N => "d" | 14%N => "e" | _ => "f"
  end%char.

(** [fmt.Sprintf("%x", v)] for a [byte] value [v] (below 256): lower-case
    hexadecimal without padding. *)
Definition fmt_x (v : N) : string :=
  if (v <? 16)%N then String (hex_digit v) ""
  else String (hex_digit (v / 16)) (String (hex_digit (v mod 16)) "").

(** [fmt.Sprintf("%d", v)] for an unsigned value. *)
Definition fmt_d (v : N) : string := NilZero.string_of_uint (N.to_uint v).

Definition is_hex_digit (c : ascii) : bool :=
  existsb (Ascii.eqb c) (list_ascii_of_string "0123456789abcdef").

Definition is_digit (c : ascii) : bool :=
  existsb (Ascii.eqb c) (list_ascii_of_string "0123456789").

Fixpoint all_digits (s : string) : bool :=
  match s with
  | EmptyString => true
  | String c s' => is_digit c && all_digits s'
  end.

(** ** DNS messages, as [github.com/miekg/dns] presents them *)

(** [net.IP] is a byte slice. *)
Definition IP := list byte.

Definition IPv4len : nat := 4.
Definition IPv6len : nat := 16.

Definition v4InV6Prefix : list byte :=
  [x00; x00; x00; x00; x00; x00; x00; x00; x00; x00; xff; xff]%byte.

(** [net.IP.To16]: a 4-byte address becomes its IPv4-in-IPv6 form, a
    16-byte address is returned as it is, anything else is nil. *)
Definition To16 (ip : IP) : option IP :=
  if (List.length ip =? IPv4len)%nat then Some (v4InV6Prefix ++ ip)%list
  else if (List.length ip =? IPv6len)%nat then Some ip
  else None.

Record RR_Header := mkHdr {
  Name : string;
  Rrtype : N;
  Class : N;
  Ttl : N
}.

(** The resource records the resolver tells apart by their Go type; every
    other record type is [RR_other]. *)
Inductive RR :=
| RR_A (Hdr : RR_Header) (A : IP)
| RR_NS (Hdr : RR_Header) (Ns : string)
| RR_CNAME (Hdr : RR_Header) (Target : string)
| RR_MX (Hdr : RR_Header) (Preference : N) (Mx : string)
| RR_TXT (Hdr : RR_Header) (Txt : list string)
| RR_AAAA (Hdr : RR_Header) (AAAA : IP)
| RR_other (Hdr : RR_Header).

Record Msg := mkMsg {
  Rcode : N;
  Answer : list RR;
  Ns : list RR;
  Extra : list RR
}.

Definition TypeA : N := 1.
Definition TypeNS : N := 2.
Definition TypeCNAME : N := 5.
Definition TypeMX : N := 15.
Definition TypeTXT : N := 16.
Definition TypeAAAA : N := 28.
Definition RcodeNameError : N := 3.

(** What [SetQuestion] and the [RecursionDesired] flag put in a query. *)
Record Question := mkQ {
  qname : string;
  qtype : N;
  RecursionDesired : bool
}.

(** The outcome of [client.Exchange]: a response or a transport error. *)
Inductive Exchanged :=
| Ok (resp : Msg)
| Err (e : string).

(** ** The platform

    The network and the library functions whose text is outside the
    repository.  [World] is whatever state the outside world has; an
    exchange or a host lookup may change it, so two equal queries need
    not give equal answers. *)
Record Platform := mkPlatform {
  World : Type;
  (** [dns.Fqdn] *)
  Fqdn : string -> string;
  (** [strings.TrimSpace] *)
  TrimSpace : string -> string;
  (** [net.ParseIP]; [None] is nil *)
  ParseIP : string -> option IP;
  (** [net.IP.String] *)
  IP_String : IP -> string;
  (** [dns.Client.Exchange] on a question and a server address *)
  net_Exchange : Question -> string -> World -> Exchanged * World;
  (** [net.LookupHost]; the addresses are empty on error *)
  net_LookupHost : string -> World -> list string * World
}.

(** ** Data model of the resolver *)

Record TraceStep := mkStep {
  Zone : string;
  Server : string
}.

Record Records := mkRecords {
  rec_A : list string;
  rec_AAAA : list string;
  rec_MX : list string;
  rec_TXT : list string;
  rec_NS : list string;
  rec_CNAME : list string
}.

Record ASNInfo := mkASN {
  ASN : string;
  Org : string
}.

Record Nameserver := mkNameserver {
  Nameserver_Name : string;
  Nameserver_IP : string
}.

(** ** Queries as logged effects *)

Inductive Event :=
| EvExchange (q : Question) (server : string) (r : Exchanged)
| EvLookupHost (host : string) (ips : list string).

Definition is_exchange (e : Event) : bool :=
  match e with EvExchange _ _ _ => true | EvLookupHost _ _ => false end.

Section Resolver.

Context (P : Platform).

Record State := mkState {
  world : World P;
  qlog : list Event
}.

Definition M (A : Type) : Type := State -> A * State.

Definition ret {A} (a : A) : M A := fun s => (a, s).

Definition bind {A B} (m : M A) (k : A -> M B) : M B :=
  fun s => let (a, s') := m s in k a s'.

Notation "x <- m ;; k" := (bind m (fun x => k))
  (at level 61, m at next level, right associativity).
Notation "' pat <- m ;; k" :=
  (bind m (fun x => match x with pat => k end))
  (at level 61, pat pattern, m at next level, right associativity).

(** [r.client.Exchange(m, server)] *)
Definition Exchange (q : Question) (server : string) : M Exchanged :=
  fun s =>
    let (r, w) := net_Exchange P q server (world s) in
    (r, mkState w (qlog s ++ [EvExchange q server r])%list).

(** [net.LookupHost(host)] with its error dropped *)
Definition LookupHost (host : string) : M (list string) :=
  fun s =>
    let (ips, w) := net_LookupHost P host (world s) in
    (ips, mkState w (qlog s ++ [EvLookupHost host ips])%list).

Definition resolver_addr : string := "8.8.8.8:53".

(** *** Exists *)

Definition Exists (domain : string) : M bool :=
  let domain := Fqdn P domain in
  r <- Exchange (mkQ domain TypeNS true) resolver_addr ;;
  match r with
  | Err _ => ret true
  | Ok resp => ret (negb (Rcode resp =? RcodeNameError)%N)
  end.

(** *** Trace *)

Definition rootServers : list string :=
  ["198.41.0.4"; "199.9.14.201"; "192.33.4.12"].

Definition rootNames : list (string * string) :=
  [("198.41.0.4", "a.root-servers.net");
   ("199.9.14.201", "b.root-servers.net");
   ("192.33.4.12", "c.root-servers.net")].

Fixpoint map_lookup (m : list (string * string)) (k : string)
  : option string :=
  match m with
  | [] => None
  | (k', v) :: m' => if String.eqb k' k then Some v else map_lookup m' k
  end.

Definition getRootServerName (ip : string) : string :=
  match map_lookup rootNames ip with
  | Some name => name
  | None => ip
  end.

(** The parts of the domain and the zones walked, root first. *)
Definition parts_of (domain : string) : list string :=
  Split (TrimSuffix (Fqdn P domain) ".") ".".

Definition zones_of (parts : list string) : list string :=
  "." :: map (fun i => Join (skipn i parts) "." ++ ".")
             (rev (seq 0 (List.length parts))).

(** The section the NS records are looked for in. *)
Definition select_records (resp : Msg) : list RR :=
  match Answer resp with
  | _ :: _ => Answer resp
  | [] => match Ns resp with
          | _ :: _ => Ns resp
          | [] => []
          end
  end.

(** The scan of the additional section for a glue record of [ns]; the
    first A record owned by [ns] sets [nextServer] and ends the scan. *)
Fixpoint glue_scan (extra : list RR) (ns : string) (nextServer : string)
  : string :=
  match extra with
  | [] => nextServer
  | RR_A hdr a :: extra' =>
      if String.eqb (Name hdr) ns then IP_String P a
      else glue_scan extra' ns nextServer
  | _ :: extra' => glue_scan extra' ns nextServer
  end.

(** The body of the loop for one NS record [ns]: the glue scan, then
    [net.LookupHost] only if [nextServer] is still empty after it. *)
Definition next_server_for (extra : list RR) (ns : string)
    (nextServer : string) : M string :=
  let serverName := TrimSuffix ns "." in
  let nextServer := glue_scan extra ns nextServer in
  if String.eqb nextServer ""
  then ips <- LookupHost serverName ;;
       ret (match ips with
            | ip0 :: _ => ip0
            | [] => nextServer
            end)
  else ret nextServer.

(** The loop over the selected records, carrying [nextServer] and
    [serverName]; it stops at the first NS record that leaves
    [nextServer] non-empty. *)
Fixpoint ns_loop (nsRecords extra : list RR) (nextServer serverName : string)
  : M (string * string) :=
  match nsRecords with
  | [] => ret (nextServer, serverName)
  | RR_NS _ ns :: rest =>
      let serverName := TrimSuffix ns "." in
      nextServer <- next_server_for extra ns nextServer ;;
      if negb (String.eqb nextServer "")
      then ret (nextServer, serverName)
      else ns_loop rest extra nextServer serverName
  | _ :: rest => ns_loop rest extra nextServer serverName
  end.

(** One iteration of the zone loop for a zone other than the root. *)
Definition trace_zone (zone : string) (steps : list TraceStep)
    (currentServer : string) : M (list TraceStep * string) :=
  r <- Exchange (mkQ zone TypeNS false) (currentServer ++ ":53") ;;
  match r with
  | Err _ => ret (steps, currentServer)
  | Ok resp =>
      let nsRecords := select_records resp in
      '(nextServer, serverName) <- ns_loop nsRecords (Extra resp) "" "" ;;
      let steps :=
        if negb (String.eqb serverName "")
        then (steps ++ [mkStep zone serverName])%list
        else steps in
      let currentServer :=
        if negb (String.eqb nextServer "")
        then nextServer
        else currentServer in
      ret (steps, currentServer)
  end.

(** [for i, zone := range zones] *)
Fixpoint trace_loop (i : nat) (zones : list string)
    (steps : list TraceStep) (currentServer : string)
  : M (list TraceStep * string) :=
  match zones with
  | [] => ret (steps, currentServer)
  | zone :: rest =>
      '(steps, currentServer) <-
        (if (i =? 0)%nat
         then
           let serverName := getRootServerName currentServer in
           ret ((steps ++ [mkStep "." serverName])%list, currentServer)
         else trace_zone zone steps currentServer) ;;
      trace_loop (S i) rest steps currentServer
  end.

(** [Trace]; its error is always nil. *)
Definition Trace (domain : string) : M (list TraceStep * option string) :=
  let currentServer := nth 0 rootServers "" in
  let parts := parts_of domain in
  let zones := zones_of parts in
  '(steps, _) <- trace_loop 0 zones [] currentServer ;;
  ret (steps, None).

(** *** LookupASN *)

(** The loop [for i := len(full) - 1; i >= 0; i--] that appends the low
    and then the high nibble of [full[i]]; [i] counts the bytes still to
    be visited. *)
Fixpoint nibble_loop (i : nat) (full : IP) (nibbles : list string)
  : list string :=
  match i with
  | O => nibbles
  | S i' =>
      let b := Byte.to_N (nth i' full x00%byte) in
      let nibbles := (nibbles ++ [fmt_x (N.land b 15)])%list in
      let nibbles := (nibbles ++ [fmt_x (N.shiftr b 4)])%list in
      nibble_loop i' full nibbles
  end.

(** The name of the origin query, or [None] where [LookupASN] returns
    nil before it sends anything. *)
Definition origin_query (ip : string) : option string :=
  if Contains ip ":" then
    match ParseIP P ip with
    | None => None
    | Some addr =>
        match To16 addr with
        | None => None
        | Some full =>
            let nibbles := nibble_loop (List.length full) full [] in
            Some (Join nibbles "." ++ ".origin6.asn.cymru.com.")
        end
    end
  else
    let parts := Split ip "." in
    if negb (List.length parts =? 4)%nat then None
    else
      let reversed :=
        nth 3 parts "" ++ "." ++ nth 2 parts "" ++ "."
        ++ nth 1 parts "" ++ "." ++ nth 0 parts "" in
      Some (reversed ++ ".origin.asn.cymru.com.").

Definition lookupASName (asn : string) : M (option ASNInfo) :=
  let nameQuery := "AS" ++ asn ++ ".asn.cymru.com." in
  r <- Exchange (mkQ nameQuery TypeTXT true) resolver_addr ;;
  match r with
  | Err _ => ret (Some (mkASN ("AS" ++ asn) ""))
  | Ok resp =>
      match Answer resp with
      | [] => ret (Some (mkASN ("AS" ++ asn) ""))
      | RR_TXT _ (t0 :: _) :: _ =>
          let nameFields := SplitN t0 " | " 5 in
          let org :=
            if (5 <=? List.length nameFields)%nat
            then TrimSpace P (nth 4 nameFields "")
            else "" in
          ret (Some (mkASN ("AS" ++ asn) org))
      | _ :: _ => ret (Some (mkASN ("AS" ++ asn) ""))
      end
  end.

Definition LookupASN (ip : string) : M (option ASNInfo) :=
  match origin_query ip with
  | None => ret None
  | Some query =>
      r <- Exchange (mkQ query TypeTXT true) resolver_addr ;;
      match r with
      | Err _ => ret None
      | Ok resp =>
          match Answer resp with
          | [] => ret None
          | RR_TXT _ (t0 :: _) :: _ =>
              let fields := SplitN t0 " | " 5 in
              if (List.length fields <? 1)%nat then ret None
              else
                let asn := TrimSpace P (nth 0 fields "") in
                lookupASName asn
          | _ :: _ => ret None
          end
      end
  end.

(** *** GetRecords *)

(** The type switch of [queryRecords] over the answer section. *)
Fixpoint collect_records (answer : list RR) (results : list string)
  : list string :=
  match answer with
  | [] => results
  | RR_A _ a :: rest =>
      collect_records rest (results ++ [IP_String P a])%list
  | RR_AAAA _ a :: rest =>
      collect_records rest (results ++ [IP_String P a])%list
  | RR_CNAME _ target :: rest =>
      collect_records rest (results ++ [TrimSuffix target "."])%list
  | _ :: rest => collect_records rest results
  end.

Definition queryRecords (domain : string) (qtype : N) : M (list string) :=
  r <- Exchange (mkQ domain qtype true) resolver_addr ;;
  match r with
  | Err _ => ret []
  | Ok resp => ret (collect_records (Answer resp) [])
  end.

Fixpoint collect_mx (answer : list RR) (results : list string)
  : list string :=
  match answer with
  | [] => results
  | RR_MX _ pref mx :: rest =>
      collect_mx rest
        (results ++ [(fmt_d pref ++ " " ++ TrimSuffix mx ".")%string])%list
  | _ :: rest => collect_mx rest results
  end.

Definition queryMX (domain : string) : M (list string) :=
  r <- Exchange (mkQ domain TypeMX true) resolver_addr ;;
  match r with
  | Err _ => ret []
  | Ok resp => ret (collect_mx (Answer resp) [])
  end.

(** The value [queryTXT] keeps for one TXT record. *)
Definition txt_value (txt : list string) : string :=
  let value := Join txt "" in
  if (60 <? String.length value)%nat
  then take 57 value ++ "..."
  else value.

Fixpoint collect_txt (answer : list RR) (results : list string)
  : list string :=
  match answer with
  | [] => results
  | RR_TXT _ txt :: rest =>
      collect_txt rest (results ++ [txt_value txt])%list
  | _ :: rest => collect_txt rest results
  end.

Definition queryTXT (domain : string) : M (list string) :=
  r <- Exchange (mkQ domain TypeTXT true) resolver_addr ;;
  match r with
  | Err _ => ret []
  | Ok resp => ret (collect_txt (Answer resp) [])
  end.

(** [GetRecords]; its error is always nil and the NS field stays
    empty. *)
Definition GetRecords (domain : string) : M (Records * option string) :=
  let domain := Fqdn P domain in
  a <- queryRecords domain TypeA ;;
  aaaa <- queryRecords domain TypeAAAA ;;
  mx <- queryMX domain ;;
  txt <- queryTXT domain ;;
  cname <- queryRecords domain TypeCNAME ;;
  ret (mkRecords a aaaa mx txt [] cname, None).

(** *** GetNameservers *)

(** The loop of [resolveNS] over the answer section: the address of the
    first A record, or the empty string. *)
Fixpoint first_A (answer : list RR) : string :=
  match answer with
  | [] => ""
  | RR_A _ a :: _ => IP_String P a
  | _ :: rest => first_A rest
  end.

Definition resolveNS (nsName : string) : M string :=
  r <- Exchange (mkQ nsName TypeA true) resolver_addr ;;
  match r with
  | Err _ => ret ""
  | Ok resp => ret (first_A (Answer resp))
  end.

(** The loop of [GetNameservers] over the answer section. *)
Fixpoint collect_nameservers (answer : list RR) (nameservers : list Nameserver)
  : M (list Nameserver) :=
  match answer with
  | [] => ret nameservers
  | RR_NS _ ns :: rest =>
      let nsName := TrimSuffix ns "." in
      ip <- resolveNS ns ;;
      collect_nameservers rest (nameservers ++ [mkNameserver nsName ip])%list
  | _ :: rest => collect_nameservers rest nameservers
  end.

Definition GetNameservers (domain : string)
  : M (list Nameserver * option string) :=
  let domain := Fqdn P domain in
  r <- Exchange (mkQ domain TypeNS true) resolver_addr ;;
  match r with
  | Err e => ret ([], Some e)
  | Ok resp =>
      nameservers <- collect_nameservers (Answer resp) [] ;;
      ret (nameservers, None)
  end.

End Resolver.

Arguments ret {P A} a.
Arguments bind {P A B} m k.
Arguments world {P} s.
Arguments qlog {P} s.
Arguments mkState {P} world qlog.

(** ** A sample platform

    A small fixed network, used to run the resolver on concrete inputs.
    Its world counts the calls made. *)
Module Sample.

Definition fqdn (s : string) : string :=
  if HasSuffix s "." then s else s ++ ".".

Definition is_space (c : ascii) : bool :=
  existsb (Ascii.eqb c)
    [" "%char; "009"%char; "010"%char; "011"%char; "012"%char; "013"%char].

Fixpoint trim_left (s : string) : string :=
  match s with
  | String c s' => if is_space c then trim_left s' else s
  | EmptyString => EmptyString
  end.

Fixpoint trim_right (s : string) : string :=
  match s with
  | EmptyString => EmptyString
  | String c s' =>
      match trim_right s' with
      | EmptyString => if is_space c then EmptyString else String c ""
      | t => String c t
      end
  end.

(** [strings.TrimSpace] on ASCII text. *)
Definition trim_space (s : string) : string := trim_right (trim_left s).

Definition octet (b : byte) : string := fmt_d (Byte.to_N b).

(** [net.IP.String] on the addresses of the sample network. *)
Definition ip_string (ip : IP) : string :=
  match ip with
  | [] => "<nil>"
  | [a; b; c; d] => octet a ++ "." ++ octet b ++ "." ++ octet c ++ "." ++ octet d
  | _ => "?"
  end.

Definition parse_ip (s : string) : option IP :=
  if String.eqb s "2001:db8::1"
  then Some [x20; x01; x0d; xb8; x00; x00; x00; x00;
             x00; x00; x00; x00; x00; x00; x00; x01]%byte
  else None.

Definition hdr (name : string) (t : N) : RR_Header := mkHdr name t 1 3600.

Definition gtld_ip : IP := [xc0; x05; x06; x1e]%byte.
Definition ns2_ip : IP := [xc6; x33; x64; x02]%byte.
Definition web_ip : IP := [x68; x12; x1b; x78]%byte.

(** A referral from the root: the NS record in the authority section
    and its glue in the additional section. *)
Definition com_reply : Msg :=
  mkMsg 0 []
    [RR_NS (hdr "com." TypeNS) "a.gtld-servers.net."]
    [RR_A (hdr "a.gtld-servers.net." TypeA) gtld_ip].

(** A referral with two NS records and glue for the second only. *)
Definition example_reply : Msg :=
  mkMsg 0 []
    [RR_NS (hdr "example.com." TypeNS) "ns1.example.com.";
     RR_NS (hdr "example.com." TypeNS) "ns2.example.com."]
    [RR_A (hdr "ns2.example.com." TypeA) ns2_ip].

(** An answer section without NS records (one SOA record) next to an
    authority section with one. *)
Definition org_reply : Msg :=
  mkMsg 0
    [RR_other (hdr "org." 6)]
    [RR_NS (hdr "org." TypeNS) "a0.org.afilias-nst.info."]
    [].

(** A referral without glue. *)
Definition net_reply : Msg :=
  mkMsg 0 []
    [RR_NS (hdr "net." TypeNS) "a0.org.afilias-nst.info."]
    [].

(** The answer to an A query for an alias. *)
Definition alias_reply : Msg :=
  mkMsg 0
    [RR_CNAME (hdr "example.com." TypeCNAME) "web.example.net.";
     RR_A (hdr "web.example.net." TypeA) web_ip]
    [] [].

Definition txt_of (name text : string) : Msg :=
  mkMsg 0 [RR_TXT (hdr name TypeTXT) [text]] [] [].

(** A TXT record without segments. *)
Definition empty_txt_reply : Msg :=
  mkMsg 0 [RR_TXT (hdr "9.9.9.9.origin.asn.cymru.com." TypeTXT) []] [] [].

(** A TXT record in three segments, 78 characters in all. *)
Definition long_txt_reply : Msg :=
  mkMsg 0
    [RR_TXT (hdr "example.com." TypeTXT)
       ["v=spf1 include:_spf.example.com "; "include:mail.example.net ";
        "ip4:192.0.2.0/24 -all"];
     RR_TXT (hdr "example.com." TypeTXT) ["short"]]
    [] [].

Definition answers (q : Question) (server : string) : Exchanged :=
  let n := qname q in
  if String.eqb n "com." then Ok com_reply
  else if String.eqb n "example.com." && (qtype q =? TypeNS)%N
  then Ok example_reply
  else if String.eqb n "example.com." && (qtype q =? TypeA)%N
  then Ok alias_reply
  else if String.eqb n "example.com." && (qtype q =? TypeTXT)%N
  then Ok long_txt_reply
  else if String.eqb n "org." then Ok org_reply
  else if String.eqb n "net." then Ok net_reply
  else if String.eqb n "120.27.18.104.origin.asn.cymru.com." then
    Ok (txt_of n "13335 | 104.18.16.0/20 | US | arin | 2014-03-28")
  else if String.eqb n "AS13335.asn.cymru.com." then
    Ok (txt_of n "13335 | US | arin | 2010-07-14 | CLOUDFLARENET, US")
  else if String.eqb n "1.2.0.192.origin.asn.cymru.com." then
    Ok (txt_of n "64496 64497 | 192.0.2.0/24 | ZZ | iana | 2010-01-01")
  else if String.eqb n "9.9.9.9.origin.asn.cymru.com." then Ok empty_txt_reply
  else if String.eqb n "nosuch.invalid." then
    Ok (mkMsg RcodeNameError [] [] [])
  else Err "i/o timeout".

Definition exchange (q : Question) (server : string) (w : nat)
  : Exchanged * nat := (answers q server, S w).

Definition lookup_host (host : string) (w : nat) : list string * nat :=
  if String.eqb host "a0.org.afilias-nst.info"
  then (["199.19.56.1"; "199.19.57.1"], S w)
  else ([], S w).

Definition platform : Platform :=
  mkPlatform nat fqdn trim_space parse_ip ip_string exchange lookup_host.

Definition start : State platform := mkState (0%nat : World platform) [].

End Sample.

(** ** The packages around the resolver

    [pkg/domain], the text helpers of [pkg/whois], [pkg/provider] and the
    argument handling of the command.  [strings.ToLower] and
    [strings.TrimSpace] are library functions and stay parameters. *)

(** [strings.TrimPrefix] *)
Definition TrimPrefix (s pre : string) : string :=
  if HasPrefix s pre then drop (String.length pre) s else s.

Module Domain.

(** The keys of [multiPartTLDs]; every key maps to true. *)
Definition multiPartTLDs_keys : list string :=
  ["co.uk"; "org.uk"; "me.uk"; "ac.uk"; "gov.uk"; "co.nz"; "org.nz";
   "net.nz"; "co.jp"; "ne.jp"; "or.jp"; "ac.jp"; "com.au"; "net.au";
   "org.au"; "edu.au"; "gov.au"; "co.za"; "org.za"; "com.br"; "org.br";
   "net.br"; "gov.br"; "com.mx"; "org.mx"; "gob.mx"; "co.in"; "net.in";
   "org.in"; "ac.in"; "gov.in"; "com.cn"; "net.cn"; "org.cn"; "gov.cn";
   "com.tw"; "org.tw"; "gov.tw"; "co.kr"; "or.kr"; "ne.kr"; "com.sg";
   "org.sg"; "edu.sg"; "gov.sg"; "com.my"; "org.my"; "gov.my"; "co.th";
   "or.th"; "ac.th"; "go.th"; "com.ph"; "org.ph"; "gov.ph"; "com.vn";
   "org.vn"; "gov.vn"; "co.id"; "or.id"; "ac.id"; "go.id"; "com.ar";
   "org.ar"; "gov.ar"; "co.cl"; "com.co"; "org.co"; "gov.co"; "com.pe";
   "org.pe"; "gob.pe"; "com.ve"; "org.ve"; "gob.ve"; "com.ec"; "org.ec";
   "com.uy"; "org.uy"; "gub.uy"; "co.il"; "org.il"; "ac.il"; "gov.il";
   "com.tr"; "org.tr"; "gov.tr"; "edu.tr"; "com.ua"; "org.ua"; "gov.ua";
   "co.ke"; "or.ke"; "go.ke"; "co.tz"; "or.tz"; "go.tz"; "co.ug";
   "or.ug"; "go.ug"; "com.ng"; "org.ng"; "gov.ng"; "com.eg"; "org.eg";
   "gov.eg"; "com.sa"; "org.sa"; "gov.sa"; "com.ae"; "org.ae"; "gov.ae";
   "com.pk"; "org.pk"; "gov.pk"; "govt.nz"; "ac.nz"; "com.pl"; "org.pl";
   "gov.pl"; "net.pl"; "com.ru"; "org.ru"; "gov.ru"; "priv.no";
   "fylke.no"; "kommune.no"].

(** [multiPartTLDs[k]], false for a missing key. *)
Definition multiPartTLDs (k : string) : bool :=
  existsb (String.eqb k) multiPartTLDs_keys.

Section WithText.

Variables ToLower TrimSpace : string -> string.

Definition GetRootDomain (domain : string) : string :=
  let domain := ToLower (TrimSpace domain) in
  let domain := TrimSuffix domain "." in
  let parts := Split domain "." in
  let n := List.length parts in
  if (n <=? 2)%nat then domain
  else
    let standard := nth (n - 2) parts "" ++ "." ++ nth (n - 1) parts "" in
    if (3 <=? n)%nat then
      let possibleTLD := nth (n - 2) parts "" ++ "." ++ nth (n - 1) parts "" in
      if multiPartTLDs possibleTLD then
        if (3 <=? n)%nat
        then nth (n - 3) parts "" ++ "." ++ possibleTLD
        else domain
      else standard
    else standard.

Definition IsSubdomain (domain : string) : bool :=
  let domain := ToLower (TrimSpace domain) in
  let domain := TrimSuffix domain "." in
  let rootDomain := GetRootDomain domain in
  negb (String.eqb domain rootDomain).

Definition GetParentDomain (domain : string) : string :=
  let domain := ToLower (TrimSpace domain) in
  let domain := TrimSuffix domain "." in
  let parts := Split domain "." in
  if (List.length parts <=? 2)%nat then domain
  else Join (skipn 1 parts) ".".

End WithText.

End Domain.

Module Whois.

Definition getTLD (domain : string) : string :=
  let parts := Split domain "." in
  if (0 <? List.length parts)%nat
  then nth (List.length parts - 1) parts ""
  else "".

Definition month_names : list string :=
  ["Jan"; "Feb"; "Mar"; "Apr"; "May"; "Jun";
   "Jul"; "Aug"; "Sep"; "Oct"; "Nov"; "Dec"].

Definition formatDate (date : string) : string :=
  if String.eqb date "" then ""
  else if Contains date "-" && negb (HasPrefix date "20")
          && negb (HasPrefix date "19")
          && existsb (Contains date) month_names
  then date
  else if (10 <=? String.length date)%nat
          && (HasPrefix date "20" || HasPrefix date "19")
  then take 10 date
  else date.

(** The loop of [parseStatus]; [seen] holds the keys of the map. *)
Fixpoint parseStatus_loop (statuses : list string) (seen result : list string)
  : list string :=
  match statuses with
  | [] => result
  | s :: rest =>
      let status :=
        match Index s " " with
        | Some (S idx) => take (S idx) s
        | _ => s
        end in
      if negb (existsb (String.eqb status) seen)
      then parseStatus_loop rest (status :: seen) (result ++ [status])%list
      else parseStatus_loop rest seen result
  end.

Definition parseStatus (statuses : list string) : list string :=
  parseStatus_loop statuses [] [].

End Whois.

Module Provider.

Section WithRegexp.

(** [regexp.Regexp], [regexp.Compile] (with the text of its error) and
    [Regexp.MatchString]. *)
Variable Regexp : Type.
Variable Compile : string -> Regexp + string.
Variable MatchString : Regexp -> string -> bool.
Variables ToLower TrimSpace : string -> string.

Record Pattern := mkPattern {
  Regex : Regexp;
  Provider : string
}.

(** A [Matcher] holds one slice of patterns; its methods update that
    slice in place, so they return the matcher they leave. *)
Definition Matcher := list Pattern.

Record PatternError := mkPatternError {
  PE_Pattern : string;
  PE_Message : string
}.

Definition Error (e : PatternError) : string :=
  "invalid pattern '" ++ PE_Pattern e ++ "': " ++ PE_Message e.

(** The loop of [newMatcherFrom] over (pattern, provider) pairs. *)
Fixpoint newMatcherFrom_loop (patterns : list (string * string)) (m : Matcher)
  : Matcher :=
  match patterns with
  | [] => m
  | (pattern, provider) :: rest =>
      match Compile ("(?i)" ++ pattern) with
      | inr _ => newMatcherFrom_loop rest m
      | inl re => newMatcherFrom_loop rest (m ++ [mkPattern re provider])%list
      end
  end.

Definition newMatcherFrom (patterns : list (string * string)) : Matcher :=
  newMatcherFrom_loop patterns [].

Definition AddPattern (m : Matcher) (patternSpec : string)
  : option PatternError * Matcher :=
  let parts := SplitN patternSpec ":" 2 in
  if negb (List.length parts =? 2)%nat then
    (Some (mkPatternError patternSpec
             "invalid format, expected 'pattern:provider'"), m)
  else
    let pattern := TrimSpace (nth 0 parts "") in
    let provider := TrimSpace (nth 1 parts "") in
    if String.eqb pattern "" || String.eqb provider "" then
      (Some (mkPatternError patternSpec
               "pattern and provider cannot be empty"), m)
    else
      match Compile ("(?i)" ++ pattern) with
      | inr err => (Some (mkPatternError pattern err), m)
      | inl re => (None, mkPattern re provider :: m)
      end.

Fixpoint AddPatterns_loop (m : Matcher) (patternSpecs : list string)
    (errors : list PatternError) : list PatternError * Matcher :=
  match patternSpecs with
  | [] => (errors, m)
  | spec :: rest =>
      match AddPattern m spec with
      | (Some err, m') => AddPatterns_loop m' rest (errors ++ [err])%list
      | (None, m') => AddPatterns_loop m' rest errors
      end
  end.

Definition AddPatterns (m : Matcher) (patternSpecs : list string)
  : list PatternError * Matcher :=
  AddPatterns_loop m patternSpecs [].

Fixpoint Match_loop (patterns : list Pattern) (ns : string) : string :=
  match patterns with
  | [] => ""
  | p :: rest =>
      if MatchString (Regex p) ns then Provider p else Match_loop rest ns
  end.

Definition Match (m : Matcher) (nameserver : string) : string :=
  let ns := ToLower nameserver in
  Match_loop m ns.

End WithRegexp.

End Provider.

Module Cmd.

Section WithText.

Variables ToLower TrimSpace : string -> string.

(** The value of [domainArg] in [runCrawler] once the protocol and the
    path have been removed. *)
Definition domainArg (arg0 : string) : string :=
  let domainArg := ToLower (TrimSpace arg0) in
  let domainArg := TrimPrefix domainArg "http://" in
  let domainArg := TrimPrefix domainArg "https://" in
  match Index domainArg "/" with
  | Some (S idx) => take (S idx) domainArg
  | _ => domainArg
  end.

(** The ASN column of [printDomainInfo] and [printRecords]: the
    organisation when there is one, the AS number otherwise, nothing
    without a result. *)
Definition asn_display (info : option ASNInfo) : string :=
  match info with
  | None => ""
  | Some info => if negb (String.eqb (Org info) "") then Org info else ASN info
  end.

End WithText.

End Cmd.

(** ** Vocabulary of the statements *)

(** All the segments of a TXT record, one after the other. *)
Definition concat_segments (txt : list string) : string :=
  fold_right String.append "" txt.

(** The TXT records of an answer section, in response order. *)
Definition txt_records (answer : list RR) : list (list string) :=
  flat_map (fun rr => match rr with RR_TXT _ txt => [txt] | _ => [] end) answer.

(** What the shared extractor keeps of an answer section: the address of
    every A and AAAA record and the target of every CNAME record, whatever
    the question was. *)
Definition extracted_of (P : Platform) (rr : RR) : list string :=
  match rr with
  | RR_A _ a => [IP_String P a]
  | RR_AAAA _ a => [IP_String P a]
  | RR_CNAME _ target => [TrimSuffix target "."]
  | _ => []
  end.

(** What [queryRecords] returns for the outcome [r] of its exchange. *)
Definition extracted (P : Platform) (r : Exchanged) : list string :=
  match r with
  | Ok resp => flat_map (extracted_of P) (Answer resp)
  | Err _ => []
  end.

(** The type assertion [rr.( *dns.NS)]. *)
Definition is_NS (rr : RR) : bool :=
  match rr with RR_NS _ _ => true | _ => false end.

(** The address of the first A record of the additional section that is
    owned by exactly [ns], if there is one: the glue for [ns]. *)
Fixpoint glue_of (extra : list RR) (ns : string) : option IP :=
  match extra with
  | [] => None
  | RR_A hdr a :: extra' =>
      if String.eqb (Name hdr) ns then Some a else glue_of extra' ns
  | _ :: extra' => glue_of extra' ns
  end.

(** The questions of the exchanges of a log, in the order sent. *)
Definition questions_of (evs : list Event) : list Question :=
  flat_map (fun e => match e with
                     | EvExchange q _ _ => [q]
                     | EvLookupHost _ _ => []
                     end) evs.

(** The state after a host lookup. *)
Definition after_lookup (P : Platform) (host : string) (s : State P) : State P :=
  snd (LookupHost P host s).

(** The state once the NS query for [zone] has been exchanged. *)
Definition after_exchange (P : Platform) (zone cur : string) (s : State P)
  : State P :=
  snd (Exchange P (mkQ zone TypeNS false) (cur ++ ":53") s).

(** What the NS query for [zone], sent to [cur] in state [s], comes back
    with. *)
Definition zone_reply (P : Platform) (zone cur : string) (s : State P)
  : Exchanged :=
  fst (net_Exchange P (mkQ zone TypeNS false) (cur ++ ":53") (world s)).

(** Where a step of the trace comes from: a zone of the walk, a
    successful NS query for it in the log, and an NS record of the
    section selected from the reply. *)
Definition step_from (zones : list string) (evs : list Event)
    (st : TraceStep) : Prop :=
  In (Zone st) zones
  /\ exists server resp h ns,
       In (EvExchange (mkQ (Zone st) TypeNS false) server (Ok resp)) evs
       /\ In (RR_NS h ns) (select_records resp)
       /\ Server st = TrimSuffix ns ".".

(** [c] does not occur in [s]. *)
Fixpoint no_char (c : ascii) (s : string) : bool :=
  match s with
  | EmptyString => true
  | String c' s' => negb (Ascii.eqb c' c) && no_char c s'
  end.

(** The spec's wording for the IPv6 name: the bytes in reverse order, and
    of each byte the low nibble before the high one, one hex digit each. *)
Definition low_nibble (b : byte) : ascii := hex_digit (Byte.to_N b mod 16).
Definition high_nibble (b : byte) : ascii := hex_digit (Byte.to_N b / 16).

Definition reversed_nibbles (full : IP) : list string :=
  flat_map (fun b => [String (low_nibble b) ""; String (high_nibble b) ""])
           (rev full).

(** The first segment of the first answer, when the exchange succeeded,
    the answer section is not empty, its first record is a TXT record and
    that record has a segment. *)
Definition first_txt (r : Exchanged) : option string :=
  match r with
  | Ok resp =>
      match Answer resp with
      | RR_TXT _ (t0 :: _) :: _ => Some t0
      | _ => None
      end
  | Err _ => None
  end.

(** The type assertion [rr.( *dns.TXT)]. *)
Definition is_TXT (rr : RR) : bool :=
  match rr with RR_TXT _ _ => true | _ => false end.

(** The text before the first " | ", or the whole text without one. *)
Definition first_field (t : string) : string :=
  match Index t " | " with
  | Some m => take m t
  | None => t
  end.

(** What the recursion-desired TXT query for [name] comes back with in
    state [s], and the state after it. *)
Definition txt_reply (P : Platform) (name : string) (s : State P) : Exchanged :=
  fst (net_Exchange P (mkQ name TypeTXT true) "8.8.8.8:53" (world s)).

Definition after_txt (P : Platform) (name : string) (s : State P) : State P :=
  snd (Exchange P (mkQ name TypeTXT true) "8.8.8.8:53" s).

(** "AS" followed by at least one character, all of them decimal digits. *)
Definition well_formed_asn (s : string) : bool :=
  HasPrefix s "AS" && negb (String.eqb (drop 2 s) "") && all_digits (drop 2 s).

(** The step every trace starts with. *)
Definition root_step : TraceStep := mkStep "." "a.root-servers.net".

(** The number of occurrences of [c] in [s]. *)
Fixpoint count_char (c : ascii) (s : string) : nat :=
  match s with
  | EmptyString => 0
  | String x s' => (if Ascii.eqb x c then 1 else 0) + count_char c s'
  end.

(** The pieces of [s] between the occurrences of [c], by recursion on
    [s]: what [strings.Split] computes for a one-character separator. *)
Fixpoint split_on (c : ascii) (s : string) : list string :=
  match s with
  | EmptyString => [""]
  | String x s' =>
      if Ascii.eqb x c then "" :: split_on c s'
      else match split_on c s' with
           | h :: t => String x h :: t
           | [] => [String x ""]
           end
  end.

(** The targets of the NS records of a section, in order. *)
Definition ns_targets (records : list RR) : list string :=
  flat_map (fun rr => match rr with RR_NS _ ns => [ns] | _ => [] end) records.

(** The addresses of the A records of a section, in order. *)
Definition a_addresses (records : list RR) : list IP :=
  flat_map (fun rr => match rr with RR_A _ a => [a] | _ => [] end) records.

(** The address of a nameserver as the outcome of the A query for it
    shows it: the text of the first A record of the answer section, and
    the empty text when the exchange failed or that section has no A
    record. *)
Definition address_in (P : Platform) (r : Exchanged) : string :=
  match r with
  | Ok resp =>
      match a_addresses (Answer resp) with
      | a :: _ => IP_String P a
      | [] => ""
      end
  | Err _ => ""
  end.

(** The preference and target of the MX records of a section, in order,
    and the text [queryMX] gives for one of them. *)
Definition mx_records (records : list RR) : list (N * string) :=
  flat_map (fun rr => match rr with RR_MX _ pref mx => [(pref, mx)] | _ => [] end)
           records.

Definition mx_entry (m : N * string) : string :=
  fmt_d (fst m) ++ " " ++ TrimSuffix (snd m) ".".

(** Reading a decimal number back. *)
Definition parse_decimal (s : string) : option N :=
  option_map N.of_uint (NilZero.uint_of_string s).

(** The reply of the fixed resolver to a recursion-desired question of
    type [qt] for [name] in state [s]. *)
Definition resolver_reply (P : Platform) (name : string) (qt : N) (s : State P)
  : Exchanged :=
  fst (net_Exchange P (mkQ name qt true) "8.8.8.8:53" (world s)).

(** The servers of the exchanges of a log, in the order sent. *)
Definition servers_of (evs : list Event) : list string :=
  flat_map (fun e => match e with
                     | EvExchange _ server _ => [server]
                     | EvLookupHost _ _ => []
                     end) evs.

(** More sample platforms: one where nothing answers, and one that
    serves a small zone through the recursive resolver. *)
Module Lab.

Definition offline : Platform :=
  mkPlatform nat Sample.fqdn Sample.trim_space Sample.parse_ip Sample.ip_string
    (fun _ _ w => (Err "network is unreachable", S w))
    (fun _ w => ([], S w)).

Definition offline_start : State offline := mkState (0%nat : World offline) [].

Definition ns_a_ip : IP := [xc0; x00; x02; x35]%byte.

(** Two NS records around a CNAME record in the answer section, one more
    NS record in the authority section. *)
Definition zone_ns_reply : Msg :=
  mkMsg 0
    [RR_NS (Sample.hdr "example.net." TypeNS) "ns-a.example.net.";
     RR_CNAME (Sample.hdr "example.net." TypeCNAME) "other.example.net.";
     RR_NS (Sample.hdr "example.net." TypeNS) "ns-b.example.net."]
    [RR_NS (Sample.hdr "example.net." TypeNS) "ns-c.example.net."]
    [].

Definition zone_answers (q : Question) (server : string) : Exchanged :=
  let n := qname q in
  if String.eqb n "example.net." && (qtype q =? TypeNS)%N
  then Ok zone_ns_reply
  else if String.eqb n "ns-a.example.net." && (qtype q =? TypeA)%N
  then Ok (mkMsg 0 [RR_A (Sample.hdr n TypeA) ns_a_ip] [] [])
  else if String.eqb n "example.net." && (qtype q =? TypeMX)%N
  then Ok (mkMsg 0
             [RR_MX (Sample.hdr n TypeMX) 10 "mail.example.net.";
              RR_MX (Sample.hdr n TypeMX) 0 "."]
             [] [])
  else if String.eqb n "AS64500.asn.cymru.com."
  then Ok (Sample.txt_of n "64500 | ZZ | iana | 2010-01-01 | EXAMPLE | NET, ZZ")
  else if String.eqb n "53.2.0.192.origin.asn.cymru.com."
  then Ok (Sample.txt_of n "64500 | 192.0.2.0/24 | ZZ | iana | 2010-01-01")
  else Err "i/o timeout".

Definition zone : Platform :=
  mkPlatform nat Sample.fqdn Sample.trim_space Sample.parse_ip Sample.ip_string
    (fun q server w => (zone_answers q server, S w))
    (fun _ w => ([], S w)).

Definition zone_start : State zone := mkState (0%nat : World zone) [].

End Lab.

(** What [GetNameservers] keeps and what it sends for an NS target and
    the outcome of the A query for it. *)
Definition nameserver_of (P : Platform) (x : string * Exchanged) : Nameserver :=
  mkNameserver (TrimSuffix (fst x) ".") (address_in P (snd x)).

Definition a_query_of (x : string * Exchanged) : Event :=
  EvExchange (mkQ (fst x) TypeA true) "8.8.8.8:53" (snd x).

(** The states between the five queries of [GetRecords]. *)
Definition records_state (P : Platform) (domain : string) (s : State P)
    (k : nat) : State P :=
  let d := Fqdn P domain in
  let s1 := snd (queryRecords P d TypeA s) in
  let s2 := snd (queryRecords P d TypeAAAA s1) in
  let s3 := snd (queryMX P d s2) in
  let s4 := snd (queryTXT P d s3) in
  let s5 := snd (queryRecords P d TypeCNAME s4) in
  nth k [s; s1; s2; s3; s4; s5] s5.

(** [l] can be read off [m] from left to right, skipping elements. *)
Inductive Subseq {A : Type} : list A -> list A -> Prop :=
| Subseq_nil : Subseq [] []
| Subseq_skip x l m : Subseq l m -> Subseq l (x :: m)
| Subseq_take x l m : Subseq l m -> Subseq (x :: l) (x :: m).

(** An address the tracer can have learnt from the events [evs]: the
    address of an A record in the additional section of a successful
    reply, or the first address of a host lookup. *)
Definition learnt (P : Platform) (evs : list Event) (addr : string) : Prop :=
  (exists q server resp h a,
      In (EvExchange q server (Ok resp)) evs
      /\ In (RR_A h a) (Extra resp)
      /\ addr = IP_String P a)
  \/ (exists host ips,
         In (EvLookupHost host ips) evs /\ hd_error ips = Some addr).

(** The status code [parseStatus] keeps of one status line: the text
    before its first space, unless the line starts with one or has none. *)
Definition status_code (s : string) : string :=
  match Index s " " with
  | Some (S idx) => take (S idx) s
  | _ => s
  end.

(** The domain as the functions of [pkg/domain] see it. *)
Definition normal_form (ToLower TrimSpace : string -> string) (domain : string)
  : string :=
  TrimSuffix (ToLower (TrimSpace domain)) ".".

(** Lower-casing of ASCII text, for the runs on concrete inputs. *)
Module Text.

Definition lower_char (c : ascii) : ascii :=
  let n := nat_of_ascii c in
  if (65 <=? n)%nat && (n <=? 90)%nat then ascii_of_nat (n + 32) else c.

Fixpoint to_lower (s : string) : string :=
  match s with
  | EmptyString => EmptyString
  | String c s' => String (lower_char c) (to_lower s')
  end.

(** A stand-in for [regexp]: a pattern is kept as its text and matches
    the names that end with it. *)
Definition compile (pattern : string) : string + string :=
  if String.eqb pattern "(?i)(" then inr "missing closing )"
  else inl (drop 4 pattern).

Definition ends_with (re name : string) : bool := HasSuffix name re.

End Text.

(** The labels of a domain name: the non-empty pieces between its dots. *)
Definition domain_labels (domain : string) : list string :=
  filter (fun label => negb (String.eqb label "")) (split_on "." domain).

(** The literals from which [LookupASN] builds no query name: with a
    colon, those that [net.ParseIP] rejects or whose address has no
    16-byte form; without a colon, those that do not fall into exactly
    four pieces at their dots. *)
Definition no_origin_name (P : Platform) (ip : string) : Prop :=
  (no_char ":" ip = false
   /\ (ParseIP P ip = None
       \/ exists addr, ParseIP P ip = Some addr /\ To16 addr = None))
  \/ (no_char ":" ip = true /\ List.length (split_on "." ip) <> 4%nat).

(** A sample platform whose servers answer for the root zone, and whose
    resolver serves a zone with two nameservers: the A query for the
    first is answered with an alias and two A records, the one for the
    second with an AAAA record only. *)
Module Site.

Definition root_ip : IP := [xc6; x29; x00; x04]%byte.
Definition ns1_ip : IP := [xc0; x00; x02; x01]%byte.
Definition ns1_other_ip : IP := [xc0; x00; x02; x02]%byte.

Definition root_reply : Msg :=
  mkMsg 0
    [RR_NS (Sample.hdr "." TypeNS) "a.root-servers.net."]
    []
    [RR_A (Sample.hdr "a.root-servers.net." TypeA) root_ip].

Definition org_ns_reply : Msg :=
  mkMsg 0
    [RR_NS (Sample.hdr "example.org." TypeNS) "ns1.example.org.";
     RR_NS (Sample.hdr "example.org." TypeNS) "ns2.example.org."]
    [] [].

Definition ns1_reply : Msg :=
  mkMsg 0
    [RR_CNAME (Sample.hdr "ns1.example.org." TypeCNAME) "a.ns.example.org.";
     RR_A (Sample.hdr "a.ns.example.org." TypeA) ns1_ip;
     RR_A (Sample.hdr "a.ns.example.org." TypeA) ns1_other_ip]
    [] [].

Definition ns2_reply : Msg :=
  mkMsg 0
    [RR_AAAA (Sample.hdr "ns2.example.org." TypeAAAA)
       [x20; x01; x0d; xb8; x00; x00; x00; x00;
        x00; x00; x00; x00; x00; x00; x00; x02]%byte]
    [] [].

Definition answers (q : Question) (server : string) : Exchanged :=
  let n := qname q in
  if String.eqb n "." && (qtype q =? TypeNS)%N then Ok root_reply
  else if String.eqb n "example.org." && (qtype q =? TypeNS)%N
  then Ok org_ns_reply
  else if String.eqb n "ns1.example.org." && (qtype q =? TypeA)%N
  then Ok ns1_reply
  else if String.eqb n "ns2.example.org." && (qtype q =? TypeA)%N
  then Ok ns2_reply
  else Err "i/o timeout".

Definition platform : Platform :=
  mkPlatform nat Sample.fqdn Sample.trim_space Sample.parse_ip Sample.ip_string
    (fun q server w => (answers q server, S w))
    (fun _ w => ([], S w)).

Definition start : State platform := mkState (0%nat : World platform) [].

End Site.

(** ** Reasoning about the monad *)

Ltac run_monad :=
  unfold bind, ret, Exchange, LookupHost in *; cbn [fst snd world qlog] in *.

Lemma bind_run {P : Platform} {A B : Type} (m : M P A) (k : A -> M P B)
    (s : State P) :
  bind m k s = k (fst (m s)) (snd (m s)).
Proof. unfold bind. now destruct (m s). Qed.

(** ** Existence check *)

(** C5: [Exists] sends exactly one query, a recursion-desired NS query for
    the qualified domain to 8.8.8.8:53, and answers false exactly when
    that exchange succeeds with response code name-error; every other
    response code and every transport error give true. *)
Theorem Exists_fail_open :
  forall (P : Platform) (domain : string) (s : State P),
    let q := mkQ (Fqdn P domain) TypeNS true in
    let r := fst (net_Exchange P q "8.8.8.8:53" (world s)) in
    qlog (snd (Exists P domain s))
      = (qlog s ++ [EvExchange q "8.8.8.8:53" r])%list
    /\ (fst (Exists P domain s) = false
        <-> exists resp, r = Ok resp /\ Rcode resp = RcodeNameError)
    /\ (forall resp, r = Ok resp -> Rcode resp <> RcodeNameError ->
          fst (Exists P domain s) = true)
    /\ (forall e, r = Err e -> fst (Exists P domain s) = true).
Proof.
  intros P domain s q r. subst q r.
  unfold Exists, resolver_addr. run_monad.
  destruct (net_Exchange P _ _ (world s)) as [[resp | e] w]; cbn.
  - split; [reflexivity |]. split; [| split].
    + split.
      * intros H. exists resp. split; [reflexivity |].
        apply negb_false_iff in H. now apply N.eqb_eq in H.
      * intros (resp' & Heq & Hrc). inversion Heq; subst resp'.
        apply negb_false_iff. now apply N.eqb_eq.
    + intros resp' Heq Hrc. inversion Heq; subst resp'.
      apply negb_true_iff. now apply N.eqb_neq.
    + intros e Heq. discriminate Heq.
  - split; [reflexivity |]. split; [| split].
    + split; [discriminate |]. intros (resp & Heq & _). discriminate Heq.
    + intros resp Heq. discriminate Heq.
    + reflexivity.
Qed.

(** ** Record aggregation *)

Lemma length_take (n : nat) (s : string) :
  (n <= String.length s)%nat -> String.length (take n s) = n.
Proof.
  revert s. induction n as [| n IH]; intros [| c s] H; cbn in *;
    try reflexivity; try lia.
  f_equal. apply IH. lia.
Qed.

Lemma length_append (a b : string) :
  String.length (a ++ b) = (String.length a + String.length b)%nat.
Proof. induction a as [| c a IH]; cbn; [reflexivity | now rewrite IH]. Qed.

Lemma take_take_append (n : nat) (s t : string) :
  (n <= String.length s)%nat -> take n (take n s ++ t) = take n s.
Proof.
  revert s. induction n as [| n IH]; intros [| c s] H; cbn in *;
    try reflexivity; try lia.
  f_equal. apply IH. lia.
Qed.

Lemma append_assoc_string (a b c : string) : (a ++ b) ++ c = a ++ (b ++ c).
Proof. induction a as [| x a IH]; cbn; [reflexivity | now rewrite IH]. Qed.

Lemma append_empty_r (s : string) : s ++ "" = s.
Proof. induction s as [| c s IH]; cbn; [reflexivity | now rewrite IH]. Qed.

Lemma Join_empty_sep (txt : list string) : Join txt "" = concat_segments txt.
Proof.
  induction txt as [| a [| b rest] IH]; cbn in *.
  - reflexivity.
  - now rewrite append_empty_r.
  - now rewrite <- IH.
Qed.

Lemma collect_txt_acc (answer : list RR) (acc : list string) :
  collect_txt answer acc = (acc ++ map (txt_value) (txt_records answer))%list.
Proof.
  revert acc. induction answer as [| rr rest IH]; intros acc; cbn.
  - now rewrite app_nil_r.
  - destruct rr; cbn; rewrite IH; try reflexivity.
    now rewrite <- app_assoc.
Qed.

(** C9: [queryTXT] keeps one value per TXT answer record, in response
    order; the value is the concatenation of all the record's segments,
    unless that is longer than 60, in which case it is its first 57
    characters followed by "..." (60 characters in all). *)
Theorem queryTXT_truncation :
  forall (P : Platform) (domain : string) (s : State P),
    (forall resp,
        fst (net_Exchange P (mkQ domain TypeTXT true) "8.8.8.8:53" (world s))
          = Ok resp ->
        fst (queryTXT P domain s)
          = map (txt_value) (txt_records (Answer resp)))
    /\ (forall txt,
          (60 < String.length (concat_segments txt))%nat ->
          txt_value txt = take 57 (concat_segments txt) ++ "..."
          /\ String.length (txt_value txt) = 60%nat
          /\ take 57 (txt_value txt) = take 57 (concat_segments txt)
          /\ drop 57 (txt_value txt) = "...")
    /\ (forall txt,
          (String.length (concat_segments txt) <= 60)%nat ->
          txt_value txt = concat_segments txt).
Proof.
  intros P domain s. split; [| split].
  - intros resp Hex. unfold queryTXT, resolver_addr. run_monad.
    destruct (net_Exchange P _ _ (world s)) as [[resp' | e] w]; cbn in *;
      [| discriminate].
    inversion Hex; subst resp'. now rewrite collect_txt_acc.
  - intros txt Hlen. unfold txt_value. rewrite Join_empty_sep.
    apply Nat.ltb_lt in Hlen as Hb. rewrite Hb.
    assert (H57 : (57 <= String.length (concat_segments txt))%nat) by lia.
    repeat split.
    + rewrite length_append, length_take by exact H57. reflexivity.
    + now apply take_take_append.
    + generalize (length_take 57 (concat_segments txt) H57).
      generalize (take 57 (concat_segments txt)) as t. intros t Ht.
      do 57 (destruct t as [| ? t]; [discriminate Ht | cbn in Ht; 
             apply Nat.succ_inj in Ht]).
      destruct t; [reflexivity | discriminate Ht].
  - intros txt Hlen. unfold txt_value. rewrite Join_empty_sep.
    assert (Hb : (60 <? String.length (concat_segments txt))%nat = false)
      by (apply Nat.ltb_ge; exact Hlen).
    now rewrite Hb.
Qed.

Lemma collect_records_acc (P : Platform) (answer : list RR) (acc : list string) :
  collect_records P answer acc = (acc ++ flat_map (extracted_of P) answer)%list.
Proof.
  revert acc. induction answer as [| rr rest IH]; intros acc; cbn.
  - now rewrite app_nil_r.
  - destruct rr; cbn; rewrite IH; try reflexivity; now rewrite <- app_assoc.
Qed.

Lemma queryRecords_run (P : Platform) (domain : string) (qt : N) (s : State P) :
  fst (queryRecords P domain qt s)
  = extracted P (fst (net_Exchange P (mkQ domain qt true) "8.8.8.8:53" (world s))).
Proof.
  unfold queryRecords, resolver_addr. run_monad.
  destruct (net_Exchange P _ _ (world s)) as [[resp | e] w]; cbn;
    [now rewrite collect_records_acc | reflexivity].
Qed.

(** C10: the A, AAAA and CNAME fields of [GetRecords] are all produced by
    one extractor that does not look at the type asked for; a CNAME record
    in the answer to the A query puts its target, without the trailing
    dot, in [Records.A] at its place in response order. *)
Theorem GetRecords_shared_extractor :
  forall (P : Platform) (domain : string) (s : State P),
    let d := Fqdn P domain in
    let ask qt st :=
      fst (net_Exchange P (mkQ d qt true) "8.8.8.8:53" (world st)) in
    let s1 := snd (queryRecords P d TypeA s) in
    let s2 := snd (queryRecords P d TypeAAAA s1) in
    let s3 := snd (queryMX P d s2) in
    let s4 := snd (queryTXT P d s3) in
    let records := fst (fst (GetRecords P domain s)) in
    (forall qt st, fst (queryRecords P d qt st) = extracted P (ask qt st))
    /\ rec_A records = extracted P (ask TypeA s)
    /\ rec_AAAA records = extracted P (ask TypeAAAA s1)
    /\ rec_CNAME records = extracted P (ask TypeCNAME s4)
    /\ (forall rc pre hdr target post ns extra,
          ask TypeA s = Ok (mkMsg rc (pre ++ RR_CNAME hdr target :: post) ns extra) ->
          rec_A records
          = (flat_map (extracted_of P) pre
             ++ [TrimSuffix target "."]
             ++ flat_map (extracted_of P) post)%list).
Proof.
  intros P domain s d ask s1 s2 s3 s4 records.
  assert (HA : rec_A records = extracted P (ask TypeA s)).
  { subst records ask. cbv beta. rewrite <- queryRecords_run.
    unfold GetRecords. fold d. unfold bind at 1.
    destruct (queryRecords P d TypeA s) as [a t1]. unfold bind at 1.
    destruct (queryRecords P d TypeAAAA t1) as [aaaa t2]. unfold bind at 1.
    destruct (queryMX P d t2) as [mx t3]. unfold bind at 1.
    destruct (queryTXT P d t3) as [txt t4]. unfold bind at 1.
    destruct (queryRecords P d TypeCNAME t4) as [cname t5]. reflexivity. }
  split; [| split; [| split; [| split]]].
  - intros qt st. apply queryRecords_run.
  - exact HA.
  - subst records ask s1. cbv beta. rewrite <- queryRecords_run.
    unfold GetRecords. fold d. unfold bind at 1.
    destruct (queryRecords P d TypeA s) as [a t1]. unfold bind at 1. cbn [snd].
    destruct (queryRecords P d TypeAAAA t1) as [aaaa t2]. unfold bind at 1.
    destruct (queryMX P d t2) as [mx t3]. unfold bind at 1.
    destruct (queryTXT P d t3) as [txt t4]. unfold bind at 1.
    destruct (queryRecords P d TypeCNAME t4) as [cname t5]. reflexivity.
  - subst records ask s4 s3 s2 s1. cbv beta. rewrite <- queryRecords_run.
    unfold GetRecords. fold d. unfold bind at 1.
    destruct (queryRecords P d TypeA s) as [a t1]. unfold bind at 1. cbn [snd].
    destruct (queryRecords P d TypeAAAA t1) as [aaaa t2]. unfold bind at 1.
    cbn [snd].
    destruct (queryMX P d t2) as [mx t3]. unfold bind at 1. cbn [snd].
    destruct (queryTXT P d t3) as [txt t4]. unfold bind at 1. cbn [snd].
    destruct (queryRecords P d TypeCNAME t4) as [cname t5]. reflexivity.
  - intros rc pre hdr target post ns extra Hask. rewrite HA, Hask. cbn.
    now rewrite flat_map_app.
Qed.

(** ** Delegation tracer *)

Lemma questions_of_app (a b : list Event) :
  questions_of (a ++ b) = (questions_of a ++ questions_of b)%list.
Proof. apply flat_map_app. Qed.

Lemma glue_scan_glue_of (P : Platform) (extra : list RR) (ns next : string) :
  glue_scan P extra ns next
  = match glue_of extra ns with Some a => IP_String P a | None => next end.
Proof.
  induction extra as [| rr extra IH]; cbn; [reflexivity |].
  destruct rr; try exact IH.
  destruct (String.eqb (Name Hdr) ns); [reflexivity | exact IH].
Qed.

Lemma next_server_for_glue (P : Platform) extra ns next a (s : State P) :
  glue_of extra ns = Some a -> IP_String P a <> "" ->
  next_server_for P extra ns next s = (IP_String P a, s).
Proof.
  intros Hg Hne. unfold next_server_for. rewrite glue_scan_glue_of, Hg.
  destruct (String.eqb_spec (IP_String P a) ""); [contradiction | reflexivity].
Qed.

Lemma next_server_for_no_glue (P : Platform) extra ns (s : State P) :
  glue_of extra ns = None ->
  next_server_for P extra ns "" s
  = (hd "" (fst (net_LookupHost P (TrimSuffix ns ".") (world s))),
     after_lookup P (TrimSuffix ns ".") s).
Proof.
  intros Hg. unfold next_server_for, after_lookup.
  rewrite glue_scan_glue_of, Hg. cbn. run_monad.
  destruct (net_LookupHost P _ (world s)) as [[| ip0 ips] w]; reflexivity.
Qed.

Lemma next_server_for_log (P : Platform) extra ns next (s : State P) :
  exists lk, qlog (snd (next_server_for P extra ns next s)) = (qlog s ++ lk)%list
             /\ questions_of lk = [].
Proof.
  unfold next_server_for.
  destruct (String.eqb (glue_scan P extra ns next) "").
  - run_monad. destruct (net_LookupHost P _ (world s)) as [ips w]. cbn.
    eexists. split; reflexivity.
  - exists []. cbn. now rewrite app_nil_r.
Qed.

Lemma ns_loop_no_NS (P : Platform) recs extra next name (s : State P) :
  filter is_NS recs = [] ->
  ns_loop P recs extra next name s = (next, name, s).
Proof.
  induction recs as [| rr recs IH]; cbn; intros H; [reflexivity |].
  destruct rr; cbn in H; try discriminate; now apply IH.
Qed.

(** How the loop over the selected records ends: either it met no NS
    record, or it ends on one NS record [ns], every record before which
    left [nextServer] empty; then either [ns] gave an address or no NS
    record follows it. *)
Lemma ns_loop_run (P : Platform) extra :
  forall recs name0 (s : State P) next name s',
    ns_loop P recs extra "" name0 s = (next, name, s') ->
    (filter is_NS recs = [] /\ next = "" /\ name = name0 /\ s' = s)
    \/ exists pre h ns post name1 s0,
         recs = (pre ++ RR_NS h ns :: post)%list
         /\ ns_loop P pre extra "" name0 s = ("", name1, s0)
         /\ next_server_for P extra ns "" s0 = (next, s')
         /\ name = TrimSuffix ns "."
         /\ (next = "" -> filter is_NS post = []).
Proof.
  induction recs as [| rr recs IH]; intros name0 s next name s' Hrun.
  - left. cbn in Hrun. unfold ret in Hrun. inversion Hrun. auto.
  - assert (Hskip : is_NS rr = false ->
              ns_loop P recs extra "" name0 s = (next, name, s') ->
              ns_loop P (rr :: recs) extra "" name0 s
              = ns_loop P recs extra "" name0 s ->
              (filter is_NS (rr :: recs) = [] /\ next = "" /\ name = name0 /\ s' = s)
              \/ exists pre h ns post name1 s0,
                  (rr :: recs) = (pre ++ RR_NS h ns :: post)%list
                  /\ ns_loop P pre extra "" name0 s = ("", name1, s0)
                  /\ next_server_for P extra ns "" s0 = (next, s')
                  /\ name = TrimSuffix ns "."
                  /\ (next = "" -> filter is_NS post = [])).
    { intros Hrr Hrest Heq.
      destruct (IH _ _ _ _ _ Hrest)
        as [(Hf & Hn & Hnm & Hs) | (pre & h & ns & post & name1 & s0 & He & Hpre & Hns & Hnm & Hpost)].
      - left. cbn. rewrite Hrr. auto.
      - right. exists (rr :: pre), h, ns, post, name1, s0.
        repeat split; auto.
        + cbn. now rewrite He.
        + destruct rr; cbn in Hrr; try discriminate; exact Hpre. }
    destruct rr as [h a | h ns | h t | h p m | h t | h a | h];
      try (apply Hskip; [reflexivity | exact Hrun | reflexivity]).
    clear Hskip. cbn in Hrun. rewrite bind_run in Hrun.
    destruct (next_server_for P extra ns "" s) as [n1 s1] eqn:Hns.
    cbn [fst snd] in Hrun.
    destruct (String.eqb_spec n1 "") as [Hn1 | Hn1]; cbn in Hrun.
    + subst n1.
      destruct (IH _ _ _ _ _ Hrun)
        as [(Hf & Hn & Hnm & Hs) | (pre & h' & ns' & post & name1 & s0 & He & Hpre & Hns' & Hnm & Hpost)].
      * right. exists [], h, ns, recs, name0, s. subst.
        repeat split; auto.
      * right. exists (RR_NS h ns :: pre), h', ns', post, name1, s0.
        repeat split; auto.
        -- cbn. now rewrite He.
        -- cbn. rewrite bind_run, Hns. cbn. exact Hpre.
    + unfold ret in Hrun. inversion Hrun; subst.
      right. exists [], h, ns, recs, name0, s.
      repeat split; auto. intros; contradiction.
Qed.

Lemma ns_loop_skip_prefix (P : Platform) extra pre recs next name (s : State P) :
  filter is_NS pre = [] ->
  ns_loop P (pre ++ recs) extra next name s = ns_loop P recs extra next name s.
Proof.
  induction pre as [| rr pre IH]; cbn; intros H; [reflexivity |].
  destruct rr; cbn in H; try discriminate; now apply IH.
Qed.

Lemma trace_zone_ok (P : Platform) zone steps cur (s : State P) resp :
  zone_reply P zone cur s = Ok resp ->
  forall next name s',
    ns_loop P (select_records resp) (Extra resp) "" ""
      (after_exchange P zone cur s) = (next, name, s') ->
    trace_zone P zone steps cur s
    = ((if negb (String.eqb name "")
        then (steps ++ [mkStep zone name])%list else steps),
       (if negb (String.eqb next "") then next else cur),
       s').
Proof.
  unfold zone_reply, after_exchange, trace_zone. intros Hr next name s' Hrun.
  rewrite bind_run. unfold Exchange in Hrun |- *.
  destruct (net_Exchange P _ _ (world s)) as [r w]. cbn [fst snd] in *.
  subst r. rewrite bind_run, Hrun. reflexivity.
Qed.

Lemma trace_zone_err (P : Platform) zone steps cur (s : State P) e :
  zone_reply P zone cur s = Err e ->
  trace_zone P zone steps cur s = (steps, cur, after_exchange P zone cur s).
Proof.
  unfold zone_reply, after_exchange, trace_zone. intros Hr.
  rewrite bind_run. unfold Exchange.
  destruct (net_Exchange P _ _ (world s)) as [r w]. cbn [fst snd] in *.
  subst r. reflexivity.
Qed.

(** C3 (as amended): the section searched for NS records is the answer
    section whenever that section is not empty, whether or not it holds an
    NS record, and the authority section only when the answer section is
    empty; the loop that follows looks at the NS records of that section
    alone.  In particular an answer section that holds NS records is the
    one used. *)
Theorem select_records_by_emptiness :
  forall (P : Platform) (resp : Msg),
    (Answer resp <> [] -> select_records resp = Answer resp)
    /\ (Answer resp = [] -> select_records resp = Ns resp)
    /\ (filter is_NS (Answer resp) <> [] ->
        filter is_NS (select_records resp) = filter is_NS (Answer resp))
    /\ (forall zone steps cur (s : State P) next name s',
          zone_reply P zone cur s = Ok resp ->
          ns_loop P (if match Answer resp with [] => true | _ => false end
                     then Ns resp else Answer resp)
            (Extra resp) "" "" (after_exchange P zone cur s)
          = (next, name, s') ->
          trace_zone P zone steps cur s
          = ((if negb (String.eqb name "")
              then (steps ++ [mkStep zone name])%list else steps),
             (if negb (String.eqb next "") then next else cur),
             s')).
Proof.
  intros P resp.
  assert (H1 : Answer resp <> [] -> select_records resp = Answer resp).
  { unfold select_records. destruct (Answer resp); [congruence | reflexivity]. }
  assert (H2 : Answer resp = [] -> select_records resp = Ns resp).
  { unfold select_records. intros ->. now destruct (Ns resp). }
  split; [exact H1 | split; [exact H2 | split]].
  - intros Hns. rewrite H1; [reflexivity |].
    intros Hnil. apply Hns. now rewrite Hnil.
  - intros zone steps cur s next name s' Hr Hrun.
    apply trace_zone_ok with (resp := resp); [exact Hr |].
    destruct (Answer resp) eqn:Ha.
    + rewrite H2 by reflexivity. exact Hrun.
    + rewrite H1 by discriminate. exact Hrun.
Qed.

(** C2 (as amended): the step emitted at a zone names the NS record the
    loop ends on, which is the first NS record of the selected section for
    which an address (glue or host lookup) was obtained, or the last NS
    record of that section when none gave an address.  It is the first NS
    record when that one gave an address or is the only NS record. *)
Theorem trace_zone_server_name :
  forall (P : Platform) zone steps cur (s : State P) resp steps' cur' s',
    zone_reply P zone cur s = Ok resp ->
    trace_zone P zone steps cur s = (steps', cur', s') ->
    let s1 := after_exchange P zone cur s in
    let emit (ns : string) :=
      if String.eqb (TrimSuffix ns ".") "" then steps
      else (steps ++ [mkStep zone (TrimSuffix ns ".")])%list in
    ((filter is_NS (select_records resp) = [] /\ steps' = steps /\ cur' = cur)
     \/ exists pre h ns post name1 s0 next,
          select_records resp = (pre ++ RR_NS h ns :: post)%list
          /\ ns_loop P pre (Extra resp) "" "" s1 = ("", name1, s0)
          /\ next_server_for P (Extra resp) ns "" s0 = (next, s')
          /\ (next = "" -> filter is_NS post = [])
          /\ steps' = emit ns
          /\ cur' = (if String.eqb next "" then cur else next))
    /\ (forall pre h ns post,
          select_records resp = (pre ++ RR_NS h ns :: post)%list ->
          filter is_NS pre = [] ->
          fst (next_server_for P (Extra resp) ns "" s1) <> ""
          \/ filter is_NS post = [] ->
          steps' = emit ns).
Proof.
  intros P zone steps cur s resp steps' cur' s' Hr Hz s1 emit.
  destruct (ns_loop P (select_records resp) (Extra resp) "" "" s1)
    as [[next name] t] eqn:Hrun.
  rewrite (trace_zone_ok P zone steps cur s resp Hr next name t Hrun) in Hz.
  inversion Hz; subst steps' cur' s'. clear Hz.
  split.
  - destruct (ns_loop_run P _ _ _ _ _ _ _ Hrun)
      as [(Hf & Hn & Hnm & _) | (pre & h & ns & post & name1 & s0 & He & Hpre & Hns & Hnm & Hpost)].
    + left. subst next name. cbn. auto.
    + right. exists pre, h, ns, post, name1, s0, next.
      repeat split; auto.
      * subst name emit. cbv beta.
        now destruct (String.eqb (TrimSuffix ns ".") "").
      * now destruct (String.eqb next "").
  - intros pre h ns post He Hpre Hcase.
    rewrite He, ns_loop_skip_prefix in Hrun by exact Hpre.
    cbn in Hrun. rewrite bind_run in Hrun.
    destruct (next_server_for P (Extra resp) ns "" s1) as [n1 t1] eqn:Hns.
    cbn [fst snd] in *.
    assert (Hname : name = TrimSuffix ns ".").
    { destruct (String.eqb_spec n1 "") as [E | E]; cbn in Hrun.
      - destruct Hcase as [Hc | Hc]; [contradiction |].
        rewrite ns_loop_no_NS in Hrun by exact Hc. now inversion Hrun.
      - unfold ret in Hrun. now inversion Hrun. }
    subst name emit. cbv beta.
    now destruct (String.eqb (TrimSuffix ns ".") "").
Qed.

Lemma ns_loop_log (P : Platform) extra :
  forall recs next name (s : State P),
    exists lk,
      qlog (snd (ns_loop P recs extra next name s)) = (qlog s ++ lk)%list
      /\ questions_of lk = []
      /\ (snd (fst (ns_loop P recs extra next name s)) = name
          \/ exists h ns, In (RR_NS h ns) recs
               /\ snd (fst (ns_loop P recs extra next name s))
                  = TrimSuffix ns ".").
Proof.
  induction recs as [| rr recs IH]; intros next name s.
  - exists []. cbn. rewrite app_nil_r. auto.
  - assert (Hskip : ns_loop P (rr :: recs) extra next name s
                    = ns_loop P recs extra next name s ->
              exists lk,
                qlog (snd (ns_loop P (rr :: recs) extra next name s))
                = (qlog s ++ lk)%list
                /\ questions_of lk = []
                /\ (snd (fst (ns_loop P (rr :: recs) extra next name s)) = name
                    \/ exists h ns, In (RR_NS h ns) (rr :: recs)
                         /\ snd (fst (ns_loop P (rr :: recs) extra next name s))
                            = TrimSuffix ns ".")).
    { intros ->. destruct (IH next name s) as (lk & Hl & Hq & Hn).
      exists lk. repeat split; auto.
      destruct Hn as [Hn | (h & ns & Hin & Hn)]; [now left |].
      right. exists h, ns. split; [now right | exact Hn]. }
    destruct rr as [h a | h ns | h t | h p m | h t | h a | h];
      try (apply Hskip; reflexivity).
    clear Hskip. cbn [ns_loop]. rewrite bind_run.
    destruct (next_server_for_log P extra ns next s) as (lk1 & Hl1 & Hq1).
    destruct (next_server_for P extra ns next s) as [n1 s1].
    cbn [fst snd] in *.
    destruct (negb (String.eqb n1 "")).
    + exists lk1. cbn. repeat split; auto.
      right. exists h, ns. split; [now left | reflexivity].
    + destruct (IH n1 (TrimSuffix ns ".") s1) as (lk & Hl & Hq & Hn).
      exists (lk1 ++ lk)%list. rewrite Hl, Hl1, app_assoc, questions_of_app, Hq1, Hq.
      repeat split; auto.
      right. destruct Hn as [Hn | (h' & ns' & Hin & Hn)].
      * exists h, ns. split; [now left | exact Hn].
      * exists h', ns'. split; [now right | exact Hn].
Qed.

(** One iteration of the zone loop logs exactly one exchange, the NS
    query for the zone, and adds a step only for an NS record of the
    selected section of a successful reply. *)
Lemma trace_zone_log (P : Platform) zone steps cur (s : State P) :
  exists lk,
    qlog (snd (trace_zone P zone steps cur s))
    = (qlog s
       ++ EvExchange (mkQ zone TypeNS false) (cur ++ ":53")
            (zone_reply P zone cur s) :: lk)%list
    /\ questions_of lk = []
    /\ (fst (fst (trace_zone P zone steps cur s)) = steps
        \/ exists resp h ns,
             zone_reply P zone cur s = Ok resp
             /\ In (RR_NS h ns) (select_records resp)
             /\ fst (fst (trace_zone P zone steps cur s))
                = (steps ++ [mkStep zone (TrimSuffix ns ".")])%list).
Proof.
  assert (Hlog : qlog (after_exchange P zone cur s)
                 = (qlog s ++ [EvExchange (mkQ zone TypeNS false) (cur ++ ":53")
                                 (zone_reply P zone cur s)])%list).
  { unfold after_exchange, zone_reply, Exchange.
    now destruct (net_Exchange P _ _ (world s)). }
  destruct (zone_reply P zone cur s) as [resp | e] eqn:Hr.
  - destruct (ns_loop_log P (Extra resp) (select_records resp) "" ""
                (after_exchange P zone cur s)) as (lk & Hl & Hq & Hn).
    destruct (ns_loop P (select_records resp) (Extra resp) "" ""
                (after_exchange P zone cur s)) as [[next name] t] eqn:Hrun.
    rewrite (trace_zone_ok P zone steps cur s resp Hr next name t Hrun).
    cbn [fst snd] in *. exists lk.
    rewrite Hl, Hlog, <- app_assoc. cbn. repeat split; auto.
    destruct (String.eqb_spec name "") as [E | E]; cbn; [now left |].
    destruct Hn as [Hn | (h & ns & Hin & Hn)]; [now subst name |].
    right. exists resp, h, ns. subst name. auto.
  - rewrite (trace_zone_err P zone steps cur s e Hr). cbn [fst snd].
    exists []. rewrite Hlog. auto.
Qed.

Lemma step_from_weaken (zones zones' : list string) (evs evs' : list Event)
    (st : TraceStep) :
  incl zones zones' -> incl evs evs' ->
  step_from zones evs st -> step_from zones' evs' st.
Proof.
  intros Hz He (Hin & server & resp & h & ns & Hev & Hns & Hsrv).
  split; [now apply Hz |].
  exists server, resp, h, ns. split; [now apply He | auto].
Qed.

Lemma trace_loop_log (P : Platform) :
  forall zones i steps cur (s : State P),
    exists added evs,
      fst (fst (trace_loop P (S i) zones steps cur s)) = (steps ++ added)%list
      /\ (List.length added <= List.length zones)%nat
      /\ qlog (snd (trace_loop P (S i) zones steps cur s)) = (qlog s ++ evs)%list
      /\ questions_of evs = map (fun z => mkQ z TypeNS false) zones
      /\ Forall (step_from zones evs) added.
Proof.
  induction zones as [| zone zones IH]; intros i steps cur s.
  - exists [], []. cbn. rewrite !app_nil_r. repeat split; auto.
  - cbn [trace_loop Nat.eqb]. rewrite bind_run.
    destruct (trace_zone_log P zone steps cur s) as (lk & Hl & Hq & Hst).
    destruct (trace_zone P zone steps cur s) as [[steps1 cur1] s1].
    cbn [fst snd] in *.
    destruct (IH (S i) steps1 cur1 s1) as (added & evs & Ha & Hlen & Hlog & Hqs & Hall).
    set (ev := EvExchange (mkQ zone TypeNS false) (cur ++ ":53")
                 (zone_reply P zone cur s)) in *.
    assert (Hincl : incl evs (ev :: lk ++ evs)).
    { intros x Hx. right. apply in_or_app. now right. }
    assert (Hrest : Forall (step_from (zone :: zones) (ev :: lk ++ evs)) added).
    { eapply Forall_impl; [| exact Hall]. intros st.
      apply step_from_weaken; [intros x Hx; now right | exact Hincl]. }
    destruct Hst as [Hst | (resp & h & ns & Hr & Hns & Hst)]; subst steps1.
    + exists added, (ev :: lk ++ evs)%list.
      rewrite Ha, Hlog, Hl. repeat split.
      * cbn. lia.
      * rewrite <- app_assoc. reflexivity.
      * cbn. rewrite questions_of_app, Hq, Hqs. reflexivity.
      * exact Hrest.
    + exists (mkStep zone (TrimSuffix ns ".") :: added), (ev :: lk ++ evs)%list.
      rewrite Ha, Hlog, Hl. repeat split.
      * rewrite <- app_assoc. reflexivity.
      * cbn. lia.
      * rewrite <- app_assoc. reflexivity.
      * cbn. rewrite questions_of_app, Hq, Hqs. reflexivity.
      * constructor; [| exact Hrest].
        split; [now left |].
        exists (cur ++ ":53"), resp, h, ns. cbn [Zone Server].
        split; [| auto]. left. subst ev. now rewrite Hr.
Qed.

Lemma length_zones_of (parts : list string) :
  List.length (zones_of parts) = (List.length parts + 1)%nat.
Proof.
  unfold zones_of. cbn. rewrite length_map, length_rev, length_seq. lia.
Qed.

(** ** ASN attribution: the origin query name *)

Lemma all_digits_no_char (c : ascii) (s : string) :
  is_digit c = false -> all_digits s = true -> no_char c s = true.
Proof.
  intros Hc. induction s as [| c' s IH]; cbn [all_digits no_char];
    [reflexivity |].
  intros H. apply andb_true_iff in H as [Hd Hs].
  rewrite IH by exact Hs. rewrite andb_true_r.
  destruct (Ascii.eqb_spec c' c) as [-> | _]; [congruence | reflexivity].
Qed.

Lemma no_char_append (c : ascii) (a b : string) :
  no_char c (a ++ b) = no_char c a && no_char c b.
Proof.
  induction a as [| c' a IH]; cbn; [reflexivity |].
  now rewrite IH, andb_assoc.
Qed.

Lemma prefix_single (c c' : ascii) (s : string) :
  String.prefix (String c "") (String c' s) = Ascii.eqb c' c.
Proof.
  cbn. destruct (ascii_dec c c') as [-> | Hne].
  - rewrite Ascii.eqb_refl. now destruct s.
  - symmetry. apply Ascii.eqb_neq. congruence.
Qed.

Lemma Index_no_char (c : ascii) (s : string) :
  no_char c s = true -> Index s (String c "") = None.
Proof.
  induction s as [| c' s IH]; [reflexivity |].
  cbn [no_char]. intros H. apply andb_true_iff in H as [Hc Hs].
  cbn [Index]. rewrite prefix_single.
  apply negb_true_iff in Hc. rewrite Hc, IH by exact Hs. reflexivity.
Qed.

Lemma Index_first_char (c : ascii) (a rest : string) :
  no_char c a = true ->
  Index (a ++ String c rest) (String c "") = Some (String.length a).
Proof.
  induction a as [| c' a IH].
  - intros _. cbn [append Index]. now rewrite prefix_single, Ascii.eqb_refl.
  - cbn [no_char]. intros H. apply andb_true_iff in H as [Hc Hs].
    cbn [append Index]. rewrite prefix_single.
    apply negb_true_iff in Hc. rewrite Hc, IH by exact Hs. reflexivity.
Qed.

Lemma take_append (a b : string) : take (String.length a) (a ++ b) = a.
Proof.
  induction a as [| c a IH]; cbn; [now destruct b | now rewrite IH].
Qed.

Lemma drop_append (a b : string) : drop (String.length a) (a ++ b) = b.
Proof. induction a as [| c a IH]; cbn; [reflexivity | exact IH]. Qed.

Lemma drop_past_char (c : ascii) (a rest : string) :
  drop (String.length a + 1) (a ++ String c rest) = rest.
Proof.
  induction a as [| c' a IH]; cbn; [reflexivity | exact IH].
Qed.

Lemma Count_from_no_char (c : ascii) (fuel : nat) (s : string) :
  no_char c s = true -> Count_from fuel s (String c "") = 0%nat.
Proof.
  intros H. destruct fuel; cbn; [reflexivity |].
  now rewrite Index_no_char.
Qed.

Lemma Count_from_first_char (c : ascii) (fuel : nat) (a rest : string) :
  no_char c a = true ->
  Count_from (S fuel) (a ++ String c rest) (String c "")
  = S (Count_from fuel rest (String c "")).
Proof.
  intros H. cbn [Count_from]. rewrite Index_first_char by exact H.
  cbn [String.length]. now rewrite drop_past_char.
Qed.

Lemma split_loop_first_char (c : ascii) (k : nat) (a rest : string) :
  no_char c a = true ->
  split_loop (S k) (a ++ String c rest) (String c "")
  = a :: split_loop k rest (String c "").
Proof.
  intros H. cbn [split_loop]. rewrite Index_first_char by exact H.
  cbn [String.length]. now rewrite take_append, drop_past_char.
Qed.

Lemma split_loop_no_char (c : ascii) (k : nat) (s : string) :
  no_char c s = true -> split_loop k s (String c "") = [s].
Proof.
  intros H. destruct k; cbn; [reflexivity |]. now rewrite Index_no_char.
Qed.

(** Splitting four dot-free parts joined by dots gives the four parts. *)
Lemma Split_dotted_quad (a b c d : string) :
  no_char "." a = true -> no_char "." b = true ->
  no_char "." c = true -> no_char "." d = true ->
  Split (a ++ "." ++ b ++ "." ++ c ++ "." ++ d) "." = [a; b; c; d].
Proof.
  intros Ha Hb Hc Hd. unfold Split, genSplit. cbn [Z.eqb Z.ltb Z.compare].
  set (s := a ++ "." ++ b ++ "." ++ c ++ "." ++ d).
  assert (Hlen : String.length s
                 = (3 + (String.length a + String.length b
                         + String.length c + String.length d))%nat).
  { subst s. rewrite !length_append. cbn [String.length]. lia. }
  assert (Hcount : Count s "." = 3%nat).
  { unfold Count. rewrite Hlen. subst s. cbn [Nat.add append].
    rewrite !Count_from_first_char by assumption.
    now rewrite Count_from_no_char. }
  rewrite Hcount.
  destruct (Z.gtb_spec (Z.of_nat 3 + 1) (Z.of_nat (String.length s) + 1)) as [Hgt | _];
    [lia |].
  change (Z.to_nat (Z.of_nat 3 + 1 - 1)) with 3%nat.
  subst s. cbn [append].
  rewrite !split_loop_first_char by assumption.
  now rewrite split_loop_no_char.
Qed.

Lemma fmt_x_low (b : byte) :
  fmt_x (N.land (Byte.to_N b) 15) = String (low_nibble b) "".
Proof. destruct b; reflexivity. Qed.

Lemma fmt_x_high (b : byte) :
  fmt_x (N.shiftr (Byte.to_N b) 4) = String (high_nibble b) "".
Proof. destruct b; reflexivity. Qed.

Lemma nibble_is_hex (b : byte) :
  is_hex_digit (low_nibble b) = true /\ is_hex_digit (high_nibble b) = true.
Proof. destruct b; split; reflexivity. Qed.

Lemma firstn_snoc {A} (d : A) (i : nat) (l : list A) :
  (i < List.length l)%nat -> firstn (S i) l = (firstn i l ++ [nth i l d])%list.
Proof.
  revert l. induction i as [| i IH]; intros [| x l] H; cbn in *; try lia.
  - reflexivity.
  - f_equal. apply IH. lia.
Qed.

Lemma nibble_loop_spec (full : IP) :
  forall i acc,
    (i <= List.length full)%nat ->
    nibble_loop i full acc = (acc ++ reversed_nibbles (firstn i full))%list.
Proof.
  induction i as [| i IH]; intros acc Hi.
  - cbn. now rewrite app_nil_r.
  - cbn [nibble_loop]. rewrite IH by lia.
    rewrite (firstn_snoc x00%byte) by lia.
    unfold reversed_nibbles. rewrite rev_app_distr. cbn [rev app flat_map].
    rewrite fmt_x_low, fmt_x_high, <- !app_assoc. reflexivity.
Qed.

Lemma length_reversed_nibbles (full : IP) :
  List.length (reversed_nibbles full) = (2 * List.length full)%nat.
Proof.
  unfold reversed_nibbles. rewrite <- (length_rev full).
  induction (rev full) as [| b l IH]; cbn in *; [reflexivity | lia].
Qed.

Lemma reversed_nibbles_hex (full : IP) :
  Forall (fun n => exists c, n = String c "" /\ is_hex_digit c = true)
         (reversed_nibbles full).
Proof.
  unfold reversed_nibbles. induction (rev full) as [| b l IH]; cbn.
  - constructor.
  - destruct (nibble_is_hex b) as [Hl Hh].
    constructor; [now exists (low_nibble b) |].
    constructor; [now exists (high_nibble b) | exact IH].
Qed.

Lemma To16_length (addr full : IP) :
  To16 addr = Some full -> List.length full = 16%nat.
Proof.
  unfold To16, IPv4len, IPv6len.
  destruct (Nat.eqb_spec (List.length addr) 4) as [H4 | _].
  - intros H.
    assert (E : full = (v4InV6Prefix ++ addr)%list) by congruence.
    rewrite E, length_app, H4. reflexivity.
  - destruct (Nat.eqb_spec (List.length addr) 16) as [H16 | _];
      [| discriminate].
    intros H. injection H as <-. exact H16.
Qed.

(** The name built from a literal: for an IPv4 literal a.b.c.d it is
    d.c.b.a.origin.asn.cymru.com.; for a literal with a colon that parses,
    it is the 32 single hex digits of the 16-byte form, last byte first
    and low nibble before high nibble, joined by dots and followed by
    .origin6.asn.cymru.com. *)
Lemma origin_query_name :
  forall (P : Platform),
    (forall a b c d,
        all_digits a = true -> all_digits b = true ->
        all_digits c = true -> all_digits d = true ->
        origin_query P (a ++ "." ++ b ++ "." ++ c ++ "." ++ d)
        = Some (d ++ "." ++ c ++ "." ++ b ++ "." ++ a
                ++ ".origin.asn.cymru.com."))
    /\ (forall ip addr full,
          Contains ip ":" = true ->
          ParseIP P ip = Some addr ->
          To16 addr = Some full ->
          origin_query P ip
          = Some (Join (reversed_nibbles full) "." ++ ".origin6.asn.cymru.com.")
          /\ List.length (reversed_nibbles full) = 32%nat
          /\ Forall (fun n => exists c, n = String c "" /\ is_hex_digit c = true)
                    (reversed_nibbles full)).
Proof.
  intros P. split.
  - intros a b c d Ha Hb Hc Hd. unfold origin_query.
    assert (Hcolon : Contains (a ++ "." ++ b ++ "." ++ c ++ "." ++ d) ":" = false).
    { unfold Contains. rewrite Index_no_char; [reflexivity |].
      rewrite !no_char_append.
      rewrite (all_digits_no_char ":"%char a), (all_digits_no_char ":"%char b),
        (all_digits_no_char ":"%char c), (all_digits_no_char ":"%char d)
        by (assumption || reflexivity).
      reflexivity. }
    rewrite Hcolon.
    rewrite Split_dotted_quad
      by (apply all_digits_no_char; [reflexivity | assumption]).
    cbn [List.length Nat.eqb negb nth].
    rewrite !append_assoc_string. reflexivity.
  - intros ip addr full Hc Hp H16. unfold origin_query.
    rewrite Hc, Hp, H16. pose proof (To16_length _ _ H16) as Hlen.
    rewrite nibble_loop_spec by lia. cbn [app].
    rewrite <- Hlen at 1. rewrite firstn_all.
    split; [reflexivity | split].
    + rewrite length_reversed_nibbles, Hlen. reflexivity.
    + apply reversed_nibbles_hex.
Qed.

(** ** ASN attribution: the two lookups *)

Lemma SplitN5_first (t : string) :
  (1 <= List.length (SplitN t " | " 5))%nat
  /\ nth 0 (SplitN t " | " 5) "" = first_field t.
Proof.
  unfold SplitN, genSplit, first_field. cbn [Z.eqb Z.ltb Z.compare].
  destruct t as [| c t]; [split; [cbn; lia | reflexivity] |].
  set (s := String c t).
  assert (Hk : exists k,
             Z.to_nat ((if (5 >? Z.of_nat (String.length s) + 1)%Z
                        then (Z.of_nat (String.length s) + 1)%Z else 5%Z) - 1)
             = S k).
  { subst s. cbn [String.length].
    destruct (Z.gtb_spec 5 (Z.of_nat (S (String.length t)) + 1)).
    - exists (String.length t). lia.
    - exists 3%nat. reflexivity. }
  destruct Hk as [k ->]. cbn [split_loop].
  destruct (Index s " | "); split; cbn; try lia; reflexivity.
Qed.

Lemma first_txt_none (r : Exchanged) :
  first_txt r = None
  <-> (exists e, r = Err e)
      \/ exists resp,
           r = Ok resp
           /\ (Answer resp = []
               \/ (exists rr rest, Answer resp = rr :: rest /\ is_TXT rr = false)
               \/ (exists h rest, Answer resp = RR_TXT h [] :: rest)).
Proof.
  split.
  - destruct r as [resp | e]; [| intros _; left; now exists e].
    cbn. intros H. right. exists resp. split; [reflexivity |].
    destruct (Answer resp) as [| rr rest]; [now left |].
    right. destruct rr as [h a | h ns | h t | h p m | h t | h a | h];
      try (left; eexists; eexists; split; reflexivity).
    destruct t as [| t0 t]; [| discriminate].
    right. now exists h, rest.
  - intros [(e & ->) | (resp & -> & [Ha | [(rr & rest & Ha & Hrr) | (h & rest & Ha)]])];
      cbn; try reflexivity; rewrite Ha; try reflexivity.
    destruct rr; try reflexivity; discriminate.
Qed.

Lemma lookupASName_run (P : Platform) (asn : string) (s : State P) :
  let name := "AS" ++ asn ++ ".asn.cymru.com." in
  exists org,
    lookupASName P asn s = (Some (mkASN ("AS" ++ asn) org), after_txt P name s)
    /\ (first_txt (txt_reply P name s) = None -> org = "").
Proof.
  intros name. unfold lookupASName, after_txt, txt_reply, resolver_addr.
  fold name. rewrite bind_run. unfold Exchange.
  destruct (net_Exchange P _ _ (world s)) as [[resp | e] w]; cbn [fst snd].
  - destruct (Answer resp) as [| rr rest] eqn:Ha; cbn; rewrite ?Ha.
    + now exists "".
    + destruct rr as [h a | h ns | h t | h p m | h t | h a | h];
        try (now exists "").
      destruct t as [| t0 t]; [now exists "" |].
      eexists. split; [reflexivity | discriminate].
  - now exists "".
Qed.

Lemma LookupASN_run (P : Platform) (ip : string) (s : State P) :
  LookupASN P ip s
  = match origin_query P ip with
    | None => (None, s)
    | Some q =>
        match first_txt (txt_reply P q s) with
        | None => (None, after_txt P q s)
        | Some t0 =>
            lookupASName P (TrimSpace P (first_field t0)) (after_txt P q s)
        end
    end.
Proof.
  unfold LookupASN, after_txt, txt_reply, resolver_addr.
  destruct (origin_query P ip) as [q |]; [| reflexivity].
  rewrite bind_run. unfold Exchange.
  destruct (net_Exchange P _ _ (world s)) as [[resp | e] w]; cbn [fst snd];
    [| reflexivity].
  cbn [first_txt]. destruct (Answer resp) as [| rr rest]; [reflexivity |].
  destruct rr as [h a | h ns | h t | h p m | h t | h a | h]; try reflexivity.
  destruct t as [| t0 t]; [reflexivity |].
  destruct (SplitN5_first t0) as [Hlen Hnth].
  destruct (Nat.ltb_spec (List.length (SplitN t0 " | " 5)) 1); [lia |].
  now rewrite Hnth.
Qed.

Lemma well_formed_asn_AS (x : string) :
  well_formed_asn ("AS" ++ x) = true <-> x <> "" /\ all_digits x = true.
Proof.
  unfold well_formed_asn, HasPrefix.
  change (drop 2 ("AS" ++ x)) with x.
  assert (Hp : String.prefix "AS" ("AS" ++ x) = true) by (cbn; now destruct x).
  rewrite Hp. cbn [andb]. rewrite andb_true_iff, negb_true_iff.
  split; intros [H1 H2]; split; auto.
  - now apply String.eqb_neq.
  - now apply String.eqb_neq.
Qed.

(** C8 (as amended): a result of [LookupASN] that is not nil has, as its
    ASN, "AS" followed by the trimmed first field of the first segment of
    the origin answer, taken as it is; it is "AS" followed by decimal
    digits exactly when that trimmed field is a non-empty run of decimal
    digits. *)
Theorem LookupASN_asn_text :
  forall (P : Platform) (ip : string) (s : State P) (info : ASNInfo),
    fst (LookupASN P ip s) = Some info ->
    exists q t0,
      origin_query P ip = Some q
      /\ first_txt (txt_reply P q s) = Some t0
      /\ ASN info = "AS" ++ TrimSpace P (first_field t0)
      /\ (well_formed_asn (ASN info) = true
          <-> TrimSpace P (first_field t0) <> ""
              /\ all_digits (TrimSpace P (first_field t0)) = true).
Proof.
  intros P ip s info. rewrite LookupASN_run.
  destruct (origin_query P ip) as [q |]; [| discriminate].
  destruct (first_txt (txt_reply P q s)) as [t0 |] eqn:Ht; [| discriminate].
  destruct (lookupASName_run P (TrimSpace P (first_field t0))
              (after_txt P q s)) as (org & -> & _).
  cbn [fst]. intros H. injection H as <-. cbn [ASN].
  exists q, t0.
  split; [reflexivity | split; [exact Ht | split; [reflexivity |]]].
  apply well_formed_asn_AS.
Qed.

(** ** Runs on the sample platform *)

Lemma Sample_ip_string_nonempty (ip : IP) : Sample.ip_string ip <> "".
Proof.
  unfold Sample.ip_string.
  destruct ip as [| a [| b [| c [| d [| e ip]]]]]; try discriminate.
  destruct (Sample.octet a); discriminate.
Qed.

(** C5, on the sample platform: a name-error reply gives false. *)
Lemma Exists_fail_open_witness :
  fst (net_Exchange Sample.platform (mkQ "nosuch.invalid." TypeNS true)
         "8.8.8.8:53" 0%nat)
  = Ok (mkMsg RcodeNameError [] [] [])
  /\ fst (Exists Sample.platform "nosuch.invalid" Sample.start) = false.
Proof.
  split; [reflexivity |].
  apply (Exists_fail_open Sample.platform "nosuch.invalid" Sample.start).
  exists (mkMsg RcodeNameError [] [] []). split; reflexivity.
Defined.

(** C9, on the sample platform: a TXT record of 78 characters in three
    segments is cut to 57 characters and the marker. *)
Lemma queryTXT_truncation_witness :
  (60 < String.length
          (concat_segments
             ["v=spf1 include:_spf.example.com "; "include:mail.example.net ";
              "ip4:192.0.2.0/24 -all"]))%nat
  /\ fst (queryTXT Sample.platform "example.com." Sample.start)
     = ["v=spf1 include:_spf.example.com include:mail.example.net ...";
        "short"]
  /\ String.length
       (txt_value
          ["v=spf1 include:_spf.example.com "; "include:mail.example.net ";
           "ip4:192.0.2.0/24 -all"]) = 60%nat
  /\ txt_value ["short"] = "short".
Proof.
  destruct (queryTXT_truncation Sample.platform "example.com." Sample.start)
    as (Hq & Hlong & Hshort).
  split; [cbn; lia |]. split; [| split].
  - rewrite (Hq Sample.long_txt_reply); reflexivity.
  - apply Hlong. cbn. lia.
  - apply Hshort. cbn. lia.
Defined.

(** C10, on the sample platform: the A query for an alias is answered
    with a CNAME record and an A record, and both land in [Records.A]. *)
Lemma GetRecords_shared_extractor_witness :
  fst (net_Exchange Sample.platform (mkQ "example.com." TypeA true)
         "8.8.8.8:53" 0%nat)
  = Ok (mkMsg 0
          ([] ++ RR_CNAME (Sample.hdr "example.com." TypeCNAME) "web.example.net."
              :: [RR_A (Sample.hdr "web.example.net." TypeA) Sample.web_ip])
          [] [])
  /\ rec_A (fst (fst (GetRecords Sample.platform "example.com" Sample.start)))
     = ["web.example.net"; "104.18.27.120"].
Proof.
  split; [reflexivity |].
  destruct (GetRecords_shared_extractor Sample.platform "example.com" Sample.start)
    as (_ & _ & _ & _ & H).
  rewrite (H 0%N [] (Sample.hdr "example.com." TypeCNAME) "web.example.net."
             [RR_A (Sample.hdr "web.example.net." TypeA) Sample.web_ip] [] []);
    reflexivity.
Defined.

(** C3: a reply whose answer section holds one SOA record and whose
    authority section holds an NS record.  The answer section has no NS
    record, yet it is the section searched: the NS record of the authority
    section is not used and the hop emits no step. *)
Lemma select_records_counterexample :
  filter is_NS (Answer Sample.org_reply) = []
  /\ filter is_NS (Ns Sample.org_reply)
     = [RR_NS (Sample.hdr "org." TypeNS) "a0.org.afilias-nst.info."]
  /\ select_records Sample.org_reply = Answer Sample.org_reply
  /\ filter is_NS (select_records Sample.org_reply)
     <> filter is_NS (Ns Sample.org_reply)
  /\ zone_reply Sample.platform "org." "198.41.0.4" Sample.start
     = Ok Sample.org_reply
  /\ fst (trace_zone Sample.platform "org." [root_step] "198.41.0.4" Sample.start)
     = ([root_step], "198.41.0.4").
Proof. repeat split; try reflexivity. discriminate. Qed.

(** C3 as amended, on the same reply and on a referral. *)
Lemma select_records_by_emptiness_witness :
  Answer Sample.org_reply <> []
  /\ select_records Sample.org_reply = Answer Sample.org_reply
  /\ Answer Sample.com_reply = []
  /\ select_records Sample.com_reply = Ns Sample.com_reply.
Proof.
  destruct (select_records_by_emptiness Sample.platform Sample.org_reply)
    as (H1 & _).
  destruct (select_records_by_emptiness Sample.platform Sample.com_reply)
    as (_ & H2 & _).
  split; [discriminate |]. split; [apply H1; discriminate |].
  split; [reflexivity | apply H2; reflexivity].
Defined.

(** C2: a referral with two NS records, glue for the second only, and no
    address from the system resolver for the first.  The step names the
    second NS record, not the first. *)
Lemma trace_zone_first_ns_counterexample :
  zone_reply Sample.platform "example.com." "192.5.6.30" Sample.start
  = Ok Sample.example_reply
  /\ hd_error (filter is_NS (select_records Sample.example_reply))
     = Some (RR_NS (Sample.hdr "example.com." TypeNS) "ns1.example.com.")
  /\ fst (trace_zone Sample.platform "example.com." [] "192.5.6.30" Sample.start)
     = ([mkStep "example.com." "ns2.example.com"], "198.51.100.2")
  /\ [mkStep "example.com." "ns2.example.com"]
     <> [mkStep "example.com." (TrimSuffix "ns1.example.com." ".")].
Proof. repeat split; try reflexivity. discriminate. Qed.

(** C2 as amended, on the same referral: the record named is the only one
    after which the loop stops. *)
Lemma trace_zone_server_name_witness :
  zone_reply Sample.platform "example.com." "192.5.6.30" Sample.start
  = Ok Sample.example_reply
  /\ forall pre h ns post,
       select_records Sample.example_reply = (pre ++ RR_NS h ns :: post)%list ->
       filter is_NS pre = [] ->
       fst (next_server_for Sample.platform (Extra Sample.example_reply) ns ""
              (after_exchange Sample.platform "example.com." "192.5.6.30"
                 Sample.start)) <> ""
       \/ filter is_NS post = [] ->
       [mkStep "example.com." "ns2.example.com"]
       = (if String.eqb (TrimSuffix ns ".") "" then []
          else [] ++ [mkStep "example.com." (TrimSuffix ns ".")])%list.
Proof.
  split; [reflexivity |].
  apply (trace_zone_server_name Sample.platform "example.com." [] "192.5.6.30"
           Sample.start Sample.example_reply
           [mkStep "example.com." "ns2.example.com"] "198.51.100.2"
           (snd (trace_zone Sample.platform "example.com." [] "192.5.6.30"
                   Sample.start))).
  - reflexivity.
  - reflexivity.
Defined.

(** C7: nil without any failure of the origin query.  For a literal in
    three parts nothing is sent at all; for 9.9.9.9 the origin query
    succeeds and its first answer is a TXT record, which has no segment. *)
Lemma LookupASN_absent_counterexample :
  LookupASN Sample.platform "1.2.3" Sample.start = (None, Sample.start)
  /\ qlog Sample.start = []
  /\ txt_reply Sample.platform "9.9.9.9.origin.asn.cymru.com." Sample.start
     = Ok Sample.empty_txt_reply
  /\ map is_TXT (Answer Sample.empty_txt_reply) = [true]
  /\ fst (LookupASN Sample.platform "9.9.9.9" Sample.start) = None.
Proof. repeat split; reflexivity. Qed.

(** C8: an origin answer whose first field lists two origins.  The result
    is not nil and its ASN is not "AS" followed by digits only. *)
Lemma LookupASN_asn_counterexample :
  txt_reply Sample.platform "1.2.0.192.origin.asn.cymru.com." Sample.start
  = Ok (Sample.txt_of "1.2.0.192.origin.asn.cymru.com."
          "64496 64497 | 192.0.2.0/24 | ZZ | iana | 2010-01-01")
  /\ fst (LookupASN Sample.platform "192.0.2.1" Sample.start)
     = Some (mkASN "AS64496 64497" "")
  /\ well_formed_asn "AS64496 64497" = false.
Proof. repeat split; reflexivity. Qed.

(** C8 as amended, on the sample platform: a numeric first field gives a
    well-formed ASN. *)
Lemma LookupASN_asn_text_witness :
  fst (LookupASN Sample.platform "104.18.27.120" Sample.start)
  = Some (mkASN "AS13335" "CLOUDFLARENET, US")
  /\ exists q t0,
       origin_query Sample.platform "104.18.27.120" = Some q
       /\ first_txt (txt_reply Sample.platform q Sample.start) = Some t0
       /\ "AS13335" = "AS" ++ TrimSpace Sample.platform (first_field t0)
       /\ (well_formed_asn "AS13335" = true
           <-> TrimSpace Sample.platform (first_field t0) <> ""
               /\ all_digits (TrimSpace Sample.platform (first_field t0)) = true).
Proof.
  split; [reflexivity |].
  apply (LookupASN_asn_text Sample.platform "104.18.27.120" Sample.start
           (mkASN "AS13335" "CLOUDFLARENET, US")).
  reflexivity.
Defined.

(** ** [strings.Split] on a one-character separator *)

Lemma no_char_count (c : ascii) (s : string) :
  no_char c s = true <-> count_char c s = 0%nat.
Proof.
  induction s as [| x s IH]; cbn; [tauto |].
  destruct (Ascii.eqb x c); cbn; [split; [discriminate | lia] | exact IH].
Qed.

(** A string has no [c], or splits at its first [c]. *)
Lemma first_char_split (c : ascii) (s : string) :
  no_char c s = true
  \/ exists a rest, s = a ++ String c rest /\ no_char c a = true.
Proof.
  induction s as [| x s IH]; [now left |].
  cbn [no_char]. destruct (Ascii.eqb_spec x c) as [-> | Hne].
  - right. exists "", s. split; reflexivity.
  - destruct IH as [IH | (a & rest & -> & Ha)].
    + left. now rewrite IH.
    + right. exists (String x a), rest. split; [reflexivity |].
      cbn. rewrite Ha. now destruct (Ascii.eqb_spec x c).
Qed.

Lemma count_char_append (c : ascii) (a b : string) :
  count_char c (a ++ b) = (count_char c a + count_char c b)%nat.
Proof. induction a as [| x a IH]; cbn; [reflexivity | rewrite IH; lia]. Qed.

Lemma count_char_le (c : ascii) (s : string) :
  (count_char c s <= String.length s)%nat.
Proof.
  induction s as [| x s IH]; cbn; [lia |].
  destruct (Ascii.eqb x c); lia.
Qed.

Lemma count_char_first (c : ascii) (a rest : string) :
  no_char c a = true ->
  count_char c (a ++ String c rest) = S (count_char c rest).
Proof.
  intros Ha. rewrite count_char_append. apply no_char_count in Ha.
  rewrite Ha. cbn. now rewrite Ascii.eqb_refl.
Qed.

Lemma split_on_no_char (c : ascii) (s : string) :
  no_char c s = true -> split_on c s = [s].
Proof.
  induction s as [| x s IH]; cbn; [reflexivity |].
  destruct (Ascii.eqb x c); cbn; [discriminate |].
  intros H. now rewrite IH.
Qed.

Lemma split_on_first (c : ascii) (a rest : string) :
  no_char c a = true ->
  split_on c (a ++ String c rest) = a :: split_on c rest.
Proof.
  induction a as [| x a IH]; cbn.
  - intros _. now rewrite Ascii.eqb_refl.
  - destruct (Ascii.eqb x c); cbn; [discriminate |].
    intros H. now rewrite IH.
Qed.

Lemma Count_is_count_char (c : ascii) :
  forall fuel s,
    (String.length s <= fuel)%nat ->
    Count_from fuel s (String c "") = count_char c s.
Proof.
  induction fuel as [| fuel IH]; intros s Hlen.
  - destruct s; [reflexivity | cbn in Hlen; lia].
  - destruct (first_char_split c s) as [Hn | (a & rest & -> & Ha)].
    + rewrite Count_from_no_char by exact Hn. symmetry.
      now apply no_char_count.
    + rewrite Count_from_first_char, count_char_first by exact Ha.
      f_equal. apply IH. rewrite length_append in Hlen. cbn in Hlen. lia.
Qed.

Lemma split_loop_is_split_on (c : ascii) :
  forall k s,
    (count_char c s <= k)%nat ->
    split_loop k s (String c "") = split_on c s.
Proof.
  induction k as [| k IH]; intros s Hk.
  - assert (Hn : no_char c s = true) by (apply no_char_count; lia).
    cbn. now rewrite split_on_no_char.
  - destruct (first_char_split c s) as [Hn | (a & rest & -> & Ha)].
    + now rewrite split_loop_no_char, split_on_no_char.
    + rewrite split_loop_first_char, split_on_first by exact Ha.
      f_equal. apply IH. rewrite count_char_first in Hk by exact Ha. lia.
Qed.

(** [strings.Split] with a separator of one character cuts at every
    occurrence of it. *)
Lemma Split_is_split_on (c : ascii) (s : string) :
  Split s (String c "") = split_on c s.
Proof.
  unfold Split, genSplit. cbn [Z.eqb Z.ltb Z.compare].
  unfold Count. rewrite Count_is_count_char by lia.
  pose proof (count_char_le c s) as Hle.
  destruct (Z.gtb_spec (Z.of_nat (count_char c s) + 1)
              (Z.of_nat (String.length s) + 1)); [lia |].
  apply split_loop_is_split_on. lia.
Qed.

Lemma length_split_on (c : ascii) (s : string) :
  List.length (split_on c s) = S (count_char c s).
Proof.
  induction s as [| x s IH]; cbn; [reflexivity |].
  destruct (Ascii.eqb x c); cbn; [now rewrite IH |].
  destruct (split_on c s); cbn in *; lia.
Qed.

Lemma Join_cons (e : string) (rest : list string) (sep : string) :
  rest <> [] -> Join (e :: rest) sep = e ++ sep ++ Join rest sep.
Proof. destruct rest; [congruence | reflexivity]. Qed.

Lemma Join_split_on (c : ascii) (s : string) :
  Join (split_on c s) (String c "") = s.
Proof.
  induction s as [| x s IH]; cbn [split_on]; [reflexivity |].
  pose proof (length_split_on c s) as Hlen.
  destruct (Ascii.eqb_spec x c) as [-> | Hne].
  - rewrite Join_cons by (destruct (split_on c s); [discriminate | congruence]).
    cbn. now rewrite IH.
  - destruct (split_on c s) as [| h t]; [discriminate |].
    destruct t as [| h' t]; cbn in *; now rewrite <- IH.
Qed.

Lemma split_on_pieces (c : ascii) (s : string) :
  Forall (fun piece => no_char c piece = true) (split_on c s).
Proof.
  induction s as [| x s IH]; cbn [split_on]; [now constructor |].
  pose proof (length_split_on c s) as Hlen.
  destruct (Ascii.eqb_spec x c) as [-> | Hne].
  - constructor; [reflexivity | exact IH].
  - destruct (split_on c s) as [| h t]; [discriminate |].
    inversion IH; subst. constructor; [| assumption].
    cbn. apply Ascii.eqb_neq in Hne. now rewrite Hne.
Qed.

(** Joining pieces free of [c] with [c] and splitting again gives the
    pieces back. *)
Lemma split_on_Join (c : ascii) (parts : list string) :
  parts <> [] ->
  Forall (fun piece => no_char c piece = true) parts ->
  split_on c (Join parts (String c "")) = parts.
Proof.
  induction parts as [| e rest IH]; [congruence |].
  intros _ Hall. inversion Hall as [| ? ? He Hrest]; subst.
  destruct rest as [| e' rest'].
  - cbn. now apply split_on_no_char.
  - rewrite Join_cons by discriminate. cbn [append].
    rewrite split_on_first by exact He. f_equal.
    apply IH; [discriminate | exact Hrest].
Qed.

(** ** Nameserver discovery *)

Lemma Exchange_fst (P : Platform) q server (s : State P) :
  fst (Exchange P q server s) = fst (net_Exchange P q server (world s)).
Proof. unfold Exchange. now destruct (net_Exchange P q server (world s)). Qed.

Lemma Exchange_log (P : Platform) q server (s : State P) :
  qlog (snd (Exchange P q server s))
  = (qlog s ++ [EvExchange q server
                  (fst (net_Exchange P q server (world s)))])%list.
Proof. unfold Exchange. now destruct (net_Exchange P q server (world s)). Qed.

(** The loop of [resolveNS] stops at the first A record. *)
Lemma first_A_first_address (P : Platform) (answer : list RR) :
  first_A P answer
  = match a_addresses answer with
    | a :: _ => IP_String P a
    | [] => ""
    end.
Proof.
  induction answer as [| rr answer IH]; [reflexivity |].
  destruct rr; cbn [first_A a_addresses flat_map app]; auto.
Qed.

Lemma resolveNS_run (P : Platform) (ns : string) (s : State P) :
  resolveNS P ns s
  = (address_in P (resolver_reply P ns TypeA s),
     snd (Exchange P (mkQ ns TypeA true) "8.8.8.8:53" s)).
Proof.
  unfold resolveNS, resolver_reply, resolver_addr, address_in.
  rewrite bind_run, Exchange_fst.
  destruct (fst (net_Exchange P _ _ (world s))) as [resp | e];
    [| reflexivity].
  unfold ret. now rewrite first_A_first_address.
Qed.

Lemma collect_nameservers_run (P : Platform) :
  forall answer acc (s : State P),
    exists replies,
      List.length replies = List.length (ns_targets answer)
      /\ fst (collect_nameservers P answer acc s)
         = (acc ++ map (nameserver_of P) (combine (ns_targets answer) replies))%list
      /\ qlog (snd (collect_nameservers P answer acc s))
         = (qlog s ++ map a_query_of (combine (ns_targets answer) replies))%list.
Proof.
  induction answer as [| rr answer IH]; intros acc s.
  - exists []. cbn. now rewrite !app_nil_r.
  - destruct rr as [h a | h ns | h t | h p m | h t | h a | h];
      try exact (IH acc s).
    cbn [collect_nameservers ns_targets flat_map app].
    rewrite bind_run, resolveNS_run. cbn [fst snd].
    set (r := resolver_reply P ns TypeA s).
    set (s1 := snd (Exchange P (mkQ ns TypeA true) "8.8.8.8:53" s)).
    destruct (IH (acc ++ [mkNameserver (TrimSuffix ns ".") (address_in P r)])%list s1)
      as (replies & Hlen & Hres & Hlog).
    exists (r :: replies). split; [cbn; now rewrite Hlen |].
    split.
    + rewrite Hres, <- app_assoc. reflexivity.
    + rewrite Hlog. subst s1. rewrite Exchange_log, <- app_assoc. reflexivity.
Qed.

(** X1: when the NS query of [GetNameservers] fails, the error is handed
    back with no nameserver, and that query is the only one sent. *)
Theorem GetNameservers_error :
  forall (P : Platform) (domain : string) (s : State P) (e : string),
    resolver_reply P (Fqdn P domain) TypeNS s = Err e ->
    fst (GetNameservers P domain s) = ([], Some e)
    /\ qlog (snd (GetNameservers P domain s))
       = (qlog s ++ [EvExchange (mkQ (Fqdn P domain) TypeNS true)
                       "8.8.8.8:53" (Err e)])%list.
Proof.
  intros P domain s e Hr. unfold GetNameservers, resolver_addr.
  rewrite bind_run, Exchange_fst. unfold resolver_reply in Hr. rewrite Hr.
  cbn [fst snd ret]. split; [reflexivity |].
  unfold ret. cbn [snd]. now rewrite Exchange_log, Hr.
Qed.

(** X2: when the NS query succeeds, [GetNameservers] never fails: it
    returns one entry per NS record of the answer section, in order,
    named by the target without its trailing dot; after the NS query it
    sends one A query per entry, for the target as it stands, to the same
    resolver, and the entry's address is that of the first A record of
    that reply, the head of the list of the A records of its answer
    section, or empty when that exchange fails or that list is empty. *)
Theorem GetNameservers_entries :
  forall (P : Platform) (domain : string) (s : State P) (resp : Msg),
    resolver_reply P (Fqdn P domain) TypeNS s = Ok resp ->
    exists replies,
      List.length replies = List.length (ns_targets (Answer resp))
      /\ fst (GetNameservers P domain s)
         = (map (nameserver_of P) (combine (ns_targets (Answer resp)) replies),
            None)
      /\ qlog (snd (GetNameservers P domain s))
         = (qlog s
            ++ EvExchange (mkQ (Fqdn P domain) TypeNS true) "8.8.8.8:53" (Ok resp)
               :: map a_query_of (combine (ns_targets (Answer resp)) replies))%list.
Proof.
  intros P domain s resp Hr. unfold GetNameservers, resolver_addr.
  rewrite bind_run, Exchange_fst. unfold resolver_reply in Hr. rewrite Hr.
  rewrite bind_run. unfold ret. cbn [fst snd].
  destruct (collect_nameservers_run P (Answer resp) []
              (snd (Exchange P (mkQ (Fqdn P domain) TypeNS true) "8.8.8.8:53" s)))
    as (replies & Hlen & Hres & Hlog).
  exists replies. split; [exact Hlen |]. split.
  - now rewrite Hres.
  - rewrite Hlog, Exchange_log, Hr, <- app_assoc. reflexivity.
Qed.

(** ** Record aggregation: MX entries and the five queries *)

Lemma collect_mx_acc (answer : list RR) (acc : list string) :
  collect_mx answer acc = (acc ++ map mx_entry (mx_records answer))%list.
Proof.
  revert acc. induction answer as [| rr rest IH]; intros acc; cbn.
  - now rewrite app_nil_r.
  - destruct rr; cbn; rewrite IH; try reflexivity.
    now rewrite <- app_assoc.
Qed.

Lemma no_space_in_digits (d : Decimal.uint) :
  no_char " " (NilEmpty.string_of_uint d) = true.
Proof. induction d; cbn; auto. Qed.

Lemma no_space_in_fmt_d (v : N) : no_char " " (fmt_d v) = true.
Proof.
  unfold fmt_d, NilZero.string_of_uint.
  destruct (N.to_uint v); try reflexivity; apply no_space_in_digits.
Qed.

Lemma parse_decimal_fmt_d (v : N) : parse_decimal (fmt_d v) = Some v.
Proof.
  unfold parse_decimal, fmt_d.
  destruct (N.to_uint v) as [| d | d | d | d | d | d | d | d | d | d] eqn:E;
    try (rewrite NilZero.usu by discriminate; cbn [option_map];
         rewrite <- E; now rewrite DecimalN.Unsigned.of_to).
  cbn. f_equal. rewrite <- (DecimalN.Unsigned.of_to v), E. reflexivity.
Qed.

Lemma queryMX_ok (P : Platform) (domain : string) (s : State P) (resp : Msg) :
  resolver_reply P domain TypeMX s = Ok resp ->
  fst (queryMX P domain s) = map mx_entry (mx_records (Answer resp)).
Proof.
  intros Hr. unfold queryMX, resolver_addr.
  rewrite bind_run, Exchange_fst. unfold resolver_reply in Hr. rewrite Hr.
  cbn. now rewrite collect_mx_acc.
Qed.

(** X3: [queryMX] gives one entry per MX record of the answer section, in
    order.  An entry is the preference in decimal, one space, and the
    target without its trailing dot: cutting it at its first space gives
    back the preference and the target. *)
Theorem queryMX_entries :
  forall (P : Platform) (domain : string) (s : State P),
    (forall resp,
        resolver_reply P domain TypeMX s = Ok resp ->
        fst (queryMX P domain s) = map mx_entry (mx_records (Answer resp)))
    /\ (forall pref mx,
          let entry := mx_entry (pref, mx) in
          exists m,
            Index entry " " = Some m
            /\ parse_decimal (take m entry) = Some pref
            /\ drop (m + 1) entry = TrimSuffix mx ".").
Proof.
  intros P domain s. split.
  - intros resp Hr. now apply queryMX_ok.
  - intros pref mx entry. subst entry. unfold mx_entry. cbn [fst snd].
    exists (String.length (fmt_d pref)).
    change (fmt_d pref ++ " " ++ TrimSuffix mx ".")
      with (fmt_d pref ++ String " " (TrimSuffix mx ".")).
    split; [apply Index_first_char, no_space_in_fmt_d |].
    split.
    + rewrite take_append. apply parse_decimal_fmt_d.
    + apply drop_past_char.
Qed.

Lemma query_log (P : Platform) (d : string) (qt : N) (s : State P) :
  qlog (snd (queryRecords P d qt s))
  = (qlog s ++ [EvExchange (mkQ d qt true) "8.8.8.8:53"
                  (resolver_reply P d qt s)])%list.
Proof.
  unfold queryRecords, resolver_addr, resolver_reply.
  rewrite bind_run, <- Exchange_log.
  now destruct (fst (Exchange P _ _ s)).
Qed.

Lemma queryMX_log (P : Platform) (d : string) (s : State P) :
  qlog (snd (queryMX P d s))
  = (qlog s ++ [EvExchange (mkQ d TypeMX true) "8.8.8.8:53"
                  (resolver_reply P d TypeMX s)])%list.
Proof.
  unfold queryMX, resolver_addr, resolver_reply.
  rewrite bind_run, <- Exchange_log.
  now destruct (fst (Exchange P _ _ s)).
Qed.

Lemma queryTXT_log (P : Platform) (d : string) (s : State P) :
  qlog (snd (queryTXT P d s))
  = (qlog s ++ [EvExchange (mkQ d TypeTXT true) "8.8.8.8:53"
                  (resolver_reply P d TypeTXT s)])%list.
Proof.
  unfold queryTXT, resolver_addr, resolver_reply.
  rewrite bind_run, <- Exchange_log.
  now destruct (fst (Exchange P _ _ s)).
Qed.

Lemma GetRecords_run (P : Platform) (domain : string) (s : State P) :
  let d := Fqdn P domain in
  let st := records_state P domain s in
  GetRecords P domain s
  = (mkRecords (fst (queryRecords P d TypeA (st 0%nat)))
       (fst (queryRecords P d TypeAAAA (st 1%nat)))
       (fst (queryMX P d (st 2%nat)))
       (fst (queryTXT P d (st 3%nat)))
       []
       (fst (queryRecords P d TypeCNAME (st 4%nat))),
     None, st 5%nat).
Proof.
  cbv zeta. unfold GetRecords, records_state. cbn [nth].
  rewrite !bind_run. reflexivity.
Qed.

(** X4: [GetRecords] sends exactly five questions, all recursion-desired
    and all to 8.8.8.8:53, for the qualified domain: A, AAAA, MX, TXT and
    CNAME in that order; it never returns an error and leaves the NS field
    empty, whatever the replies are. *)
Theorem GetRecords_queries :
  forall (P : Platform) (domain : string) (s : State P),
    exists evs,
      qlog (snd (GetRecords P domain s)) = (qlog s ++ evs)%list
      /\ questions_of evs
         = map (fun qt => mkQ (Fqdn P domain) qt true)
               [TypeA; TypeAAAA; TypeMX; TypeTXT; TypeCNAME]
      /\ servers_of evs
         = ["8.8.8.8:53"; "8.8.8.8:53"; "8.8.8.8:53"; "8.8.8.8:53"; "8.8.8.8:53"]
      /\ snd (fst (GetRecords P domain s)) = None
      /\ rec_NS (fst (fst (GetRecords P domain s))) = [].
Proof.
  intros P domain s. rewrite GetRecords_run. cbn [fst snd rec_NS].
  unfold records_state. cbn [nth].
  eexists. split.
  - rewrite query_log, queryTXT_log, queryMX_log, !query_log.
    rewrite <- !app_assoc. reflexivity.
  - cbn. repeat split; reflexivity.
Qed.

Lemma queryRecords_err (P : Platform) d qt (s : State P) e :
  resolver_reply P d qt s = Err e -> fst (queryRecords P d qt s) = [].
Proof.
  intros Hr. unfold queryRecords, resolver_addr. unfold resolver_reply in Hr.
  now rewrite bind_run, Exchange_fst, Hr.
Qed.

(** X5: each field of [GetRecords] fails on its own: a field whose
    exchange ends in a transport error is empty, and the call still
    returns the other fields and no error. *)
Theorem GetRecords_field_failures :
  forall (P : Platform) (domain : string) (s : State P),
    let d := Fqdn P domain in
    let st := records_state P domain s in
    let records := fst (fst (GetRecords P domain s)) in
    (forall e, resolver_reply P d TypeA (st 0%nat) = Err e -> rec_A records = [])
    /\ (forall e, resolver_reply P d TypeAAAA (st 1%nat) = Err e ->
                  rec_AAAA records = [])
    /\ (forall e, resolver_reply P d TypeMX (st 2%nat) = Err e ->
                  rec_MX records = [])
    /\ (forall e, resolver_reply P d TypeTXT (st 3%nat) = Err e ->
                  rec_TXT records = [])
    /\ (forall e, resolver_reply P d TypeCNAME (st 4%nat) = Err e ->
                  rec_CNAME records = [])
    /\ (forall resp, resolver_reply P d TypeMX (st 2%nat) = Ok resp ->
                     rec_MX records = map mx_entry (mx_records (Answer resp))).
Proof.
  intros P domain s d st records. subst records.
  rewrite GetRecords_run. cbn [fst rec_A rec_AAAA rec_MX rec_TXT rec_CNAME].
  fold d. fold st.
  repeat split; intros x Hr.
  - eapply queryRecords_err; exact Hr.
  - eapply queryRecords_err; exact Hr.
  - unfold queryMX, resolver_addr. unfold resolver_reply in Hr.
    now rewrite bind_run, Exchange_fst, Hr.
  - unfold queryTXT, resolver_addr. unfold resolver_reply in Hr.
    now rewrite bind_run, Exchange_fst, Hr.
  - eapply queryRecords_err; exact Hr.
  - now apply queryMX_ok.
Qed.

Lemma txt_value_bounded (txt : list string) :
  (String.length (txt_value txt) <= 60)%nat.
Proof.
  unfold txt_value.
  destruct (Nat.ltb_spec 60 (String.length (Join txt ""))) as [Hlt | Hle].
  - rewrite length_append, length_take by lia. cbn. lia.
  - exact Hle.
Qed.

(** X6: no TXT entry returned by [GetRecords] is longer than 60
    characters, whatever the resolver answers. *)
Theorem GetRecords_txt_bounded :
  forall (P : Platform) (domain : string) (s : State P),
    Forall (fun value => (String.length value <= 60)%nat)
           (rec_TXT (fst (fst (GetRecords P domain s)))).
Proof.
  intros P domain s. rewrite GetRecords_run. cbn [fst rec_TXT].
  unfold queryTXT. rewrite bind_run.
  destruct (fst (Exchange P _ _ _)) as [resp | e]; cbn; [| constructor].
  rewrite collect_txt_acc. cbn. apply Forall_forall.
  intros v Hv. apply in_map_iff in Hv as (txt & <- & _).
  apply txt_value_bounded.
Qed.

(** ** Delegation tracer: order of the steps, servers, zones *)

Lemma Subseq_refl_nil {A : Type} (m : list A) : Subseq [] m.
Proof. induction m; constructor; assumption. Qed.

Lemma trace_loop_subseq (P : Platform) :
  forall zones i steps cur (s : State P),
    exists added,
      fst (fst (trace_loop P (S i) zones steps cur s)) = (steps ++ added)%list
      /\ Subseq (map Zone added) zones.
Proof.
  induction zones as [| zone zones IH]; intros i steps cur s.
  - exists []. cbn. rewrite app_nil_r. split; [reflexivity | constructor].
  - cbn [trace_loop Nat.eqb]. rewrite bind_run.
    destruct (trace_zone_log P zone steps cur s) as (lk & _ & _ & Hst).
    destruct (trace_zone P zone steps cur s) as [[steps1 cur1] s1].
    cbn [fst snd] in *.
    destruct (IH (S i) steps1 cur1 s1) as (added & Ha & Hsub).
    destruct Hst as [-> | (resp & h & ns & _ & _ & ->)].
    + exists added. split; [exact Ha | now constructor].
    + exists (mkStep zone (TrimSuffix ns ".") :: added). split.
      * rewrite Ha, <- app_assoc. reflexivity.
      * cbn. now constructor.
Qed.

Lemma Trace_unfold (P : Platform) (domain : string) (s : State P) :
  let zones := zones_of (parts_of P domain) in
  Trace P domain s
  = (fst (fst (trace_loop P 1 (tl zones) [root_step] "198.41.0.4" s)),
     None,
     snd (trace_loop P 1 (tl zones) [root_step] "198.41.0.4" s)).
Proof.
  cbv zeta. unfold Trace. rewrite bind_run.
  change (nth 0 rootServers "") with "198.41.0.4".
  change (trace_loop P 0 (zones_of (parts_of P domain)) [] "198.41.0.4" s)
    with (trace_loop P 1 (tl (zones_of (parts_of P domain))) [root_step]
            "198.41.0.4" s).
  destruct (trace_loop P 1 _ [root_step] "198.41.0.4" s) as [[st c] t].
  reflexivity.
Qed.

(** X7: the steps of a trace follow the zone walk: after the root step,
    the zones of the steps can be read off the zones after the root from
    left to right, so the steps go from the top-level domain down and no
    zone of the walk gets two steps. *)
Theorem Trace_steps_in_zone_order :
  forall (P : Platform) (domain : string) (s : State P),
    exists added,
      fst (fst (Trace P domain s)) = root_step :: added
      /\ Subseq (map Zone added) (tl (zones_of (parts_of P domain))).
Proof.
  intros P domain s. rewrite Trace_unfold. cbn [fst].
  destruct (trace_loop_subseq P (tl (zones_of (parts_of P domain))) 0
              [root_step] "198.41.0.4" s) as (added & Ha & Hsub).
  exists added. split; [exact Ha | exact Hsub].
Qed.

Lemma trace_loop_offline (P : Platform) :
  (forall q server w, exists e, fst (net_Exchange P q server w) = Err e) ->
  forall zones i steps cur (s : State P),
    exists evs,
      fst (trace_loop P (S i) zones steps cur s) = (steps, cur)
      /\ qlog (snd (trace_loop P (S i) zones steps cur s)) = (qlog s ++ evs)%list
      /\ servers_of evs = repeat (cur ++ ":53") (List.length zones)
      /\ questions_of evs = map (fun z => mkQ z TypeNS false) zones.
Proof.
  intros Hoff. induction zones as [| zone zones IH]; intros i steps cur s.
  - exists []. cbn. now rewrite app_nil_r.
  - cbn [trace_loop Nat.eqb]. rewrite bind_run.
    destruct (Hoff (mkQ zone TypeNS false) (cur ++ ":53") (world s)) as [e He].
    rewrite (trace_zone_err P zone steps cur s e He). cbn [fst snd].
    destruct (IH (S i) steps cur (after_exchange P zone cur s))
      as (evs & Hres & Hlog & Hsrv & Hq).
    exists (EvExchange (mkQ zone TypeNS false) (cur ++ ":53") (Err e) :: evs).
    split; [exact Hres |]. split; [| split].
    + rewrite Hlog. unfold after_exchange. rewrite Exchange_log, He.
      rewrite <- app_assoc. reflexivity.
    + cbn [List.length repeat]. rewrite <- Hsrv. reflexivity.
    + cbn [map]. rewrite <- Hq. reflexivity.
Qed.

(** X8: when no exchange gets through, the trace is the root step alone,
    without error; one NS query per zone after the root has still been
    sent, each of them to the first root server. *)
Theorem Trace_offline :
  forall (P : Platform),
    (forall q server w, exists e, fst (net_Exchange P q server w) = Err e) ->
    forall (domain : string) (s : State P),
      fst (Trace P domain s) = ([root_step], None)
      /\ exists evs,
           qlog (snd (Trace P domain s)) = (qlog s ++ evs)%list
           /\ servers_of evs
              = repeat "198.41.0.4:53" (List.length (parts_of P domain))
           /\ questions_of evs
              = map (fun z => mkQ z TypeNS false)
                    (tl (zones_of (parts_of P domain))).
Proof.
  intros P Hoff domain s. rewrite Trace_unfold. cbn [fst snd].
  destruct (trace_loop_offline P Hoff (tl (zones_of (parts_of P domain))) 0
              [root_step] "198.41.0.4" s) as (evs & Hres & Hlog & Hsrv & Hq).
  rewrite Hres. split; [reflexivity |].
  exists evs. split; [exact Hlog |]. split; [| exact Hq].
  rewrite Hsrv. unfold zones_of. cbn [tl].
  now rewrite length_map, length_rev, length_seq.
Qed.

Lemma learnt_mono (P : Platform) (evs evs' : list Event) (addr : string) :
  incl evs evs' -> learnt P evs addr -> learnt P evs' addr.
Proof.
  intros Hi [(q & srv & resp & h & a & Hin & Ha & ->) | (host & ips & Hin & Hhd)].
  - left. exists q, srv, resp, h, a. auto.
  - right. exists host, ips. auto.
Qed.

Lemma glue_of_In (extra : list RR) (ns : string) (a : IP) :
  glue_of extra ns = Some a -> exists h, In (RR_A h a) extra.
Proof.
  induction extra as [| rr extra IH]; cbn; [discriminate |].
  destruct rr as [h a' | | | | | |];
    try (intros H; destruct (IH H) as [h' Hin]; exists h'; now right).
  destruct (String.eqb (Name h) ns).
  - intros H. injection H as ->. exists h. now left.
  - intros H. destruct (IH H) as [h' Hin]. exists h'. now right.
Qed.

(** Where the address left by the body of the NS loop comes from. *)
Lemma next_server_for_source (P : Platform) extra ns (s : State P) :
  exists lk,
    qlog (snd (next_server_for P extra ns "" s)) = (qlog s ++ lk)%list
    /\ questions_of lk = []
    /\ (fst (next_server_for P extra ns "" s) = ""
        \/ (exists h a, In (RR_A h a) extra
              /\ fst (next_server_for P extra ns "" s) = IP_String P a)
        \/ (exists host ips, In (EvLookupHost host ips) lk
              /\ hd_error ips = Some (fst (next_server_for P extra ns "" s)))).
Proof.
  unfold next_server_for. rewrite glue_scan_glue_of.
  destruct (glue_of extra ns) as [a |] eqn:Hg.
  - destruct (String.eqb_spec (IP_String P a) "") as [E | E].
    + rewrite bind_run. unfold LookupHost, ret.
      destruct (net_LookupHost P _ (world s)) as [[| ip0 ips] w]; cbn.
      * eexists. split; [reflexivity |]. split; [reflexivity |]. left. exact E.
      * eexists. split; [reflexivity |]. split; [reflexivity |].
        right. right. exists (TrimSuffix ns "."), (ip0 :: ips).
        split; [now left | reflexivity].
    + exists []. cbn. rewrite app_nil_r. split; [reflexivity |].
      split; [reflexivity |]. right. left.
      destruct (glue_of_In _ _ _ Hg) as [h Hin]. now exists h, a.
  - cbn [String.eqb]. rewrite bind_run. unfold LookupHost, ret.
    destruct (net_LookupHost P _ (world s)) as [[| ip0 ips] w]; cbn.
    + eexists. split; [reflexivity |]. split; [reflexivity |]. now left.
    + eexists. split; [reflexivity |]. split; [reflexivity |].
      right. right. exists (TrimSuffix ns "."), (ip0 :: ips).
      split; [now left | reflexivity].
Qed.

Lemma ns_loop_source (P : Platform) extra :
  forall recs name (s : State P),
    exists lk,
      qlog (snd (ns_loop P recs extra "" name s)) = (qlog s ++ lk)%list
      /\ questions_of lk = []
      /\ (fst (fst (ns_loop P recs extra "" name s)) = ""
          \/ (exists h a, In (RR_A h a) extra
                /\ fst (fst (ns_loop P recs extra "" name s)) = IP_String P a)
          \/ (exists host ips, In (EvLookupHost host ips) lk
                /\ hd_error ips
                   = Some (fst (fst (ns_loop P recs extra "" name s))))).
Proof.
  induction recs as [| rr recs IH]; intros name s.
  - exists []. cbn. rewrite app_nil_r. auto.
  - destruct rr as [h a | h ns | h t | h p m | h t | h a | h];
      try exact (IH name s).
    cbn [ns_loop]. rewrite bind_run.
    destruct (next_server_for_source P extra ns s) as (lk1 & Hl1 & Hq1 & Hsrc).
    destruct (next_server_for P extra ns "" s) as [n1 s1]. cbn [fst snd] in *.
    destruct (String.eqb_spec n1 "") as [-> | Hne]; cbn [negb].
    + destruct (IH (TrimSuffix ns ".") s1) as (lk & Hl & Hq & Hs).
      exists (lk1 ++ lk)%list. rewrite Hl, Hl1, app_assoc, questions_of_app, Hq1, Hq.
      split; [reflexivity |]. split; [reflexivity |].
      destruct Hs as [Hs | [Hs | (host & ips & Hin & Hhd)]]; auto.
      right. right. exists host, ips. split; [| exact Hhd].
      apply in_or_app. now right.
    + exists lk1. unfold ret. cbn [fst snd]. split; [exact Hl1 |].
      split; [exact Hq1 | exact Hsrc].
Qed.

Lemma trace_zone_source (P : Platform) zone steps cur (s : State P) :
  exists lk,
    qlog (snd (trace_zone P zone steps cur s))
    = (qlog s
       ++ EvExchange (mkQ zone TypeNS false) (cur ++ ":53")
            (zone_reply P zone cur s) :: lk)%list
    /\ questions_of lk = []
    /\ (snd (fst (trace_zone P zone steps cur s)) = cur
        \/ learnt P (EvExchange (mkQ zone TypeNS false) (cur ++ ":53")
                       (zone_reply P zone cur s) :: lk)
             (snd (fst (trace_zone P zone steps cur s)))).
Proof.
  assert (Hlog : qlog (after_exchange P zone cur s)
                 = (qlog s ++ [EvExchange (mkQ zone TypeNS false) (cur ++ ":53")
                                 (zone_reply P zone cur s)])%list).
  { unfold after_exchange, zone_reply. apply Exchange_log. }
  destruct (zone_reply P zone cur s) as [resp | e] eqn:Hr.
  - destruct (ns_loop_source P (Extra resp) (select_records resp) ""
                (after_exchange P zone cur s)) as (lk & Hl & Hq & Hsrc).
    destruct (ns_loop P (select_records resp) (Extra resp) "" ""
                (after_exchange P zone cur s)) as [[next name] t] eqn:Hrun.
    rewrite (trace_zone_ok P zone steps cur s resp Hr next name t Hrun).
    cbn [fst snd] in *. exists lk.
    rewrite Hl, Hlog, <- app_assoc. split; [reflexivity |].
    split; [exact Hq |].
    destruct (String.eqb_spec next "") as [E | E]; cbn [negb]; [now left |].
    right. destruct Hsrc as [Hs | [(h & a & Hin & Hs) | (host & ips & Hin & Hhd)]];
      [contradiction | |].
    + left. exists (mkQ zone TypeNS false), (cur ++ ":53"), resp, h, a.
      split; [now left | auto].
    + right. exists host, ips. split; [now right | exact Hhd].
  - rewrite (trace_zone_err P zone steps cur s e Hr). cbn [fst snd].
    exists []. rewrite Hlog. auto.
Qed.

Lemma trace_loop_servers (P : Platform) (root : string) :
  forall zones i steps cur sofar (s : State P),
    cur = root \/ learnt P sofar cur ->
    exists evs,
      qlog (snd (trace_loop P (S i) zones steps cur s)) = (qlog s ++ evs)%list
      /\ forall pre q server r post,
           evs = (pre ++ EvExchange q server r :: post)%list ->
           exists addr,
             server = addr ++ ":53"
             /\ (addr = root \/ learnt P (sofar ++ pre) addr).
Proof.
  induction zones as [| zone zones IH]; intros i steps cur sofar s Hcur.
  - exists []. cbn. rewrite app_nil_r. split; [reflexivity |].
    intros pre q server r post H. now destruct pre.
  - cbn [trace_loop Nat.eqb]. rewrite bind_run.
    destruct (trace_zone_source P zone steps cur s) as (lk & Hl & Hq & Hsrc).
    destruct (trace_zone P zone steps cur s) as [[steps1 cur1] s1].
    cbn [fst snd] in *.
    set (ev := EvExchange (mkQ zone TypeNS false) (cur ++ ":53")
                 (zone_reply P zone cur s)) in *.
    assert (Hcur1 : cur1 = root \/ learnt P (sofar ++ ev :: lk) cur1).
    { destruct Hsrc as [-> | Hl1].
      - destruct Hcur as [-> | Hc]; [now left | right].
        eapply learnt_mono; [| exact Hc]. apply incl_appl, incl_refl.
      - right. eapply learnt_mono; [| exact Hl1]. apply incl_appr, incl_refl. }
    destruct (IH (S i) steps1 cur1 (sofar ++ ev :: lk)%list s1 Hcur1)
      as (evs & Hlog & Hprov).
    exists (ev :: lk ++ evs)%list. split.
    + rewrite Hlog, Hl, <- app_assoc. reflexivity.
    + intros pre q server r post Heq.
      destruct pre as [| x pre].
      * cbn in Heq.
        assert (Hsrv : server = cur ++ ":53") by (unfold ev in Heq; congruence).
        exists cur. split; [exact Hsrv |]. rewrite app_nil_r. exact Hcur.
      * cbn in Heq. injection Heq as <- Heq.
        assert (Hsplit : exists pre', pre = (lk ++ pre')%list
                                      /\ evs = (pre' ++ EvExchange q server r :: post)%list).
        { clear - Heq Hq. revert pre Heq.
          induction lk as [| l lk IHlk]; intros pre Heq.
          - exists pre. now split.
          - destruct l as [q' s' r' | host ips]; [discriminate Hq |].
            destruct pre as [| y pre]; [discriminate Heq |].
            cbn in Heq. injection Heq as <- Heq.
            destruct (IHlk Hq pre Heq) as (pre' & -> & He).
            exists pre'. now split. }
        destruct Hsplit as (pre' & -> & He).
        destruct (Hprov pre' q server r post He) as (addr & Hs & Ha).
        exists addr. split; [exact Hs |].
        destruct Ha as [Ha | Ha]; [now left | right].
        eapply learnt_mono; [| exact Ha].
        rewrite <- app_assoc. cbn. apply incl_refl.
Qed.

(** X9: every server a trace sends a query to is port 53 of the first
    root server or of an address learnt from the events before that
    query: an A record of the additional section of an earlier successful
    reply, or the first address of an earlier host lookup. *)
Theorem Trace_servers_learnt :
  forall (P : Platform) (domain : string) (s : State P),
    exists evs,
      qlog (snd (Trace P domain s)) = (qlog s ++ evs)%list
      /\ forall pre q server r post,
           evs = (pre ++ EvExchange q server r :: post)%list ->
           exists addr,
             server = addr ++ ":53"
             /\ (addr = "198.41.0.4" \/ learnt P pre addr).
Proof.
  intros P domain s. rewrite Trace_unfold. cbn [snd].
  destruct (trace_loop_servers P "198.41.0.4"
              (tl (zones_of (parts_of P domain))) 0 [root_step] "198.41.0.4" []
              s (or_introl eq_refl)) as (evs & Hlog & Hprov).
  exists evs. split; [exact Hlog |]. exact Hprov.
Qed.

Lemma take_drop (n : nat) (s : string) : take n s ++ drop n s = s.
Proof.
  revert s. induction n as [| n IH]; intros [| c s]; cbn; try reflexivity.
  now rewrite IH.
Qed.

Lemma TrimSuffix_restore (s suffix : string) :
  HasSuffix s suffix = true -> TrimSuffix s suffix ++ suffix = s.
Proof.
  intros H. unfold TrimSuffix. rewrite H. unfold HasSuffix in H.
  apply andb_true_iff in H as [_ H]. apply String.eqb_eq in H.
  rewrite <- H at 2. apply take_drop.
Qed.

Lemma zones_of_snoc (p : string) (parts : list string) :
  zones_of (p :: parts)
  = (zones_of parts ++ [(Join (p :: parts) "." ++ ".")%string])%list.
Proof.
  unfold zones_of. cbn [List.length].
  rewrite <- cons_seq, <- seq_shift. cbn [rev]. rewrite map_app, <- map_rev, map_map.
  cbn [map skipn app]. reflexivity.
Qed.

Lemma last_zones_of (parts : list string) :
  parts <> [] -> last (zones_of parts) "" = Join parts "." ++ ".".
Proof.
  destruct parts as [| p parts]; [congruence |]. intros _.
  rewrite zones_of_snoc. apply last_last.
Qed.

Lemma zones_end_in_dot (parts : list string) :
  Forall (fun z => HasSuffix z "." = true) (zones_of parts).
Proof.
  unfold zones_of. constructor; [reflexivity |].
  apply Forall_forall. intros z Hz. apply in_map_iff in Hz as (i & <- & _).
  generalize (Join (skipn i parts) ".") as x. intros x.
  unfold HasSuffix. rewrite length_append. cbn [String.length].
  replace (String.length x + 1 - 1)%nat with (String.length x) by lia.
  rewrite drop_append.
  destruct (Nat.leb_spec 1 (String.length x + 1)); [reflexivity | lia].
Qed.

(** X10: the zones of the walk nest: one more label at the left of the
    domain adds one zone at the end, that label in front of the zone
    before it.  Every zone ends with a dot, and the last zone is the
    qualified domain itself when [dns.Fqdn] returns a name ending with a
    dot. *)
Theorem zones_nested :
  forall (P : Platform) (domain : string),
    let zones := zones_of (parts_of P domain) in
    Forall (fun z => HasSuffix z "." = true) zones
    /\ last zones "" = TrimSuffix (Fqdn P domain) "." ++ "."
    /\ (HasSuffix (Fqdn P domain) "." = true -> last zones "" = Fqdn P domain)
    /\ (forall p parts,
          parts <> [] ->
          zones_of (p :: parts)
          = (zones_of parts
             ++ [(p ++ "." ++ last (zones_of parts) "")%string])%list).
Proof.
  intros P domain zones.
  assert (Hlast : last zones "" = TrimSuffix (Fqdn P domain) "." ++ ".").
  { subst zones. unfold parts_of.
    change "."%string with (String "."%char "") at 1 2.
    rewrite Split_is_split_on.
    rewrite last_zones_of.
    - change "."%string with (String "."%char "") at 1.
      now rewrite Join_split_on.
    - pose proof (length_split_on "." (TrimSuffix (Fqdn P domain) (String "." ""))) as H.
      intros E. rewrite E in H. discriminate H. }
  split; [apply zones_end_in_dot |]. split; [exact Hlast |]. split.
  - intros Hs. rewrite Hlast. now apply TrimSuffix_restore.
  - intros p parts Hne. rewrite zones_of_snoc, last_zones_of by exact Hne.
    rewrite Join_cons by exact Hne. now rewrite !append_assoc_string.
Qed.

(** ** ASN attribution: queries sent, organisation, literals *)

Lemma after_txt_log (P : Platform) (name : string) (s : State P) :
  qlog (after_txt P name s)
  = (qlog s ++ [EvExchange (mkQ name TypeTXT true) "8.8.8.8:53"
                  (txt_reply P name s)])%list.
Proof. unfold after_txt, txt_reply. apply Exchange_log. Qed.

(** X11: [LookupASN] sends at most two questions, both recursion-desired
    TXT questions to 8.8.8.8:53: none when no origin name can be built,
    the origin question alone when its reply gives no text, and otherwise
    the origin question followed by the question for AS<number>.asn.cymru.com.,
    the number being the trimmed first field of the origin text. *)
Theorem LookupASN_queries :
  forall (P : Platform) (ip : string) (s : State P),
    exists evs,
      qlog (snd (LookupASN P ip s)) = (qlog s ++ evs)%list
      /\ Forall (fun server => server = "8.8.8.8:53") (servers_of evs)
      /\ List.length evs = List.length (questions_of evs)
      /\ questions_of evs
         = match origin_query P ip with
           | None => []
           | Some q =>
               mkQ q TypeTXT true
               :: match first_txt (txt_reply P q s) with
                  | None => []
                  | Some t0 =>
                      [mkQ ("AS" ++ TrimSpace P (first_field t0)
                                 ++ ".asn.cymru.com.") TypeTXT true]
                  end
           end.
Proof.
  intros P ip s. rewrite LookupASN_run.
  destruct (origin_query P ip) as [q |].
  - destruct (first_txt (txt_reply P q s)) as [t0 |].
    + destruct (lookupASName_run P (TrimSpace P (first_field t0))
                  (after_txt P q s)) as (org & -> & _).
      cbn [snd]. rewrite !after_txt_log, <- app_assoc.
      eexists. split; [reflexivity |]. cbn.
      repeat split; repeat constructor.
    + cbn [snd]. rewrite after_txt_log.
      eexists. split; [reflexivity |]. cbn.
      repeat split; repeat constructor.
  - exists []. cbn. rewrite app_nil_r. repeat split; constructor.
Qed.

Lemma prefix_self_append (a b : string) : String.prefix a (a ++ b) = true.
Proof.
  induction a as [| c a IH]; cbn [String.prefix append]; [now destruct b |].
  destruct (ascii_dec c c); [exact IH | congruence].
Qed.

Lemma prefix_bar_false (c : ascii) (s : string) :
  match s with
  | EmptyString => True
  | String c' _ => c' <> "|"%char
  end ->
  String.prefix " | " (String c s) = false
  \/ (c = " "%char /\ s = EmptyString).
Proof.
  intros H. cbn [String.prefix].
  destruct (ascii_dec " " c) as [<- | Hne]; [| now left].
  destruct s as [| c' s]; [now right |]. cbn [String.prefix].
  destruct (ascii_dec "|" c') as [<- | _]; [contradiction | now left].
Qed.

Lemma Index_bar_none (f : string) :
  no_char "|" f = true -> Index f " | " = None.
Proof.
  induction f as [| c f IH]; [reflexivity |].
  cbn [no_char]. intros H. apply andb_true_iff in H as [Hc Hf].
  cbn [Index]. rewrite IH by exact Hf. cbn [option_map].
  destruct (prefix_bar_false c f) as [-> | [-> ->]]; try reflexivity.
  destruct f as [| c' f]; [exact I |].
  cbn in Hf. apply andb_true_iff in Hf as [Hc' _].
  apply negb_true_iff, Ascii.eqb_neq in Hc'. exact Hc'.
Qed.

Lemma Index_bar_before (f tail : string) :
  no_char "|" f = true ->
  String.prefix " | " tail = true ->
  Index (f ++ tail) " | " = Some (String.length f).
Proof.
  intros Hf Hp. induction f as [| c f IH].
  - destruct tail as [| c t]; [discriminate Hp |].
    cbn [append Index String.length]. now rewrite Hp.
  - cbn [no_char] in Hf. apply andb_true_iff in Hf as [Hc Hf].
    cbn [append Index String.length]. rewrite IH by exact Hf. cbn [option_map].
    destruct (prefix_bar_false c (f ++ tail)) as [-> | [_ E]];
      try reflexivity.
    + destruct f as [| c' f]; cbn [append].
      * destruct tail as [| c' t]; [exact I |].
        cbn [String.prefix] in Hp.
        destruct (ascii_dec " " c') as [<- | _]; [discriminate | discriminate Hp].
      * cbn in Hf. apply andb_true_iff in Hf as [Hc' _].
        apply negb_true_iff, Ascii.eqb_neq in Hc'. exact Hc'.
    + destruct f; [| discriminate E]. cbn in E. subst tail. discriminate Hp.
Qed.

Lemma Index_bar_first (f rest : string) :
  no_char "|" f = true ->
  Index (f ++ " | " ++ rest) " | " = Some (String.length f).
Proof.
  intros Hf. apply Index_bar_before; [exact Hf | apply prefix_self_append].
Qed.

Lemma drop_add (f rest : string) (k : nat) :
  drop (String.length f + k) (f ++ rest) = drop k rest.
Proof. induction f as [| c f IH]; cbn; [reflexivity | exact IH]. Qed.

Lemma split_loop_bar_first (k : nat) (f rest : string) :
  no_char "|" f = true ->
  split_loop (S k) (f ++ " | " ++ rest) " | " = f :: split_loop k rest " | ".
Proof.
  intros H. cbn [split_loop]. rewrite Index_bar_first by exact H.
  rewrite take_append. cbn [String.length]. rewrite drop_add. reflexivity.
Qed.

Lemma SplitN5_five (f0 f1 f2 f3 rest : string) :
  no_char "|" f0 = true -> no_char "|" f1 = true ->
  no_char "|" f2 = true -> no_char "|" f3 = true ->
  SplitN (f0 ++ " | " ++ f1 ++ " | " ++ f2 ++ " | " ++ f3 ++ " | " ++ rest)
         " | " 5
  = [f0; f1; f2; f3; rest].
Proof.
  intros H0 H1 H2 H3. unfold SplitN, genSplit. cbn [Z.eqb Z.ltb Z.compare].
  set (t := f0 ++ " | " ++ f1 ++ " | " ++ f2 ++ " | " ++ f3 ++ " | " ++ rest).
  assert (Hlen : (12 <= String.length t)%nat).
  { subst t. rewrite !length_append. cbn [String.length]. lia. }
  destruct (Z.gtb_spec 5 (Z.of_nat (String.length t) + 1)); [lia |].
  change (Z.to_nat (5 - 1)) with 4%nat. subst t.
  now rewrite !split_loop_bar_first by assumption.
Qed.

Lemma SplitN5_four (f0 f1 f2 f3 : string) :
  no_char "|" f0 = true -> no_char "|" f1 = true ->
  no_char "|" f2 = true -> no_char "|" f3 = true ->
  SplitN (f0 ++ " | " ++ f1 ++ " | " ++ f2 ++ " | " ++ f3) " | " 5
  = [f0; f1; f2; f3].
Proof.
  intros H0 H1 H2 H3. unfold SplitN, genSplit. cbn [Z.eqb Z.ltb Z.compare].
  set (t := f0 ++ " | " ++ f1 ++ " | " ++ f2 ++ " | " ++ f3).
  assert (Hlen : (9 <= String.length t)%nat).
  { subst t. rewrite !length_append. cbn [String.length]. lia. }
  destruct (Z.gtb_spec 5 (Z.of_nat (String.length t) + 1)); [lia |].
  change (Z.to_nat (5 - 1)) with 4%nat. subst t.
  rewrite !split_loop_bar_first by assumption.
  cbn [split_loop]. now rewrite Index_bar_none.
Qed.

(** X12: the organisation of an AS is the whole text after the fourth
    " | " of the name reply, trimmed: separators inside the description
    do not cut it.  With only four fields the organisation is empty.  The
    fields before it are assumed free of the bar character. *)
Theorem lookupASName_organisation :
  forall (P : Platform) (asn : string) (s : State P)
         (f0 f1 f2 f3 : string) (h : RR_Header)
         (segments : list string) (others : list RR) (rc : N) (ns extra : list RR),
    no_char "|" f0 = true -> no_char "|" f1 = true ->
    no_char "|" f2 = true -> no_char "|" f3 = true ->
    (forall description,
        txt_reply P ("AS" ++ asn ++ ".asn.cymru.com.") s
        = Ok (mkMsg rc
                (RR_TXT h ((f0 ++ " | " ++ f1 ++ " | " ++ f2 ++ " | " ++ f3
                               ++ " | " ++ description) :: segments)
                   :: others) ns extra) ->
        fst (lookupASName P asn s)
        = Some (mkASN ("AS" ++ asn) (TrimSpace P description)))
    /\ (txt_reply P ("AS" ++ asn ++ ".asn.cymru.com.") s
        = Ok (mkMsg rc
                (RR_TXT h ((f0 ++ " | " ++ f1 ++ " | " ++ f2 ++ " | " ++ f3)
                             :: segments)
                   :: others) ns extra) ->
        fst (lookupASName P asn s) = Some (mkASN ("AS" ++ asn) "")).
Proof.
  intros P asn s f0 f1 f2 f3 h segments others rc ns extra H0 H1 H2 H3.
  split.
  - intros description Hr. unfold lookupASName, resolver_addr.
    unfold txt_reply in Hr. rewrite bind_run, Exchange_fst, Hr.
    cbn [Answer]. rewrite SplitN5_five by assumption. reflexivity.
  - intros Hr. unfold lookupASName, resolver_addr.
    unfold txt_reply in Hr. rewrite bind_run, Exchange_fst, Hr.
    cbn [Answer]. rewrite SplitN5_four by assumption. reflexivity.
Qed.

Lemma Contains_colon_false (ip : string) :
  Contains ip ":" = false <-> no_char ":" ip = true.
Proof.
  unfold Contains. split.
  - intros H. destruct (first_char_split ":" ip) as [Hn | (a & rest & -> & Ha)];
      [exact Hn |].
    change ":"%string with (String ":"%char "") in H.
    rewrite Index_first_char in H by exact Ha. discriminate H.
  - intros H. change ":"%string with (String ":"%char "").
    now rewrite Index_no_char.
Qed.

(** X13: for a literal without a colon, [LookupASN] builds an origin name
    exactly when the literal has three dots, and then from the four pieces
    as they are, in reverse order: the pieces are not checked to be
    numbers.  Any other count of dots, the empty literal included, gives
    nil before anything is sent. *)
Theorem origin_query_dotted :
  forall (P : Platform) (ip : string),
    Contains ip ":" = false ->
    (origin_query P ip = None <-> count_char "." ip <> 3%nat)
    /\ (forall a b c d,
          split_on "." ip = [a; b; c; d] ->
          origin_query P ip
          = Some (d ++ "." ++ c ++ "." ++ b ++ "." ++ a
                  ++ ".origin.asn.cymru.com."))
    /\ (count_char "." ip <> 3%nat -> LookupASN P ip = ret None).
Proof.
  intros P ip Hc.
  assert (Hq : origin_query P ip
               = if negb (List.length (split_on "." ip) =? 4)%nat then None
                 else Some ((nth 3 (split_on "." ip) "" ++ "."
                             ++ nth 2 (split_on "." ip) "" ++ "."
                             ++ nth 1 (split_on "." ip) "" ++ "."
                             ++ nth 0 (split_on "." ip) "")
                            ++ ".origin.asn.cymru.com.")).
  { unfold origin_query. rewrite Hc.
    change "."%string with (String "."%char "") at 1 2 3 4 5.
    now rewrite Split_is_split_on. }
  assert (Hnone : origin_query P ip = None <-> count_char "." ip <> 3%nat).
  { rewrite Hq, length_split_on.
    destruct (Nat.eqb_spec (S (count_char "." ip)) 4) as [E | E]; cbn [negb].
    - split; [discriminate | lia].
    - split; [intros _; lia | reflexivity]. }
  split; [exact Hnone |]. split.
  - intros a b c d Hs. rewrite Hq, Hs. cbn [List.length Nat.eqb negb nth].
    now rewrite !append_assoc_string.
  - intros Hn. apply Hnone in Hn. unfold LookupASN. now rewrite Hn.
Qed.

(** ** Root, parent and top-level domain *)

Lemma Join_app (l1 l2 : list string) (sep : string) :
  l1 <> [] -> l2 <> [] ->
  Join (l1 ++ l2) sep = Join l1 sep ++ sep ++ Join l2 sep.
Proof.
  induction l1 as [| x l1 IH]; [congruence |]. intros _ H2.
  destruct l1 as [| y l1].
  - cbn [app]. now rewrite Join_cons.
  - change ((x :: y :: l1) ++ l2)%list with (x :: ((y :: l1) ++ l2))%list.
    rewrite Join_cons by discriminate. rewrite IH by (discriminate || assumption).
    rewrite (Join_cons x (y :: l1)) by discriminate.
    now rewrite !append_assoc_string.
Qed.

Lemma last_two {A : Type} (l : list A) :
  (2 <= List.length l)%nat -> exists init x y, l = (init ++ [x; y])%list.
Proof.
  intros H. destruct (rev l) as [| y [| x r]] eqn:E.
  - apply (f_equal (@List.length A)) in E. rewrite length_rev in E. cbn in E. lia.
  - apply (f_equal (@List.length A)) in E. rewrite length_rev in E. cbn in E. lia.
  - exists (rev r), x, y. rewrite <- (rev_involutive l), E. cbn.
    now rewrite <- app_assoc.
Qed.

Lemma last_three {A : Type} (l : list A) :
  (3 <= List.length l)%nat -> exists init x y z, l = (init ++ [x; y; z])%list.
Proof.
  intros H. destruct (rev l) as [| z [| y [| x r]]] eqn:E;
    try (apply (f_equal (@List.length A)) in E; rewrite length_rev in E;
         cbn in E; lia).
  exists (rev r), x, y, z. rewrite <- (rev_involutive l), E. cbn.
  now rewrite <- !app_assoc.
Qed.

Lemma append_longer (a b : string) : a <> "" -> a ++ b <> b.
Proof.
  intros Ha E. apply (f_equal String.length) in E.
  rewrite length_append in E. destruct a; [congruence | cbn in E; lia].
Qed.

Lemma Join_proper_suffix (l1 l2 : list string) (sep : string) :
  l1 <> [] -> l2 <> [] -> sep <> "" ->
  Join (l1 ++ l2) sep <> Join l2 sep.
Proof.
  intros H1 H2 Hsep E. rewrite Join_app in E by assumption.
  apply (f_equal String.length) in E. rewrite !length_append in E.
  destruct sep; [congruence | cbn [String.length] in E; lia].
Qed.

Lemma ends_with_dot (a : string) : HasSuffix (a ++ ".") "." = true.
Proof.
  unfold HasSuffix. rewrite length_append. cbn [String.length].
  replace (String.length a + 1 - 1)%nat with (String.length a) by lia.
  rewrite drop_append.
  destruct (Nat.leb_spec 1 (String.length a + 1)); [reflexivity | lia].
Qed.

Lemma GetRootDomain_short (ToLower TrimSpace : string -> string) (d : string) :
  (List.length (split_on "." (normal_form ToLower TrimSpace d)) <= 2)%nat ->
  Domain.GetRootDomain ToLower TrimSpace d = normal_form ToLower TrimSpace d.
Proof.
  intros H. unfold Domain.GetRootDomain. fold (normal_form ToLower TrimSpace d).
  rewrite Split_is_split_on.
  now destruct (Nat.leb_spec
                  (List.length (split_on "." (normal_form ToLower TrimSpace d))) 2);
    [| lia].
Qed.

Lemma GetRootDomain_long (ToLower TrimSpace : string -> string) (d : string)
    (init : list string) (a b c : string) :
  split_on "." (normal_form ToLower TrimSpace d) = (init ++ [a; b; c])%list ->
  Domain.GetRootDomain ToLower TrimSpace d
  = if Domain.multiPartTLDs (b ++ "." ++ c)
    then a ++ "." ++ b ++ "." ++ c
    else b ++ "." ++ c.
Proof.
  intros H. unfold Domain.GetRootDomain. fold (normal_form ToLower TrimSpace d).
  rewrite Split_is_split_on, H, length_app. cbn [List.length].
  destruct (Nat.leb_spec (List.length init + 3) 2); [lia |].
  destruct (Nat.leb_spec 3 (List.length init + 3)); [| lia].
  replace (List.length init + 3 - 2)%nat with (List.length init + 1)%nat by lia.
  replace (List.length init + 3 - 1)%nat with (List.length init + 2)%nat by lia.
  replace (List.length init + 3 - 3)%nat with (List.length init + 0)%nat by lia.
  rewrite !app_nth2_plus. cbn [nth]. reflexivity.
Qed.

(** X14: [GetRootDomain] works on the trimmed, lower-cased domain without
    its trailing dot.  With at most two labels that text is the result;
    with more, the result is the last two labels, or the last three when
    the last two form a key of the multi-part table.  The result is always
    the end of that text, starting at a label. *)
Theorem GetRootDomain_labels :
  forall (ToLower TrimSpace : string -> string) (d : string),
    let nd := normal_form ToLower TrimSpace d in
    let root := Domain.GetRootDomain ToLower TrimSpace d in
    ((count_char "." nd <= 1)%nat -> root = nd)
    /\ (forall init a b c,
          split_on "." nd = (init ++ [a; b; c])%list ->
          root = if Domain.multiPartTLDs (b ++ "." ++ c)
                 then a ++ "." ++ b ++ "." ++ c
                 else b ++ "." ++ c)
    /\ (exists pre, nd = pre ++ root /\ (pre = "" \/ HasSuffix pre "." = true))
    /\ (count_char "." root <= 2)%nat.
Proof.
  intros ToLower TrimSpace d nd root.
  assert (Hshort : (count_char "." nd <= 1)%nat -> root = nd).
  { intros H. apply GetRootDomain_short. rewrite length_split_on. fold nd. lia. }
  split; [exact Hshort |]. split; [apply GetRootDomain_long |].
  destruct (Nat.le_gt_cases (count_char "." nd) 1) as [Hle | Hgt].
  - rewrite (Hshort Hle). split; [exists ""; auto |].
    lia.
  - destruct (last_three (split_on "." nd)) as (init & a & b & c & Hs).
    { rewrite length_split_on. lia. }
    pose proof (split_on_pieces "." nd) as Hp. rewrite Hs in Hp.
    apply Forall_app in Hp as [_ Hp].
    inversion Hp as [| ? ? Ha Hp1]; subst.
    inversion Hp1 as [| ? ? Hb Hp2]; subst.
    inversion Hp2 as [| ? ? Hcc _]; subst.
    apply no_char_count in Ha, Hb, Hcc.
    assert (Hnd : nd = Join (init ++ [a; b; c]) ".").
    { rewrite <- Hs. symmetry. apply Join_split_on. }
    unfold root. rewrite (GetRootDomain_long ToLower TrimSpace d init a b c Hs).
    destruct (Domain.multiPartTLDs (b ++ "." ++ c)).
    + split.
      * destruct init as [| i0 init].
        -- exists "". split; [exact Hnd | now left].
        -- exists (Join (i0 :: init) "." ++ "."). split.
           ++ rewrite Hnd, Join_app by discriminate.
              cbn [Join]. now rewrite !append_assoc_string.
           ++ right. apply ends_with_dot.
      * rewrite !count_char_append, Ha, Hb, Hcc. cbn. lia.
    + split.
      * exists (Join (init ++ [a]) "." ++ "."). split.
        -- rewrite Hnd.
           change (init ++ [a; b; c])%list with (init ++ [a] ++ [b; c])%list.
           rewrite app_assoc, Join_app by (discriminate || now destruct init).
           cbn [Join]. now rewrite !append_assoc_string.
        -- right. apply ends_with_dot.
      * rewrite !count_char_append, Hb, Hcc. cbn. lia.
Qed.

(** X15: for a domain whose normal form is stable (normalising it again
    changes nothing), [IsSubdomain] is false exactly when the domain has
    at most two labels, or has three and its last two form a key of the
    multi-part table. *)
Theorem IsSubdomain_labels :
  forall (ToLower TrimSpace : string -> string) (d : string),
    let nd := normal_form ToLower TrimSpace d in
    normal_form ToLower TrimSpace nd = nd ->
    (Domain.IsSubdomain ToLower TrimSpace d = false
     <-> (count_char "." nd <= 1)%nat
         \/ exists a b c,
              split_on "." nd = [a; b; c]
              /\ Domain.multiPartTLDs (b ++ "." ++ c) = true).
Proof.
  intros ToLower TrimSpace d nd Hstable.
  unfold Domain.IsSubdomain. fold (normal_form ToLower TrimSpace d). fold nd.
  rewrite negb_false_iff, String.eqb_eq.
  destruct (Nat.le_gt_cases (count_char "." nd) 1) as [Hle | Hgt].
  - split; [now left |]. intros _. symmetry.
    transitivity (normal_form ToLower TrimSpace nd); [| exact Hstable].
    apply GetRootDomain_short. rewrite Hstable, length_split_on. lia.
  - destruct (last_three (split_on "." nd)) as (init & a & b & c & Hs).
    { rewrite length_split_on. lia. }
    assert (Hnd : nd = Join (init ++ [a; b; c]) ".").
    { rewrite <- Hs. symmetry. apply Join_split_on. }
    assert (Hs' : split_on "." (normal_form ToLower TrimSpace nd)
                  = (init ++ [a; b; c])%list) by (now rewrite Hstable).
    rewrite (GetRootDomain_long ToLower TrimSpace nd init a b c Hs').
    destruct (Domain.multiPartTLDs (b ++ "." ++ c)) eqn:Hm.
    + destruct init as [| i0 init].
      * split; [| intros _; exact Hnd].
        intros _. right. exists a, b, c. now split.
      * split.
        -- intros E. exfalso.
           apply (Join_proper_suffix (i0 :: init) [a; b; c] ".");
             try discriminate.
           rewrite <- Hnd. exact E.
        -- intros [H | (a' & b' & c' & Hs2 & _)]; [lia |].
           rewrite Hs in Hs2. apply (f_equal (@List.length string)) in Hs2.
           rewrite length_app in Hs2. cbn in Hs2. lia.
    + split.
      * intros E. exfalso.
        apply (Join_proper_suffix (init ++ [a]) [b; c] ".");
          try discriminate; [now destruct init |].
        rewrite <- app_assoc. cbn [app]. rewrite <- Hnd. exact E.
      * intros [H | (a' & b' & c' & Hs2 & Hm')]; [lia |].
        rewrite Hs in Hs2.
        assert (init = []).
        { apply (f_equal (@List.length string)) in Hs2.
          rewrite length_app in Hs2. cbn in Hs2. destruct init; [reflexivity |].
          cbn in Hs2. lia. }
        subst init. cbn in Hs2. injection Hs2 as -> -> ->. congruence.
Qed.

(** X16: [GetParentDomain] removes the first label and its dot when the
    normalised domain has at least three labels, and returns the
    normalised domain as it is otherwise. *)
Theorem GetParentDomain_labels :
  forall (ToLower TrimSpace : string -> string) (d : string),
    let nd := normal_form ToLower TrimSpace d in
    let parent := Domain.GetParentDomain ToLower TrimSpace d in
    ((count_char "." nd <= 1)%nat -> parent = nd)
    /\ (forall a rest,
          split_on "." nd = a :: rest -> (2 <= List.length rest)%nat ->
          nd = a ++ "." ++ parent /\ split_on "." parent = rest).
Proof.
  intros ToLower TrimSpace d nd parent. subst parent.
  unfold Domain.GetParentDomain. fold (normal_form ToLower TrimSpace d). fold nd.
  rewrite Split_is_split_on. split.
  - intros H. rewrite length_split_on.
    destruct (Nat.leb_spec (S (count_char "." nd)) 2); [reflexivity | lia].
  - intros a rest Hs Hlen. rewrite Hs. cbn [List.length skipn].
    destruct (Nat.leb_spec (S (List.length rest)) 2); [lia |].
    pose proof (split_on_pieces "." nd) as Hp. rewrite Hs in Hp.
    inversion Hp as [| ? ? Ha Hrest]; subst. split.
    + rewrite <- (Join_split_on "." nd) at 1. rewrite Hs.
      apply Join_cons. destruct rest; [cbn in Hlen; lia | discriminate].
    + apply split_on_Join; [| exact Hrest].
      destruct rest; [cbn in Hlen; lia | discriminate].
Qed.

(** X17: [getTLD] is the text after the last dot of its argument: it has
    no dot, the argument ends with it, and what precedes it is empty or
    ends with a dot.  Without a dot the whole argument is returned, so the
    guard on an empty split never fires. *)
Theorem getTLD_last_label :
  forall (domain : string),
    no_char "." (Whois.getTLD domain) = true
    /\ (exists pre,
           domain = pre ++ Whois.getTLD domain
           /\ (pre = "" \/ HasSuffix pre "." = true))
    /\ (no_char "." domain = true -> Whois.getTLD domain = domain).
Proof.
  intros domain. unfold Whois.getTLD. rewrite Split_is_split_on.
  pose proof (length_split_on "." domain) as Hlen.
  pose proof (split_on_pieces "." domain) as Hp.
  pose proof (Join_split_on "." domain) as Hj.
  destruct (rev (split_on "." domain)) as [| x r] eqn:E.
  { apply (f_equal (@List.length string)) in E. rewrite length_rev, Hlen in E.
    discriminate E. }
  assert (Hs : split_on "." domain = (rev r ++ [x])%list).
  { rewrite <- (rev_involutive (split_on "." domain)), E. reflexivity. }
  rewrite Hs in *. rewrite length_app. cbn [List.length].
  destruct (Nat.ltb_spec 0 (List.length (rev r) + 1)); [| lia].
  replace (List.length (rev r) + 1 - 1)%nat with (List.length (rev r) + 0)%nat by lia.
  rewrite app_nth2_plus. cbn [nth].
  apply Forall_app in Hp as [_ Hp].
  assert (Hx : no_char "." x = true) by (now inversion Hp).
  split; [exact Hx |]. split.
  - destruct (rev r) as [| y l] eqn:Er.
    + exists "". cbn in Hj. split; [now symmetry | now left].
    + exists (Join (y :: l) "." ++ "."). split.
      * rewrite <- Hj, Join_app by discriminate. cbn [Join].
        now rewrite !append_assoc_string.
      * right. apply ends_with_dot.
  - intros Hn. rewrite split_on_no_char in Hs by exact Hn.
    destruct (rev r) as [| y l]; cbn in Hs; [congruence |].
    destruct l; discriminate.
Qed.

(** ** Dates and status codes of a WHOIS record *)

Lemma prefix_take (p : string) (n : nat) (s : string) :
  (String.length p <= n)%nat ->
  String.prefix p (take n s) = String.prefix p s.
Proof.
  revert n s. induction p as [| c p IH]; intros n s Hn.
  - now destruct n, s.
  - destruct n as [| n]; [cbn in Hn; lia |].
    destruct s as [| c' s]; [reflexivity |].
    cbn [take String.prefix]. destruct (ascii_dec c c'); [| reflexivity].
    apply IH. cbn in Hn. lia.
Qed.

Lemma take_take (n : nat) (s : string) : take n (take n s) = take n s.
Proof.
  revert s. induction n as [| n IH]; intros [| c s]; cbn; try reflexivity.
  now rewrite IH.
Qed.

Lemma length_take_le (n : nat) (s : string) :
  (String.length (take n s) <= String.length s)%nat.
Proof.
  revert s. induction n as [| n IH]; intros [| c s]; cbn; try lia.
  specialize (IH s). lia.
Qed.

(** X18: [formatDate] returns its argument or the first ten characters of
    it, and the latter only for a text of at least ten characters that
    starts with 19 or 20; formatting a formatted date changes nothing. *)
Theorem formatDate_idempotent :
  forall (date : string),
    (Whois.formatDate date = date
     \/ (Whois.formatDate date = take 10 date
         /\ (10 <= String.length date)%nat
         /\ (HasPrefix date "20" = true \/ HasPrefix date "19" = true)))
    /\ Whois.formatDate (Whois.formatDate date) = Whois.formatDate date.
Proof.
  intros date.
  assert (Hcases :
            Whois.formatDate date = date
            \/ (Whois.formatDate date = take 10 date
                /\ (10 <= String.length date)%nat
                /\ (HasPrefix date "20" = true \/ HasPrefix date "19" = true))).
  { unfold Whois.formatDate.
    destruct (String.eqb_spec date "") as [-> | _]; [now left |].
    destruct (Contains date "-" && negb (HasPrefix date "20")
              && negb (HasPrefix date "19")
              && existsb (Contains date) Whois.month_names); [now left |].
    destruct (Nat.leb_spec 10 (String.length date)) as [Hlen | _];
      cbn [andb]; [| now left].
    destruct (HasPrefix date "20") eqn:H20; cbn [orb]; [right; auto |].
    destruct (HasPrefix date "19") eqn:H19; [right; auto | now left]. }
  split; [exact Hcases |].
  destruct Hcases as [E | (E & Hlen & Hpre)]; [now rewrite !E |].
  rewrite E. unfold Whois.formatDate.
  assert (H20 : HasPrefix (take 10 date) "20" = HasPrefix date "20")
    by (apply prefix_take; cbn; lia).
  assert (H19 : HasPrefix (take 10 date) "19" = HasPrefix date "19")
    by (apply prefix_take; cbn; lia).
  rewrite H20, H19, length_take by exact Hlen. cbn [Nat.leb].
  destruct (String.eqb_spec (take 10 date) "") as [E0 | _];
    [now rewrite E0 |].
  rewrite take_take.
  destruct Hpre as [-> | ->]; cbn [negb andb orb];
    rewrite ?andb_false_r; cbn [andb orb]; try reflexivity.
  destruct (HasPrefix date "20"); reflexivity.
Qed.

Lemma existsb_eqb_In (x : string) (l : list string) :
  existsb (String.eqb x) l = true <-> In x l.
Proof.
  rewrite existsb_exists. split.
  - intros (y & Hin & E). apply String.eqb_eq in E. now subst.
  - intros H. exists x. split; [exact H | apply String.eqb_refl].
Qed.

Lemma parseStatus_loop_spec :
  forall statuses seen result,
    (forall x, In x seen <-> In x result) ->
    NoDup result ->
    NoDup (Whois.parseStatus_loop statuses seen result)
    /\ (forall x, In x (Whois.parseStatus_loop statuses seen result)
                  <-> In x result \/ In x (map status_code statuses))
    /\ exists added,
         Whois.parseStatus_loop statuses seen result = (result ++ added)%list
         /\ Subseq added (map status_code statuses).
Proof.
  induction statuses as [| s rest IH]; intros seen result Hseen Hnd.
  - cbn. split; [exact Hnd |]. split; [tauto |].
    exists []. rewrite app_nil_r. split; [reflexivity | constructor].
  - cbn [Whois.parseStatus_loop map]. fold (status_code s).
    destruct (existsb (String.eqb (status_code s)) seen) eqn:Hex; cbn [negb].
    + apply existsb_eqb_In, Hseen in Hex.
      destruct (IH seen result Hseen Hnd) as (H1 & H2 & added & H3 & H4).
      split; [exact H1 |]. split.
      * intros x. rewrite H2. cbn. split; [tauto |].
        intros [H | [<- | H]]; auto.
      * exists added. split; [exact H3 | now constructor].
    + assert (Hnot : ~ In (status_code s) result).
      { intros Hin. apply Hseen, existsb_eqb_In in Hin. congruence. }
      destruct (IH (status_code s :: seen) (result ++ [status_code s])%list)
        as (H1 & H2 & added & H3 & H4).
      * intros x. cbn. rewrite in_app_iff, Hseen. cbn. tauto.
      * apply NoDup_app; [exact Hnd | repeat constructor; auto |].
        intros x Hx [<- | []]. contradiction.
      * split; [exact H1 |]. split.
        -- intros x. rewrite H2, in_app_iff. cbn. tauto.
        -- exists (status_code s :: added). split.
           ++ rewrite H3, <- app_assoc. reflexivity.
           ++ now constructor.
Qed.

(** X19: [parseStatus] returns every status code of its input once: the
    result has no duplicate, holds exactly the codes of the input lines
    (the text before the first space of a line), and keeps them in the
    order of the input. *)
Theorem parseStatus_distinct_codes :
  forall (statuses : list string),
    NoDup (Whois.parseStatus statuses)
    /\ (forall x, In x (Whois.parseStatus statuses)
                  <-> In x (map status_code statuses))
    /\ Subseq (Whois.parseStatus statuses) (map status_code statuses).
Proof.
  intros statuses. unfold Whois.parseStatus.
  destruct (parseStatus_loop_spec statuses [] []) as (H1 & H2 & added & H3 & H4).
  - tauto.
  - constructor.
  - split; [exact H1 |]. split.
    + intros x. rewrite H2. cbn. tauto.
    + rewrite H3. exact H4.
Qed.

(** ** Provider patterns *)

Section ProviderFacts.

Variable Regexp : Type.
Variable Compile : string -> Regexp + string.
Variable MatchString : Regexp -> string -> bool.
Variables ToLower TrimSpace : string -> string.

Local Abbreviation AddPattern := (Provider.AddPattern Regexp Compile TrimSpace).
Local Abbreviation AddPatterns := (Provider.AddPatterns Regexp Compile TrimSpace).
Local Abbreviation AddPatterns_loop := (Provider.AddPatterns_loop Regexp Compile TrimSpace).
Local Abbreviation Match := (Provider.Match Regexp MatchString ToLower).
Local Abbreviation Match_loop := (Provider.Match_loop Regexp MatchString).

Lemma SplitN2_colon (spec : string) :
  SplitN spec ":" 2
  = match Index spec ":" with
    | Some k => [take k spec; drop (k + 1) spec]
    | None => [spec]
    end.
Proof.
  unfold SplitN, genSplit. cbn [Z.eqb Z.ltb Z.compare].
  destruct spec as [| c spec]; [reflexivity |].
  set (s := String c spec).
  assert (Hn : Z.to_nat ((if (2 >? Z.of_nat (String.length s) + 1)%Z
                          then (Z.of_nat (String.length s) + 1)%Z else 2%Z) - 1)
               = 1%nat).
  { subst s. cbn [String.length].
    destruct (Z.gtb_spec 2 (Z.of_nat (S (String.length spec)) + 1)); lia. }
  rewrite Hn. cbn [split_loop String.length].
  now destruct (Index s ":").
Qed.

(** What [AddPattern] adds for a spec, whatever the matcher holds. *)
Lemma AddPattern_prepends (m : Provider.Matcher Regexp) (spec : string) :
  AddPattern m spec
  = (fst (AddPattern [] spec), (snd (AddPattern [] spec) ++ m)%list).
Proof.
  unfold Provider.AddPattern.
  destruct (negb (List.length (SplitN spec ":" 2) =? 2)%nat); [reflexivity |].
  destruct (String.eqb (TrimSpace (nth 0 (SplitN spec ":" 2) "")) ""
            || String.eqb (TrimSpace (nth 1 (SplitN spec ":" 2) "")) "");
    [reflexivity |].
  now destruct (Compile _).
Qed.

(** X20: a spec is accepted by [AddPattern] only when it has a colon; the
    pattern is the trimmed text before the first colon and the provider
    the trimmed text after it, both non-empty.  The new pattern is put in
    front: a name it matches gets the new provider whatever the matcher
    held, and any other name is matched as before. *)
Theorem AddPattern_takes_precedence :
  forall (m m' : Provider.Matcher Regexp) (spec : string),
    AddPattern m spec = (None, m') ->
    exists k re,
      Index spec ":" = Some k
      /\ Compile ("(?i)" ++ TrimSpace (take k spec)) = inl re
      /\ TrimSpace (take k spec) <> ""
      /\ TrimSpace (drop (k + 1) spec) <> ""
      /\ m' = Provider.mkPattern Regexp re (TrimSpace (drop (k + 1) spec)) :: m
      /\ forall name,
           Match m' name
           = if MatchString re (ToLower name)
             then TrimSpace (drop (k + 1) spec)
             else Match m name.
Proof.
  intros m m' spec. unfold Provider.AddPattern. rewrite SplitN2_colon.
  destruct (Index spec ":") as [k |]; cbn [List.length Nat.eqb negb nth];
    [| discriminate].
  destruct (String.eqb_spec (TrimSpace (take k spec)) "") as [| Hp];
    cbn [orb]; [discriminate |].
  destruct (String.eqb_spec (TrimSpace (drop (k + 1) spec)) "") as [| Hv];
    [discriminate |].
  destruct (Compile ("(?i)" ++ TrimSpace (take k spec))) as [re | err] eqn:Hc;
    [| discriminate].
  intros H. injection H as <-.
  exists k, re. repeat split; auto.
Qed.

(** X21: a spec that [AddPattern] rejects leaves the matcher as it was,
    and a spec without a colon is always rejected, with the spec itself as
    the pattern of the error. *)
Theorem AddPattern_rejects :
  forall (m : Provider.Matcher Regexp) (spec : string),
    (forall e m', AddPattern m spec = (Some e, m') -> m' = m)
    /\ (Contains spec ":" = false ->
        AddPattern m spec
        = (Some (Provider.mkPatternError spec
                   "invalid format, expected 'pattern:provider'"), m))
    /\ (forall k,
          Index spec ":" = Some k ->
          TrimSpace (take k spec) = "" \/ TrimSpace (drop (k + 1) spec) = "" ->
          AddPattern m spec
          = (Some (Provider.mkPatternError spec
                     "pattern and provider cannot be empty"), m)).
Proof.
  intros m spec. split; [| split].
  - intros e m'. unfold Provider.AddPattern.
    destruct (negb (List.length (SplitN spec ":" 2) =? 2)%nat);
      [intros H; now injection H |].
    destruct (String.eqb (TrimSpace (nth 0 (SplitN spec ":" 2) "")) ""
              || String.eqb (TrimSpace (nth 1 (SplitN spec ":" 2) "")) "");
      [intros H; now injection H |].
    destruct (Compile _); [discriminate | intros H; now injection H].
  - unfold Contains, Provider.AddPattern. rewrite SplitN2_colon.
    destruct (Index spec ":"); [discriminate | reflexivity].
  - intros k Hk Hempty. unfold Provider.AddPattern.
    rewrite SplitN2_colon, Hk. cbn [List.length Nat.eqb negb nth].
    destruct Hempty as [-> | ->]; cbn [String.eqb orb];
      [reflexivity | now rewrite orb_true_r].
Qed.

Lemma AddPattern_adds_at_most_one (spec : string) :
  (fst (AddPattern [] spec) = None
   /\ List.length (snd (AddPattern [] spec)) = 1%nat)
  \/ (fst (AddPattern [] spec) <> None /\ snd (AddPattern [] spec) = []).
Proof.
  unfold Provider.AddPattern.
  destruct (negb (List.length (SplitN spec ":" 2) =? 2)%nat);
    [right; split; [discriminate | reflexivity] |].
  destruct (String.eqb (TrimSpace (nth 0 (SplitN spec ":" 2) "")) ""
            || String.eqb (TrimSpace (nth 1 (SplitN spec ":" 2) "")) "");
    [right; split; [discriminate | reflexivity] |].
  destruct (Compile _); [left | right]; split; try reflexivity; discriminate.
Qed.

Lemma AddPatterns_loop_spec :
  forall specs (m : Provider.Matcher Regexp) errors,
    AddPatterns_loop m specs errors
    = ((errors ++ flat_map (fun spec => match fst (AddPattern [] spec) with
                                        | Some e => [e]
                                        | None => []
                                        end) specs)%list,
       (flat_map (fun spec => snd (AddPattern [] spec)) (rev specs) ++ m)%list).
Proof.
  induction specs as [| spec specs IH]; intros m errors.
  - cbn. now rewrite app_nil_r.
  - cbn [Provider.AddPatterns_loop rev flat_map].
    rewrite flat_map_app. cbn [flat_map]. rewrite app_nil_r.
    rewrite (AddPattern_prepends m spec).
    destruct (AddPattern [] spec) as [[e |] added]; cbn [fst snd];
      rewrite IH, <- !app_assoc; reflexivity.
Qed.

(** X22: [AddPatterns] reports the rejected specs in the order given and
    puts the accepted ones in front of the matcher in reverse order: the
    pattern of a later spec is tried before that of an earlier one, and
    both before the patterns the matcher held.  Every spec is either
    reported or added. *)
Theorem AddPatterns_order :
  forall (m : Provider.Matcher Regexp) (specs : list string),
    snd (AddPatterns m specs)
    = (flat_map (fun spec => snd (AddPattern [] spec)) (rev specs) ++ m)%list
    /\ fst (AddPatterns m specs)
       = flat_map (fun spec => match fst (AddPattern [] spec) with
                               | Some e => [e]
                               | None => []
                               end) specs
    /\ (List.length (fst (AddPatterns m specs))
        + List.length (snd (AddPatterns m specs))
        = List.length specs + List.length m)%nat.
Proof.
  intros m specs. unfold Provider.AddPatterns.
  rewrite AddPatterns_loop_spec. cbn [fst snd app].
  split; [reflexivity |]. split; [reflexivity |].
  rewrite length_app.
  assert (H : forall l,
             (List.length (flat_map (fun spec => match fst (AddPattern [] spec) with
                                                 | Some e => [e]
                                                 | None => []
                                                 end) l)
              + List.length (flat_map (fun spec => snd (AddPattern [] spec)) (rev l))
              = List.length l)%nat).
  { induction l as [| spec l IHl]; [reflexivity |].
    cbn [rev flat_map]. rewrite flat_map_app, !length_app. cbn [flat_map].
    rewrite app_nil_r.
    destruct (AddPattern_adds_at_most_one spec) as [[Hf Hs] | [Hf Hs]].
    - rewrite Hf, Hs. cbn [List.length app]. lia.
    - rewrite Hs. destruct (fst (AddPattern [] spec)); [| congruence].
      cbn [List.length app]. lia. }
  specialize (H specs). lia.
Qed.

(** X23: [Match] gives the provider of the first pattern, in the order
    of the matcher, that matches the lower-cased name, and the empty
    string when none does. *)
Theorem Match_first_wins :
  forall (m : Provider.Matcher Regexp) (name : string),
    (forallb (fun p => negb (MatchString (Provider.Regex Regexp p) (ToLower name))) m
     = true -> Match m name = "")
    /\ (forall before p after,
          m = (before ++ p :: after)%list ->
          forallb (fun p => negb (MatchString (Provider.Regex Regexp p)
                                    (ToLower name))) before = true ->
          MatchString (Provider.Regex Regexp p) (ToLower name) = true ->
          Match m name = Provider.Provider Regexp p).
Proof.
  intros m name. unfold Provider.Match. split.
  - induction m as [| p m IH]; cbn; [reflexivity |].
    intros H. apply andb_true_iff in H as [Hp Hm].
    apply negb_true_iff in Hp. rewrite Hp. now apply IH.
  - intros before p after -> Hb Hp.
    induction before as [| b before IH]; cbn.
    + now rewrite Hp.
    + cbn in Hb. apply andb_true_iff in Hb as [Hb1 Hb2].
      apply negb_true_iff in Hb1. rewrite Hb1. now apply IH.
Qed.

End ProviderFacts.

(** ** The argument of the command and the ASN column *)

Lemma prefix_split (p s : string) :
  String.prefix p s = true -> s = p ++ drop (String.length p) s.
Proof.
  revert s. induction p as [| c p IH]; intros s H.
  - now destruct s.
  - destruct s as [| c' s]; [discriminate H |].
    cbn [String.prefix] in H. destruct (ascii_dec c c') as [<- | _];
      [| discriminate H].
    cbn [String.length drop append]. f_equal. now apply IH.
Qed.

Lemma HasPrefix_needs_slash (t pre : string) :
  no_char "/" t = true -> no_char "/" pre = false -> HasPrefix t pre = false.
Proof.
  intros Ht Hp. unfold HasPrefix.
  destruct (String.prefix pre t) eqn:E; [| reflexivity].
  apply prefix_split in E. rewrite E, no_char_append, Hp in Ht. discriminate Ht.
Qed.

(** A host without slash or colon, followed by a slash, does not start
    with a protocol: the protocol's first slash comes right after a
    colon. *)
Lemma host_is_no_protocol (proto host tail : string) :
  no_char "/" host = true -> no_char ":" host = true ->
  no_char "/" proto = true -> no_char ":" proto = false ->
  HasPrefix (host ++ String "/" tail) (proto ++ "//") = false.
Proof.
  intros Hs Hc Hps Hpc. unfold HasPrefix.
  destruct (String.prefix (proto ++ "//") (host ++ String "/" tail)) eqn:E;
    [| reflexivity].
  apply prefix_split in E.
  assert (Hi : Index (host ++ String "/" tail) "/" = Some (String.length proto)).
  { rewrite E, append_assoc_string. cbn [append].
    now apply Index_first_char. }
  rewrite Index_first_char in Hi by exact Hs. injection Hi as Hlen.
  assert (Hh : host = proto).
  { rewrite <- (take_append host (String "/" tail)), Hlen, E.
    rewrite append_assoc_string. apply take_append. }
  rewrite Hh in Hc. congruence.
Qed.

Lemma TrimPrefix_self (pre rest : string) : TrimPrefix (pre ++ rest) pre = rest.
Proof.
  unfold TrimPrefix, HasPrefix. rewrite prefix_self_append. apply drop_append.
Qed.

Lemma TrimPrefix_absent (t pre : string) :
  HasPrefix t pre = false -> TrimPrefix t pre = t.
Proof. unfold TrimPrefix. now intros ->. Qed.

(** X24: the domain the command works on has no slash, unless it starts
    with one.  For a non-empty host without slash or colon, an argument
    that is, once trimmed and lower-cased, the host, optionally after
    http:// or https:// and optionally followed by a slash and a path,
    gives the host. *)
Theorem domainArg_drops_path :
  forall (ToLower TrimSpace : string -> string) (arg0 : string),
    (Index (Cmd.domainArg ToLower TrimSpace arg0) "/" = None
     \/ HasPrefix (Cmd.domainArg ToLower TrimSpace arg0) "/" = true)
    /\ (forall proto host tail,
          In proto [""; "http://"; "https://"] ->
          tail = "" \/ HasPrefix tail "/" = true ->
          host <> "" -> no_char "/" host = true -> no_char ":" host = true ->
          ToLower (TrimSpace arg0) = proto ++ host ++ tail ->
          Cmd.domainArg ToLower TrimSpace arg0 = host).
Proof.
  intros ToLower TrimSpace arg0. split.
  - unfold Cmd.domainArg.
    generalize (TrimPrefix (TrimPrefix (ToLower (TrimSpace arg0)) "http://")
                  "https://") as x.
    intros x.
    destruct (first_char_split "/" x) as [Hn | (a & rest & -> & Ha)].
    + left. rewrite (Index_no_char "/" x Hn). now apply Index_no_char.
    + rewrite (Index_first_char "/" a rest Ha).
      destruct a as [| c a].
      * right. cbn [String.length append]. unfold HasPrefix.
        rewrite prefix_single. apply Ascii.eqb_refl.
      * left. cbn [String.length].
        rewrite (take_append (String c a)). now apply Index_no_char.
  - intros proto host tail Hproto Htail Hne Hs Hc Harg. unfold Cmd.domainArg.
    rewrite Harg.
    assert (Hshape : tail = "" \/ exists path, tail = String "/" path).
    { destruct Htail as [-> | Ht]; [now left | right].
      destruct tail as [| c tail]; [discriminate Ht |].
      unfold HasPrefix in Ht. rewrite prefix_single in Ht.
      apply Ascii.eqb_eq in Ht. subst c. now exists tail. }
    assert (Hno : forall p, no_char "/" p = true -> no_char ":" p = false ->
                            TrimPrefix (host ++ tail) (p ++ "//") = host ++ tail).
    { intros p Hp1 Hp2. apply TrimPrefix_absent.
      destruct Hshape as [-> | (path & ->)].
      - rewrite append_empty_r. apply HasPrefix_needs_slash; [exact Hs |].
        rewrite no_char_append. cbn. apply andb_false_r.
      - now apply host_is_no_protocol. }
    assert (Hstrip : TrimPrefix (TrimPrefix (proto ++ host ++ tail) "http://")
                       "https://" = host ++ tail).
    { pose proof (Hno "http:" eq_refl eq_refl) as Hhttp.
      pose proof (Hno "https:" eq_refl eq_refl) as Hhttps.
      cbn [append] in Hhttp, Hhttps.
      destruct Hproto as [<- | [<- | [<- | []]]].
      - cbn [append]. now rewrite Hhttp, Hhttps.
      - rewrite TrimPrefix_self. exact Hhttps.
      - rewrite (TrimPrefix_absent ("https://" ++ host ++ tail) "http://")
          by reflexivity.
        apply TrimPrefix_self. }
    rewrite Hstrip.
    destruct Hshape as [-> | (path & ->)].
    + rewrite append_empty_r. now rewrite Index_no_char.
    + rewrite Index_first_char by exact Hs.
      destruct host as [| c host]; [congruence |]. cbn [String.length].
      apply (take_append (String c host)).
Qed.

Lemma LookupASN_asn_text_source (P : Platform) (ip : string) (s : State P)
    (info : ASNInfo) :
  fst (LookupASN P ip s) = Some info -> exists x, ASN info = "AS" ++ x.
Proof.
  rewrite LookupASN_run.
  destruct (origin_query P ip) as [q |]; [| discriminate].
  destruct (first_txt (txt_reply P q s)) as [t0 |]; [| discriminate].
  destruct (lookupASName_run P (TrimSpace P (first_field t0))
              (after_txt P q s)) as (org & -> & _).
  cbn [fst]. intros H. injection H as <-. now eexists.
Qed.

(** X25: whenever [LookupASN] returns a result, the ASN column the
    command prints for it is not empty: it is the organisation when the
    name lookup gave one, and AS followed by the number otherwise. *)
Theorem asn_display_never_empty :
  forall (P : Platform) (ip : string) (s : State P) (info : ASNInfo),
    fst (LookupASN P ip s) = Some info ->
    Cmd.asn_display (Some info) <> ""
    /\ (Org info = "" -> Cmd.asn_display (Some info) = ASN info)
    /\ (Org info <> "" -> Cmd.asn_display (Some info) = Org info)
    /\ HasPrefix (ASN info) "AS" = true.
Proof.
  intros P ip s info H.
  destruct (LookupASN_asn_text_source P ip s info H) as (x & Hx).
  unfold Cmd.asn_display.
  destruct (String.eqb_spec (Org info) "") as [E | E]; cbn [negb].
  - rewrite Hx. repeat split; try congruence; try discriminate.
    unfold HasPrefix. cbn. now destruct x.
  - repeat split; try congruence.
    rewrite Hx. unfold HasPrefix. cbn. now destruct x.
Qed.

(** ** Runs of the added properties *)

(** X1 on the platform where nothing answers. *)
Lemma GetNameservers_error_witness :
  resolver_reply Lab.offline "example.net." TypeNS Lab.offline_start
  = Err "network is unreachable"
  /\ fst (GetNameservers Lab.offline "example.net" Lab.offline_start)
     = ([], Some "network is unreachable")
  /\ List.length (qlog (snd (GetNameservers Lab.offline "example.net"
                               Lab.offline_start))) = 1%nat.
Proof.
  destruct (GetNameservers_error Lab.offline "example.net" Lab.offline_start
              "network is unreachable" eq_refl) as [Hres Hlog].
  split; [reflexivity |]. split; [exact Hres |]. now rewrite Hlog.
Defined.

(** X2 on a zone with two nameservers: the A reply for the first holds an
    alias and two A records, and the entry has the address of the first
    of the two; the A reply for the second holds no A record, and the
    entry has no address. *)
Lemma GetNameservers_entries_witness :
  resolver_reply Site.platform "example.org." TypeNS Site.start
  = Ok Site.org_ns_reply
  /\ a_addresses (Answer Site.ns1_reply) = [Site.ns1_ip; Site.ns1_other_ip]
  /\ a_addresses (Answer Site.ns2_reply) = []
  /\ fst (GetNameservers Site.platform "example.org" Site.start)
     = ([mkNameserver "ns1.example.org" "192.0.2.1";
         mkNameserver "ns2.example.org" ""], None)
  /\ qlog (snd (GetNameservers Site.platform "example.org" Site.start))
     = [EvExchange (mkQ "example.org." TypeNS true) "8.8.8.8:53"
          (Ok Site.org_ns_reply);
        EvExchange (mkQ "ns1.example.org." TypeA true) "8.8.8.8:53"
          (Ok Site.ns1_reply);
        EvExchange (mkQ "ns2.example.org." TypeA true) "8.8.8.8:53"
          (Ok Site.ns2_reply)].
Proof.
  split; [reflexivity |]. split; [reflexivity |]. split; [reflexivity |].
  destruct (GetNameservers_entries Site.platform "example.org" Site.start
              Site.org_ns_reply eq_refl) as (replies & Hlen & Hres & Hlog).
  assert (Hr : replies = [Ok Site.ns1_reply; Ok Site.ns2_reply]).
  { destruct replies as [| r1 [| r2 [| r3 replies]]]; try discriminate Hlen.
    assert (Hq : qlog (snd (GetNameservers Site.platform "example.org" Site.start))
                 = [EvExchange (mkQ "example.org." TypeNS true) "8.8.8.8:53"
                      (Ok Site.org_ns_reply);
                    EvExchange (mkQ "ns1.example.org." TypeA true) "8.8.8.8:53"
                      (Ok Site.ns1_reply);
                    EvExchange (mkQ "ns2.example.org." TypeA true) "8.8.8.8:53"
                      (Ok Site.ns2_reply)]) by reflexivity.
    rewrite Hq in Hlog. unfold a_query_of in Hlog. cbn in Hlog. congruence. }
  subst replies. split; [exact Hres | exact Hlog].
Defined.

(** X3 on the sample zone. *)
Lemma queryMX_entries_witness :
  resolver_reply Lab.zone "example.net." TypeMX Lab.zone_start
  = Ok (mkMsg 0
          [RR_MX (Sample.hdr "example.net." TypeMX) 10 "mail.example.net.";
           RR_MX (Sample.hdr "example.net." TypeMX) 0 "."] [] [])
  /\ fst (queryMX Lab.zone "example.net." Lab.zone_start)
     = ["10 mail.example.net"; "0 "]
  /\ exists m,
       Index "10 mail.example.net" " " = Some m
       /\ parse_decimal (take m "10 mail.example.net") = Some 10%N
       /\ drop (m + 1) "10 mail.example.net" = "mail.example.net".
Proof.
  destruct (queryMX_entries Lab.zone "example.net." Lab.zone_start)
    as [Hres Hentry].
  split; [reflexivity |]. split.
  - rewrite (Hres _ eq_refl). reflexivity.
  - exact (Hentry 10%N "mail.example.net.").
Defined.

(** X5 on the sample zone: the A query times out, the MX query is
    answered. *)
Lemma GetRecords_field_failures_witness :
  resolver_reply Lab.zone "example.net." TypeA
    (records_state Lab.zone "example.net" Lab.zone_start 0) = Err "i/o timeout"
  /\ rec_A (fst (fst (GetRecords Lab.zone "example.net" Lab.zone_start))) = []
  /\ rec_MX (fst (fst (GetRecords Lab.zone "example.net" Lab.zone_start)))
     = ["10 mail.example.net"; "0 "].
Proof.
  destruct (GetRecords_field_failures Lab.zone "example.net" Lab.zone_start)
    as (HA & _ & _ & _ & _ & HMX).
  split; [reflexivity |]. split.
  - exact (HA "i/o timeout" eq_refl).
  - rewrite (HMX _ eq_refl). reflexivity.
Defined.

(** X8 on the platform where nothing answers. *)
Lemma Trace_offline_witness :
  (forall q server w,
      exists e, fst (net_Exchange Lab.offline q server w) = Err e)
  /\ fst (Trace Lab.offline "www.example.net" Lab.offline_start)
     = ([root_step], None).
Proof.
  assert (Hoff : forall q server w,
             exists e, fst (net_Exchange Lab.offline q server w) = Err e)
    by (intros; now exists "network is unreachable").
  split; [exact Hoff |].
  exact (proj1 (Trace_offline Lab.offline Hoff "www.example.net"
                  Lab.offline_start)).
Defined.

(** X9 on the sample platform: the second query of the trace goes to the
    glue address of the first reply. *)
Lemma Trace_servers_learnt_witness :
  exists addr,
    "192.5.6.30:53" = addr ++ ":53"
    /\ (addr = "198.41.0.4"
        \/ learnt Sample.platform
             [EvExchange (mkQ "com." TypeNS false) "198.41.0.4:53"
                (Ok Sample.com_reply)] addr).
Proof.
  destruct (Trace_servers_learnt Sample.platform "www.example.com" Sample.start)
    as (evs & Hlog & Hprov).
  vm_compute in Hlog. subst evs.
  exact (Hprov [EvExchange (mkQ "com." TypeNS false) "198.41.0.4:53"
                  (Ok Sample.com_reply)]
           (mkQ "example.com." TypeNS false) "192.5.6.30:53"
           (Ok Sample.example_reply)
           [EvLookupHost "ns1.example.com" [];
            EvExchange (mkQ "www.example.com." TypeNS false) "198.51.100.2:53"
              (Err "i/o timeout")]
           eq_refl).
Defined.

(** X10 on the sample platform. *)
Lemma zones_nested_witness :
  HasSuffix (Fqdn Sample.platform "www.example.com") "." = true
  /\ last (zones_of (parts_of Sample.platform "www.example.com")) ""
     = "www.example.com."
  /\ zones_of ["www"; "example"; "com"]
     = (zones_of ["example"; "com"]
        ++ [("www" ++ "." ++ last (zones_of ["example"; "com"]) "")%string])%list.
Proof.
  destruct (zones_nested Sample.platform "www.example.com")
    as (_ & _ & Hlast & Hnest).
  split; [reflexivity |]. split.
  - apply Hlast. reflexivity.
  - apply Hnest. discriminate.
Defined.

(** X12 on the sample zone: a description with a separator in it. *)
Lemma lookupASName_organisation_witness :
  no_char "|" "64500" = true /\ no_char "|" "ZZ" = true
  /\ no_char "|" "iana" = true /\ no_char "|" "2010-01-01" = true
  /\ fst (lookupASName Lab.zone "64500" Lab.zone_start)
     = Some (mkASN "AS64500" "EXAMPLE | NET, ZZ").
Proof.
  do 4 (split; [reflexivity |]).
  exact (proj1 (lookupASName_organisation Lab.zone "64500" Lab.zone_start
                  "64500" "ZZ" "iana" "2010-01-01"
                  (Sample.hdr "AS64500.asn.cymru.com." TypeTXT) [] [] 0 [] []
                  eq_refl eq_refl eq_refl eq_refl)
           "EXAMPLE | NET, ZZ" eq_refl).
Defined.

(** X13: a literal with three dots that is no address, and one with two
    dots. *)
Lemma origin_query_dotted_witness :
  Contains "not.an.ip.addr" ":" = false
  /\ origin_query Sample.platform "not.an.ip.addr"
     = Some "addr.ip.an.not.origin.asn.cymru.com."
  /\ Contains "1.2.3" ":" = false
  /\ origin_query Sample.platform "1.2.3" = None.
Proof.
  destruct (origin_query_dotted Sample.platform "not.an.ip.addr" eq_refl)
    as (_ & Hq & _).
  destruct (origin_query_dotted Sample.platform "1.2.3" eq_refl) as (Hn & _).
  split; [reflexivity |]. split; [exact (Hq "not" "an" "ip" "addr" eq_refl) |].
  split; [reflexivity |]. apply Hn. cbn. lia.
Defined.

(** X14 on the examples of the source. *)
Lemma GetRootDomain_labels_witness :
  split_on "." (normal_form Text.to_lower Sample.trim_space " WWW.Example.CO.UK. ")
  = ([] ++ ["www"; "example"; "co"; "uk"])%list
  /\ Domain.GetRootDomain Text.to_lower Sample.trim_space " WWW.Example.CO.UK. "
     = "example.co.uk"
  /\ (count_char "." (normal_form Text.to_lower Sample.trim_space "ytterdal.net")
      <= 1)%nat
  /\ Domain.GetRootDomain Text.to_lower Sample.trim_space "ytterdal.net"
     = "ytterdal.net".
Proof.
  destruct (GetRootDomain_labels Text.to_lower Sample.trim_space
              " WWW.Example.CO.UK. ") as (_ & Hlong & _).
  destruct (GetRootDomain_labels Text.to_lower Sample.trim_space "ytterdal.net")
    as (Hshort & _).
  split; [reflexivity |]. split.
  - rewrite (Hlong ["www"] "example" "co" "uk" eq_refl). reflexivity.
  - split; [vm_compute; lia |]. rewrite Hshort; [reflexivity | vm_compute; lia].
Defined.

(** X15: example.co.uk is no subdomain. *)
Lemma IsSubdomain_labels_witness :
  normal_form Text.to_lower Sample.trim_space
    (normal_form Text.to_lower Sample.trim_space "Example.co.uk")
  = normal_form Text.to_lower Sample.trim_space "Example.co.uk"
  /\ Domain.IsSubdomain Text.to_lower Sample.trim_space "Example.co.uk" = false.
Proof.
  split; [reflexivity |].
  apply (IsSubdomain_labels Text.to_lower Sample.trim_space "Example.co.uk"
           eq_refl).
  right. exists "example", "co", "uk". split; reflexivity.
Defined.

(** X16 on the example of the source. *)
Lemma GetParentDomain_labels_witness :
  split_on "." (normal_form Text.to_lower Sample.trim_space "sub.int.ytterdal.net")
  = "sub" :: ["int"; "ytterdal"; "net"]
  /\ normal_form Text.to_lower Sample.trim_space "sub.int.ytterdal.net"
     = "sub" ++ "."
       ++ Domain.GetParentDomain Text.to_lower Sample.trim_space
            "sub.int.ytterdal.net"
  /\ split_on "." (Domain.GetParentDomain Text.to_lower Sample.trim_space
                     "sub.int.ytterdal.net")
     = ["int"; "ytterdal"; "net"].
Proof.
  split; [reflexivity |].
  apply (proj2 (GetParentDomain_labels Text.to_lower Sample.trim_space
                  "sub.int.ytterdal.net")
           "sub" ["int"; "ytterdal"; "net"] eq_refl).
  cbn. lia.
Defined.

(** X17: a name without a dot is its own top-level domain. *)
Lemma getTLD_last_label_witness :
  no_char "." "localhost" = true /\ Whois.getTLD "localhost" = "localhost".
Proof.
  split; [reflexivity |].
  apply (proj2 (proj2 (getTLD_last_label "localhost"))). reflexivity.
Defined.

(** X20 with patterns that match the end of a name. *)
Lemma AddPattern_takes_precedence_witness :
  Provider.AddPattern string Text.compile Sample.trim_space
    [Provider.mkPattern string ".example.net" "Old"] ".example.net: New"
  = (None, [Provider.mkPattern string ".example.net" "New";
            Provider.mkPattern string ".example.net" "Old"])
  /\ exists k re,
       Index ".example.net: New" ":" = Some k
       /\ Text.compile ("(?i)" ++ Sample.trim_space (take k ".example.net: New"))
          = inl re
       /\ Provider.Match string Text.ends_with Text.to_lower
            [Provider.mkPattern string ".example.net" "New";
             Provider.mkPattern string ".example.net" "Old"]
            "NS1.Example.NET"
          = if Text.ends_with re (Text.to_lower "NS1.Example.NET")
            then Sample.trim_space (drop (k + 1) ".example.net: New")
            else Provider.Match string Text.ends_with Text.to_lower
                   [Provider.mkPattern string ".example.net" "Old"]
                   "NS1.Example.NET".
Proof.
  split; [reflexivity |].
  destruct (AddPattern_takes_precedence string Text.compile Text.ends_with
              Text.to_lower Sample.trim_space
              [Provider.mkPattern string ".example.net" "Old"]
              [Provider.mkPattern string ".example.net" "New";
               Provider.mkPattern string ".example.net" "Old"]
              ".example.net: New" eq_refl)
    as (k & re & Hk & Hc & _ & _ & _ & Hm).
  exists k, re. split; [exact Hk |]. split; [exact Hc |]. apply Hm.
Defined.

(** X21 on a spec without a colon. *)
Lemma AddPattern_rejects_witness :
  Contains "nocolon" ":" = false
  /\ Provider.AddPattern string Text.compile Sample.trim_space [] "nocolon"
     = (Some (Provider.mkPatternError "nocolon"
                "invalid format, expected 'pattern:provider'"), []).
Proof.
  split; [reflexivity |].
  apply (AddPattern_rejects string Text.compile Sample.trim_space [] "nocolon").
  reflexivity.
Defined.

(** X23: the first of two matching patterns wins. *)
Lemma Match_first_wins_witness :
  Text.ends_with ".example.net" (Text.to_lower "NS1.Example.NET") = true
  /\ Provider.Match string Text.ends_with Text.to_lower
       ([Provider.mkPattern string ".example.org" "Org"]
        ++ Provider.mkPattern string ".example.net" "New"
           :: [Provider.mkPattern string ".net" "Net"])%list
       "NS1.Example.NET"
     = "New".
Proof.
  split; [reflexivity |].
  apply (proj2 (Match_first_wins string Text.ends_with Text.to_lower
                  ([Provider.mkPattern string ".example.org" "Org"]
                   ++ Provider.mkPattern string ".example.net" "New"
                      :: [Provider.mkPattern string ".net" "Net"])%list
                  "NS1.Example.NET")
           [Provider.mkPattern string ".example.org" "Org"]
           (Provider.mkPattern string ".example.net" "New")
           [Provider.mkPattern string ".net" "Net"]);
    reflexivity.
Defined.

(** X24 on an address with protocol and path. *)
Lemma domainArg_drops_path_witness :
  Text.to_lower (Sample.trim_space " HTTPS://Example.com/path/x ")
  = "https://" ++ "example.com" ++ "/path/x"
  /\ Cmd.domainArg Text.to_lower Sample.trim_space " HTTPS://Example.com/path/x "
     = "example.com".
Proof.
  split; [reflexivity |].
  apply (proj2 (domainArg_drops_path Text.to_lower Sample.trim_space
                  " HTTPS://Example.com/path/x ")
           "https://" "example.com" "/path/x").
  - right. right. now left.
  - now right.
  - discriminate.
  - reflexivity.
  - reflexivity.
  - reflexivity.
Defined.

(** X25 on the sample platform. *)
Lemma asn_display_never_empty_witness :
  fst (LookupASN Sample.platform "104.18.27.120" Sample.start)
  = Some (mkASN "AS13335" "CLOUDFLARENET, US")
  /\ Cmd.asn_display (Some (mkASN "AS13335" "CLOUDFLARENET, US")) <> "".
Proof.
  split; [reflexivity |].
  exact (proj1 (asn_display_never_empty Sample.platform "104.18.27.120"
                  Sample.start (mkASN "AS13335" "CLOUDFLARENET, US") eq_refl)).
Defined.

(** ** The hops of a trace *)

(** Only the first iteration of the zone loop looks at its index. *)
Lemma trace_loop_index (P : Platform) :
  forall zones i j steps cur (s : State P),
    trace_loop P (S i) zones steps cur s = trace_loop P (S j) zones steps cur s.
Proof.
  induction zones as [| zone zones IH]; intros i j steps cur s;
    [reflexivity |].
  cbn [trace_loop Nat.eqb]. rewrite !bind_run.
  destruct (trace_zone P zone steps cur s) as [[steps1 cur1] s1].
  cbn [fst snd]. apply IH.
Qed.

(** The walk over [before ++ rest] goes over [before] and carries on over
    [rest] with the steps, the server and the state reached. *)
Lemma trace_loop_app (P : Platform) :
  forall before rest i steps cur (s : State P),
    trace_loop P (S i) (before ++ rest) steps cur s
    = trace_loop P (S i) rest
        (fst (fst (trace_loop P (S i) before steps cur s)))
        (snd (fst (trace_loop P (S i) before steps cur s)))
        (snd (trace_loop P (S i) before steps cur s)).
Proof.
  induction before as [| zone before IH]; intros rest i steps cur s;
    [reflexivity |].
  cbn [app trace_loop Nat.eqb]. rewrite !bind_run.
  destruct (trace_zone P zone steps cur s) as [[steps1 cur1] s1].
  cbn [fst snd]. rewrite IH. apply trace_loop_index.
Qed.

(** The first event a walk logs is the NS query for its first zone, sent
    to the server the walk was entered with. *)
Lemma trace_loop_first_query (P : Platform) zone rest i steps cur (s : State P) :
  exists evs,
    qlog (snd (trace_loop P (S i) (zone :: rest) steps cur s))
    = (qlog s
       ++ EvExchange (mkQ zone TypeNS false) (cur ++ ":53")
            (zone_reply P zone cur s) :: evs)%list.
Proof.
  cbn [trace_loop Nat.eqb]. rewrite bind_run.
  destruct (trace_zone_log P zone steps cur s) as (lk & Hl & _).
  destruct (trace_zone P zone steps cur s) as [[steps1 cur1] s1].
  cbn [fst snd] in *.
  destruct (trace_loop_log P rest (S i) steps1 cur1 s1)
    as (added & evs & _ & _ & Hlog & _).
  exists (lk ++ evs)%list. rewrite Hlog, Hl, <- app_assoc. reflexivity.
Qed.

(** C1: take any hop of a trace, reached after the zones [before] with
    the steps, the server [cur] and the state [s1] the walk has then, and
    let its query be answered with an NS record in the selected section.
    The loop over that section ends on one NS record [ns], every record
    before which left no address.  If the additional section holds an A
    record owned by exactly [ns], the hop hands on that record's address
    and makes no host lookup for [ns]; otherwise it asks the system
    resolver for the NS name and hands on its first address, or the
    server it had when there is none.  The address handed on is the one
    the NS query for the next zone of the trace is sent to.
    [net.IP.String] never returns the empty string, which is what the
    first hypothesis records. *)
Theorem Trace_next_hop_prefers_glue :
  forall (P : Platform),
    (forall ip, IP_String P ip <> "") ->
    forall (domain : string) (s : State P) before zone after resp,
      tl (zones_of (parts_of P domain)) = (before ++ zone :: after)%list ->
      let reached := trace_loop P 1 before [root_step] "198.41.0.4" s in
      let steps := fst (fst reached) in
      let cur := snd (fst reached) in
      let s1 := snd reached in
      zone_reply P zone cur s1 = Ok resp ->
      filter is_NS (select_records resp) <> [] ->
      exists pre h ns post name1 s0,
        select_records resp = (pre ++ RR_NS h ns :: post)%list
        /\ ns_loop P pre (Extra resp) "" "" (after_exchange P zone cur s1)
           = ("", name1, s0)
        /\ let host := TrimSuffix ns "." in
           let ip0 := hd "" (fst (net_LookupHost P host (world s0))) in
           let next :=
             match glue_of (Extra resp) ns with
             | Some a => IP_String P a
             | None => if String.eqb ip0 "" then cur else ip0
             end in
           let s2 :=
             match glue_of (Extra resp) ns with
             | Some _ => s0
             | None => after_lookup P host s0
             end in
           trace_zone P zone steps cur s1
           = ((if String.eqb host "" then steps
               else (steps ++ [mkStep zone host])%list),
              next, s2)
           /\ forall zone2 rest,
                after = zone2 :: rest ->
                exists evs,
                  qlog (snd (Trace P domain s))
                  = (qlog s2
                     ++ EvExchange (mkQ zone2 TypeNS false) (next ++ ":53")
                          (zone_reply P zone2 next s2) :: evs)%list.
Proof.
  intros P Hip domain s before zone after resp Hz reached steps cur s1 Hr Hns.
  destruct (ns_loop P (select_records resp) (Extra resp) "" ""
              (after_exchange P zone cur s1)) as [[next name] t] eqn:Hrun.
  pose proof (trace_zone_ok P zone steps cur s1 resp Hr next name t Hrun) as Hhop.
  destruct (ns_loop_run P _ _ _ _ _ _ _ Hrun)
    as [(Hnone & _) | (pre & h & ns & post & name1 & s0 & He & Hpre & Hnext & Hnm & _)];
    [contradiction |].
  exists pre, h, ns, post, name1, s0.
  split; [exact He | split; [exact Hpre |]]. cbv zeta.
  assert (Hzone :
    trace_zone P zone steps cur s1
    = ((if String.eqb (TrimSuffix ns ".") "" then steps
        else (steps ++ [mkStep zone (TrimSuffix ns ".")])%list),
       match glue_of (Extra resp) ns with
       | Some a => IP_String P a
       | None =>
           if String.eqb
                (hd "" (fst (net_LookupHost P (TrimSuffix ns ".") (world s0)))) ""
           then cur
           else hd "" (fst (net_LookupHost P (TrimSuffix ns ".") (world s0)))
       end,
       match glue_of (Extra resp) ns with
       | Some _ => s0
       | None => after_lookup P (TrimSuffix ns ".") s0
       end)).
  { rewrite Hhop, Hnm.
    destruct (glue_of (Extra resp) ns) as [a |] eqn:Hg.
    - rewrite (next_server_for_glue P _ _ _ a s0 Hg (Hip a)) in Hnext.
      inversion Hnext; subst next t.
      destruct (String.eqb_spec (IP_String P a) "") as [E | _];
        [now apply Hip in E |].
      now destruct (String.eqb (TrimSuffix ns ".") "").
    - rewrite (next_server_for_no_glue P _ _ s0 Hg) in Hnext.
      inversion Hnext; subst next t.
      destruct (String.eqb (hd "" (fst (net_LookupHost P (TrimSuffix ns ".") (world s0)))) "");
        now destruct (String.eqb (TrimSuffix ns ".") ""). }
  split; [exact Hzone |].
  intros zone2 rest ->.
  pose proof (Trace_unfold P domain s) as Ht. cbv zeta in Ht.
  rewrite Ht. cbn [snd]. rewrite Hz, trace_loop_app.
  fold reached. fold steps. fold cur. fold s1.
  cbn [trace_loop Nat.eqb]. rewrite bind_run, Hzone. cbn [fst snd].
  apply trace_loop_first_query.
Qed.

(** C1, on the sample platform: the referral for com. carries glue for its
    NS record, and the NS query for example.com. goes to that address. *)
Lemma Trace_next_hop_prefers_glue_witness :
  (forall ip, IP_String Sample.platform ip <> "")
  /\ tl (zones_of (parts_of Sample.platform "www.example.com"))
     = ([] ++ "com." :: ["example.com."; "www.example.com."])%list
  /\ zone_reply Sample.platform "com." "198.41.0.4" Sample.start
     = Ok Sample.com_reply
  /\ filter is_NS (select_records Sample.com_reply) <> []
  /\ glue_of (Extra Sample.com_reply) "a.gtld-servers.net."
     = Some Sample.gtld_ip
  /\ exists s2 evs,
       trace_zone Sample.platform "com." [root_step] "198.41.0.4" Sample.start
       = ([root_step; mkStep "com." "a.gtld-servers.net"], "192.5.6.30", s2)
       /\ qlog (snd (Trace Sample.platform "www.example.com" Sample.start))
          = (qlog s2
             ++ EvExchange (mkQ "example.com." TypeNS false) "192.5.6.30:53"
                  (Ok Sample.example_reply) :: evs)%list.
Proof.
  split; [exact Sample_ip_string_nonempty |].
  split; [reflexivity |]. split; [reflexivity |].
  split; [discriminate |]. split; [reflexivity |].
  destruct (Trace_next_hop_prefers_glue Sample.platform
              Sample_ip_string_nonempty "www.example.com" Sample.start
              [] "com." ["example.com."; "www.example.com."] Sample.com_reply
              eq_refl eq_refl)
    as (pre & h & ns & post & name1 & s0 & He & _ & Hhop & Hnext);
    [discriminate |].
  assert (Hns : ns = "a.gtld-servers.net.").
  { destruct pre as [| rr [| rr' pre]]; cbn in He.
    - now inversion He.
    - destruct post; discriminate He.
    - destruct pre; discriminate He. }
  subst ns. cbn [glue_of] in Hhop, Hnext.
  destruct (Hnext "example.com." ["www.example.com."] eq_refl) as (evs & Hlog).
  exists s0, evs. split; [exact Hhop | exact Hlog].
Defined.

(** ** The length of a trace *)

Lemma split_on_snoc (c : ascii) (s : string) :
  split_on c (s ++ String c "") = (split_on c s ++ [""])%list.
Proof.
  induction s as [| x s IH]; cbn [append split_on].
  - now rewrite Ascii.eqb_refl.
  - rewrite IH. destruct (Ascii.eqb x c); [reflexivity |].
    pose proof (length_split_on c s) as Hlen.
    destruct (split_on c s); [discriminate Hlen | reflexivity].
Qed.

Lemma TrimSuffix_append (a b : string) : TrimSuffix (a ++ b) b = a.
Proof.
  unfold TrimSuffix, HasSuffix. rewrite length_append.
  replace (String.length a + String.length b - String.length b)%nat
    with (String.length a) by lia.
  rewrite drop_append, String.eqb_refl, take_append.
  now destruct (Nat.leb_spec (String.length b) (String.length a + String.length b));
    [| lia].
Qed.

Lemma filter_nonempty_all (l : list string) :
  Forall (fun part => part <> "") l ->
  filter (fun label => negb (String.eqb label "")) l = l.
Proof.
  induction 1 as [| x l Hx _ IH]; [reflexivity |].
  cbn. destruct (String.eqb_spec x ""); [contradiction |].
  cbn. now rewrite IH.
Qed.

(** The parts the walk is built from are the pieces of the qualified name
    without its trailing dot. *)
Lemma parts_of_split_on (P : Platform) (domain : string) :
  parts_of P domain = split_on "." (TrimSuffix (Fqdn P domain) ".").
Proof.
  unfold parts_of. change "."%string with (String "."%char "") at 2.
  apply Split_is_split_on.
Qed.

(** Qualifying a name and dropping the trailing dot keeps its labels. *)
Lemma domain_labels_qualified (domain fqdn : string) :
  fqdn = domain \/ fqdn = domain ++ "." ->
  domain_labels domain
  = filter (fun label => negb (String.eqb label ""))
      (split_on "." (TrimSuffix fqdn ".")).
Proof.
  unfold domain_labels. intros [-> | ->].
  - destruct (HasSuffix domain ".") eqn:Hs.
    + rewrite <- (TrimSuffix_restore domain "." Hs) at 1.
      change "."%string with (String "."%char "") at 2.
      rewrite split_on_snoc, filter_app. cbn. now rewrite app_nil_r.
    + unfold TrimSuffix. now rewrite Hs.
  - now rewrite TrimSuffix_append.
Qed.

(** C4 (as amended): the trace has at most one step per dot-separated
    part of the qualified name without its trailing dot, plus one; the
    parts are the labels of the domain whenever none of them is empty, and
    then the bound is the number of labels plus one.  Its first step is
    the root step, naming 198.41.0.4 through the static table, and is in
    place before anything is sent; the queries sent are exactly one NS
    query per zone after the root; and every later step belongs to a zone
    whose query was answered with an NS record in the selected section.
    [dns.Fqdn] gives back its argument or adds a dot to it, which is what
    the hypothesis on [Fqdn] records. *)
Theorem Trace_steps_bounded :
  forall (P : Platform) (domain : string) (s : State P),
    let name := TrimSuffix (Fqdn P domain) "." in
    let zones := zones_of (parts_of P domain) in
    let steps := fst (fst (Trace P domain s)) in
    let root := mkStep "." (getRootServerName (nth 0 rootServers "")) in
    (List.length steps <= List.length (split_on "." name) + 1)%nat
    /\ (Fqdn P domain = domain \/ Fqdn P domain = domain ++ "." ->
        Forall (fun part => part <> "") (split_on "." name) ->
        (List.length steps <= List.length (domain_labels domain) + 1)%nat)
    /\ List.length zones = (List.length (split_on "." name) + 1)%nat
    /\ hd_error steps = Some root
    /\ root = mkStep "." "a.root-servers.net"
    /\ (forall ip, map_lookup rootNames ip = None -> getRootServerName ip = ip)
    /\ trace_loop P 0 zones [] "198.41.0.4" s
       = trace_loop P 1 (tl zones) [root] "198.41.0.4" s
    /\ exists evs,
         qlog (snd (Trace P domain s)) = (qlog s ++ evs)%list
         /\ questions_of evs = map (fun z => mkQ z TypeNS false) (tl zones)
         /\ Forall (step_from (tl zones) evs) (tl steps).
Proof.
  intros P domain s name zones steps root.
  assert (Hroot : trace_loop P 0 zones [] "198.41.0.4" s
                  = trace_loop P 1 (tl zones) [root] "198.41.0.4" s)
    by reflexivity.
  pose proof (Trace_unfold P domain s) as Htrace. cbv zeta in Htrace.
  fold zones in Htrace.
  destruct (trace_loop_log P (tl zones) 0 [root] "198.41.0.4" s)
    as (added & evs & Ha & Hlen & Hlog & Hqs & Hall).
  assert (Hsteps : steps = root :: added).
  { subst steps. rewrite Htrace. cbn [fst]. exact Ha. }
  assert (Hparts : parts_of P domain = split_on "." name)
    by apply parts_of_split_on.
  assert (Hz : List.length (tl zones) = List.length (split_on "." name)).
  { subst zones. unfold zones_of. cbn [tl].
    now rewrite length_map, length_rev, length_seq, Hparts. }
  assert (Hbound : (List.length steps <= List.length (split_on "." name) + 1)%nat).
  { rewrite Hsteps. cbn [List.length]. lia. }
  split; [exact Hbound |].
  split; [| split; [| split; [| split; [| split; [| split]]]]].
  - intros Hf Hne.
    rewrite (domain_labels_qualified domain (Fqdn P domain) Hf).
    fold name. now rewrite (filter_nonempty_all _ Hne).
  - subst zones. now rewrite length_zones_of, Hparts.
  - now rewrite Hsteps.
  - reflexivity.
  - intros ip Hip. unfold getRootServerName. now rewrite Hip.
  - exact Hroot.
  - exists evs. rewrite Htrace. cbn [snd]. split; [exact Hlog |].
    split; [exact Hqs |]. rewrite Hsteps. exact Hall.
Qed.

(** C4: the empty domain has no label, its qualified name is the root
    and the walk has the root zone twice; where the first root server
    answers the NS query for the root zone, the trace has two steps. *)
Lemma Trace_root_domain_counterexample :
  domain_labels "" = []
  /\ zone_reply Site.platform "." "198.41.0.4" Site.start = Ok Site.root_reply
  /\ fst (fst (Trace Site.platform "" Site.start))
     = [root_step; mkStep "." "a.root-servers.net"]
  /\ ~ (List.length (fst (fst (Trace Site.platform "" Site.start)))
        <= List.length (domain_labels "") + 1)%nat.
Proof.
  split; [reflexivity |]. split; [reflexivity |]. split; [reflexivity |].
  vm_compute. lia.
Qed.

(** C4 as amended, on the sample platform: three steps for the three
    labels of www.example.com, the last zone giving none. *)
Lemma Trace_steps_bounded_witness :
  (Fqdn Sample.platform "www.example.com" = "www.example.com"
   \/ Fqdn Sample.platform "www.example.com" = "www.example.com" ++ ".")
  /\ Forall (fun part => part <> "")
       (split_on "." (TrimSuffix (Fqdn Sample.platform "www.example.com") "."))
  /\ domain_labels "www.example.com" = ["www"; "example"; "com"]
  /\ fst (fst (Trace Sample.platform "www.example.com" Sample.start))
     = [root_step; mkStep "com." "a.gtld-servers.net";
        mkStep "example.com." "ns2.example.com"]
  /\ (List.length (fst (fst (Trace Sample.platform "www.example.com" Sample.start)))
      <= List.length (domain_labels "www.example.com") + 1)%nat
  /\ map_lookup rootNames "192.0.2.53" = None
  /\ getRootServerName "192.0.2.53" = "192.0.2.53".
Proof.
  destruct (Trace_steps_bounded Sample.platform "www.example.com" Sample.start)
    as (_ & Hlen & _ & _ & _ & Hmap & _).
  assert (Hf : Fqdn Sample.platform "www.example.com" = "www.example.com"
               \/ Fqdn Sample.platform "www.example.com" = "www.example.com" ++ ".")
    by (right; reflexivity).
  assert (Hne : Forall (fun part => part <> "")
                  (split_on "."
                     (TrimSuffix (Fqdn Sample.platform "www.example.com") ".")))
    by (repeat constructor; discriminate).
  split; [exact Hf |]. split; [exact Hne |].
  split; [reflexivity |]. split; [reflexivity |].
  split; [exact (Hlen Hf Hne) |].
  split; [reflexivity | apply Hmap; reflexivity].
Defined.

(** ** The origin question of [LookupASN] *)

(** When a name is built, the first thing [LookupASN] does is to ask the
    fixed resolver for the TXT records of that name. *)
Lemma LookupASN_first_query (P : Platform) (ip q : string) (s : State P) :
  origin_query P ip = Some q ->
  exists evs,
    qlog (snd (LookupASN P ip s))
    = (qlog s
       ++ EvExchange (mkQ q TypeTXT true) "8.8.8.8:53" (txt_reply P q s)
          :: evs)%list.
Proof.
  intros Hq. rewrite LookupASN_run, Hq.
  destruct (first_txt (txt_reply P q s)) as [t0 |].
  - destruct (lookupASName_run P (TrimSpace P (first_field t0))
                (after_txt P q s)) as (org & -> & _).
    cbn [snd]. rewrite !after_txt_log, <- app_assoc. eexists. reflexivity.
  - cbn [snd]. rewrite after_txt_log. now exists [].
Qed.

(** C6: for an IPv4 literal a.b.c.d, the first question [LookupASN] sends
    is the TXT question for d.c.b.a.origin.asn.cymru.com.; for a literal
    with a colon that parses, it is the TXT question for the 32 single hex
    digits of the 16-byte form, last byte first and low nibble before
    high nibble, joined by dots and followed by .origin6.asn.cymru.com.
    Both go to the fixed resolver with recursion desired. *)
Theorem LookupASN_origin_name :
  forall (P : Platform) (s : State P),
    (forall a b c d,
        all_digits a = true -> all_digits b = true ->
        all_digits c = true -> all_digits d = true ->
        let name := d ++ "." ++ c ++ "." ++ b ++ "." ++ a
                    ++ ".origin.asn.cymru.com." in
        exists evs,
          qlog (snd (LookupASN P (a ++ "." ++ b ++ "." ++ c ++ "." ++ d) s))
          = (qlog s
             ++ EvExchange (mkQ name TypeTXT true) "8.8.8.8:53"
                  (txt_reply P name s) :: evs)%list)
    /\ (forall ip addr full,
          Contains ip ":" = true ->
          ParseIP P ip = Some addr ->
          To16 addr = Some full ->
          let name := Join (reversed_nibbles full) "."
                      ++ ".origin6.asn.cymru.com." in
          List.length (reversed_nibbles full) = 32%nat
          /\ Forall (fun n => exists c, n = String c "" /\ is_hex_digit c = true)
                    (reversed_nibbles full)
          /\ exists evs,
               qlog (snd (LookupASN P ip s))
               = (qlog s
                  ++ EvExchange (mkQ name TypeTXT true) "8.8.8.8:53"
                       (txt_reply P name s) :: evs)%list).
Proof.
  intros P s. destruct (origin_query_name P) as [H4 H6]. split.
  - intros a b c d Ha Hb Hc Hd name.
    apply LookupASN_first_query. now apply H4.
  - intros ip addr full Hc Hp H16 name.
    destruct (H6 ip addr full Hc Hp H16) as (Hq & Hlen & Hhex).
    split; [exact Hlen | split; [exact Hhex |]].
    now apply LookupASN_first_query.
Qed.

(** C6, on the sample platform: an IPv4 literal and an IPv6 literal. *)
Lemma LookupASN_origin_name_witness :
  all_digits "104" = true /\ all_digits "18" = true
  /\ all_digits "27" = true /\ all_digits "120" = true
  /\ (exists evs,
        qlog (snd (LookupASN Sample.platform "104.18.27.120" Sample.start))
        = (qlog Sample.start
           ++ EvExchange (mkQ "120.27.18.104.origin.asn.cymru.com." TypeTXT true)
                "8.8.8.8:53"
                (txt_reply Sample.platform "120.27.18.104.origin.asn.cymru.com."
                   Sample.start) :: evs)%list)
  /\ Contains "2001:db8::1" ":" = true
  /\ ParseIP Sample.platform "2001:db8::1"
     = Some [x20; x01; x0d; xb8; x00; x00; x00; x00;
             x00; x00; x00; x00; x00; x00; x00; x01]%byte
  /\ exists evs,
       qlog (snd (LookupASN Sample.platform "2001:db8::1" Sample.start))
       = (qlog Sample.start
          ++ EvExchange
               (mkQ "1.0.0.0.0.0.0.0.0.0.0.0.0.0.0.0.0.0.0.0.0.0.0.0.8.b.d.0.1.0.0.2.origin6.asn.cymru.com."
                  TypeTXT true)
               "8.8.8.8:53" (Err "i/o timeout") :: evs)%list.
Proof.
  destruct (LookupASN_origin_name Sample.platform Sample.start) as [H4 H6].
  do 4 (split; [reflexivity |]).
  split; [exact (H4 "104" "18" "27" "120" eq_refl eq_refl eq_refl eq_refl) |].
  split; [reflexivity |]. split; [reflexivity |].
  exact (proj2 (proj2 (H6 "2001:db8::1"
                          [x20; x01; x0d; xb8; x00; x00; x00; x00;
                           x00; x00; x00; x00; x00; x00; x00; x01]%byte
                          [x20; x01; x0d; xb8; x00; x00; x00; x00;
                           x00; x00; x00; x00; x00; x00; x00; x01]%byte
                          eq_refl eq_refl eq_refl))).
Defined.

(** ** When [LookupASN] returns nil *)

Lemma no_char_false (c : ascii) (s : string) :
  no_char c s = false <-> no_char c s <> true.
Proof. destruct (no_char c s); split; congruence. Qed.

(** No name is built exactly from the literals of [no_origin_name]. *)
Lemma origin_query_none (P : Platform) (ip : string) :
  origin_query P ip = None <-> no_origin_name P ip.
Proof.
  unfold origin_query, no_origin_name.
  destruct (Contains ip ":") eqn:Hc.
  - assert (Hn : no_char ":" ip = false).
    { apply no_char_false. intros H. apply Contains_colon_false in H.
      congruence. }
    rewrite Hn. split.
    + intros H. left. split; [reflexivity |].
      destruct (ParseIP P ip) as [addr |]; [| now left].
      right. exists addr. split; [reflexivity |].
      destruct (To16 addr); [discriminate H | reflexivity].
    + intros [(_ & [-> | (addr & -> & ->)]) | (H & _)];
        [reflexivity | reflexivity | discriminate H].
  - assert (Hn : no_char ":" ip = true) by now apply Contains_colon_false.
    rewrite Hn. change "."%string with (String "."%char "") at 1 2 3 4 5.
    rewrite Split_is_split_on.
    destruct (Nat.eqb_spec (List.length (split_on "." ip)) 4) as [E | E];
      cbn [negb].
    + split; [discriminate |].
      intros [(H & _) | (_ & H)]; [discriminate H | contradiction].
    + split; [| reflexivity]. intros _. right. now split.
Qed.

(** C7 (as amended): [LookupASN] returns nil exactly when no query name
    can be built from the literal, or the origin query errors, has an
    empty answer section, has a first answer that is not a TXT record, or
    has a first TXT answer without segments.  No name can be built from a
    literal with a colon that does not parse or whose address has no
    16-byte form, and from a literal without a colon that does not fall
    into exactly four pieces at its dots; then nothing is sent and the
    state is left as it was.  From every other literal a name is built
    and the origin question for it is sent.  When the origin query gives
    a number and the name query fails in any of the ways above, the
    result is AS followed by the number, with an empty organisation. *)
Theorem LookupASN_absent_exactly :
  forall (P : Platform) (ip : string) (s : State P),
    (fst (LookupASN P ip s) = None
     <-> no_origin_name P ip
         \/ exists q, origin_query P ip = Some q
                      /\ first_txt (txt_reply P q s) = None)
    /\ (no_origin_name P ip -> LookupASN P ip s = (None, s))
    /\ (~ no_origin_name P ip ->
        exists q evs,
          origin_query P ip = Some q
          /\ qlog (snd (LookupASN P ip s))
             = (qlog s
                ++ EvExchange (mkQ q TypeTXT true) "8.8.8.8:53"
                     (txt_reply P q s) :: evs)%list)
    /\ (forall r,
          first_txt r = None
          <-> (exists e, r = Err e)
              \/ exists resp,
                   r = Ok resp
                   /\ (Answer resp = []
                       \/ (exists rr rest,
                              Answer resp = rr :: rest /\ is_TXT rr = false)
                       \/ (exists h rest, Answer resp = RR_TXT h [] :: rest)))
    /\ (forall q t0,
          origin_query P ip = Some q ->
          first_txt (txt_reply P q s) = Some t0 ->
          let number := TrimSpace P (first_field t0) in
          first_txt (txt_reply P ("AS" ++ number ++ ".asn.cymru.com.")
                       (after_txt P q s)) = None ->
          fst (LookupASN P ip s) = Some (mkASN ("AS" ++ number) "")).
Proof.
  intros P ip s. pose proof (origin_query_none P ip) as Hnone.
  split; [| split; [| split; [| split]]].
  - rewrite <- Hnone, LookupASN_run. split.
    + destruct (origin_query P ip) as [q |]; [| now left].
      destruct (first_txt (txt_reply P q s)) as [t0 |] eqn:Ht.
      * destruct (lookupASName_run P (TrimSpace P (first_field t0))
                    (after_txt P q s)) as (org & -> & _).
        discriminate.
      * intros _. right. now exists q.
    + intros [-> | (q & -> & ->)]; reflexivity.
  - intros Hno. apply Hnone in Hno. now rewrite LookupASN_run, Hno.
  - intros Hno. destruct (origin_query P ip) as [q |] eqn:Hq.
    + destruct (LookupASN_first_query P ip q s Hq) as (evs & Hlog).
      now exists q, evs.
    + exfalso. apply Hno, Hnone. reflexivity.
  - apply first_txt_none.
  - intros q t0 Hq Ht number Hname. subst number.
    rewrite LookupASN_run, Hq, Ht.
    destruct (lookupASName_run P (TrimSpace P (first_field t0))
                (after_txt P q s)) as (org & -> & Horg).
    cbn [fst]. now rewrite (Horg Hname).
Qed.

(** C7 as amended, on the sample platform: nothing is sent for a literal
    in three pieces nor for a literal with a colon that does not parse;
    for 192.0.2.1 the name query for AS64496 64497 times out and the
    number is kept. *)
Lemma LookupASN_absent_exactly_witness :
  no_origin_name Sample.platform "1.2.3"
  /\ LookupASN Sample.platform "1.2.3" Sample.start = (None, Sample.start)
  /\ no_origin_name Sample.platform "fe80::zz"
  /\ LookupASN Sample.platform "fe80::zz" Sample.start = (None, Sample.start)
  /\ origin_query Sample.platform "192.0.2.1"
     = Some "1.2.0.192.origin.asn.cymru.com."
  /\ first_txt (txt_reply Sample.platform "1.2.0.192.origin.asn.cymru.com."
                  Sample.start)
     = Some "64496 64497 | 192.0.2.0/24 | ZZ | iana | 2010-01-01"
  /\ first_txt (txt_reply Sample.platform "AS64496 64497.asn.cymru.com."
                  (after_txt Sample.platform "1.2.0.192.origin.asn.cymru.com."
                     Sample.start))
     = None
  /\ fst (LookupASN Sample.platform "192.0.2.1" Sample.start)
     = Some (mkASN "AS64496 64497" "").
Proof.
  assert (H3 : no_origin_name Sample.platform "1.2.3").
  { right. split; [reflexivity | discriminate]. }
  assert (H6 : no_origin_name Sample.platform "fe80::zz").
  { left. split; [reflexivity | now left]. }
  destruct (LookupASN_absent_exactly Sample.platform "1.2.3" Sample.start)
    as (_ & Hnil3 & _).
  destruct (LookupASN_absent_exactly Sample.platform "fe80::zz" Sample.start)
    as (_ & Hnil6 & _).
  destruct (LookupASN_absent_exactly Sample.platform "192.0.2.1" Sample.start)
    as (_ & _ & _ & _ & Hpart).
  split; [exact H3 |]. split; [exact (Hnil3 H3) |].
  split; [exact H6 |]. split; [exact (Hnil6 H6) |].
  split; [reflexivity |]. split; [reflexivity |]. split; [reflexivity |].
  exact (Hpart "1.2.0.192.origin.asn.cymru.com."
           "64496 64497 | 192.0.2.0/24 | ZZ | iana | 2010-01-01"
           eq_refl eq_refl eq_refl).
Defined.
